(** * RepairConnect: the provider-assignment engine

    A shallow embedding of the assignment code of the repository:

    - [calculateDistance] (both edge functions carry the same copy),
    - the [service_requests] triggers installed by the migrations,
    - the single-request edge function (the handler that follows
      [map-config.ts], and its earlier revision with the joined query and
      the explicit history insert),
    - the batch edge function [assign-pending-requests],
    - [handleMarkCompleted] of [ProviderJobActions.tsx].

    JavaScript numbers are idealised: a number is either [NaN] or a real
    number, so rounding and overflow of IEEE doubles are not modelled, and
    nothing is stated here about the digits [calculateDistance] returns.
    What the handlers' properties use of it is that it is a function of its
    four arguments, that a [NaN] argument gives [NaN], and how its result
    compares with a radius on the scenarios.  [Binary64.calculateDistance]
    is the same function on IEEE doubles, with [Math.sin], [Math.cos] and
    [Math.atan2] as parameters.  The data store is a record of tables,
    every table a list of rows in the order the store returns them. *)

From Stdlib Require Import Reals Machin Lra Lia List Bool String Ascii Arith.
From Stdlib Require Import Permutation Sorted DecimalString ZArith SpecFloat.
Import ListNotations.

Set Implicit Arguments.

(* ================================================================== *)
(** * JavaScript numbers *)
(* ================================================================== *)

Module JS.

Local Open Scope R_scope.

(** A number is [NaN] or a real. *)
Inductive number : Type :=
| NaN : number
| Num : R -> number.

Definition lift1 (f : R -> R) (a : number) : number :=
  match a with
  | Num x => Num (f x)
  | NaN => NaN
  end.

Definition lift2 (f : R -> R -> R) (a b : number) : number :=
  match a, b with
  | Num x, Num y => Num (f x y)
  | _, _ => NaN
  end.

Definition add : number -> number -> number := lift2 Rplus.
Definition sub : number -> number -> number := lift2 Rminus.
Definition mul : number -> number -> number := lift2 Rmult.

(** [x / y]; a zero divisor has no real quotient and is mapped to [NaN]
    (no divisor of the program is zero: they are [2] and [180]). *)
Definition div (a b : number) : number :=
  match a, b with
  | Num x, Num y => if Req_dec_T y 0 then NaN else Num (x / y)
  | _, _ => NaN
  end.

(** [Math.sin], [Math.cos] and [Math.PI]. *)
Definition Math_sin : number -> number := lift1 sin.
Definition Math_cos : number -> number := lift1 cos.
Definition Math_PI : number := Num PI.

(** [Math.sqrt]: [NaN] below zero. *)
Definition Math_sqrt (a : number) : number :=
  match a with
  | Num x => if Rlt_dec x 0 then NaN else Num (sqrt x)
  | NaN => NaN
  end.

(** The angle of the point [(x, y)], as [Math.atan2 y x] is specified. *)
Definition atan2R (y x : R) : R :=
  if Rlt_dec 0 x then atan (y / x)
  else if Rlt_dec x 0 then
         if Rle_dec 0 y then atan (y / x) + PI else atan (y / x) - PI
  else if Rlt_dec 0 y then PI / 2
  else if Rlt_dec y 0 then - (PI / 2)
  else 0.

Definition Math_atan2 : number -> number -> number := lift2 atan2R.

(** [a <= b]: false as soon as one side is [NaN]. *)
Definition le (a b : number) : bool :=
  match a, b with
  | Num x, Num y => if Rle_dec x y then true else false
  | _, _ => false
  end.

(** [a > 0], the test a sort makes on the result of its comparator; a
    [NaN] result counts as [+0]. *)
Definition positive (a : number) : bool :=
  match a with
  | Num x => if Rlt_dec 0 x then true else false
  | NaN => false
  end.

(** [parseFloat] of a column value: SQL [NULL] reads as [NaN]. *)
Definition parseFloat (v : option R) : number :=
  match v with
  | Some x => Num x
  | None => NaN
  end.

Definition is_num (a : number) : Prop :=
  match a with
  | Num _ => True
  | NaN => False
  end.

End JS.

Import JS.

Declare Scope js_scope.
Delimit Scope js_scope with js.
Infix "+" := JS.add : js_scope.
Infix "-" := JS.sub : js_scope.
Infix "*" := JS.mul : js_scope.
Infix "/" := JS.div : js_scope.

(* ================================================================== *)
(** * The distance calculator *)
(* ================================================================== *)

(** [calculateDistance], line by line. *)
Definition calculateDistance (lat1 lon1 lat2 lon2 : number) : number :=
  let R := Num 6371 in
  let dLat := ((lat2 - lat1) * (Math_PI / Num 180))%js in
  let dLon := ((lon2 - lon1) * (Math_PI / Num 180))%js in
  let a :=
    (Math_sin (dLat / Num 2) * Math_sin (dLat / Num 2) +
     Math_cos (lat1 * (Math_PI / Num 180)) *
     Math_cos (lat2 * (Math_PI / Num 180)) *
     Math_sin (dLon / Num 2) *
     Math_sin (dLon / Num 2))%js in
  let c := (Num 2 * Math_atan2 (Math_sqrt a) (Math_sqrt (Num 1 - a)))%js in
  (R * c)%js.

(** The closed form of the model's result: the great-circle distance on a
    sphere of radius 6371 km,
    [2 R asin (sqrt (hav dphi + cos phi1 cos phi2 hav dlambda))], with
    angles converted from degrees. *)
Definition radians (deg : R) : R := (deg * PI / 180)%R.

Definition hav (x : R) : R := (Rsqr (sin (x / 2)))%R.

Definition haversine_a (lat1 lon1 lat2 lon2 : R) : R :=
  (hav (radians lat2 - radians lat1) +
   cos (radians lat1) * cos (radians lat2) *
   hav (radians lon2 - radians lon1))%R.

Definition haversine_km (lat1 lon1 lat2 lon2 : R) : R :=
  (2 * 6371 * asin (sqrt (haversine_a lat1 lon1 lat2 lon2)))%R.

(* ================================================================== *)
(** * The distance calculator on IEEE doubles *)
(* ================================================================== *)

(** [calculateDistance] once more, on binary64 numbers: [+], [-], [*], [/]
    and [Math.sqrt] are the correctly rounded operations of IEEE 754, as
    [SpecFloat] defines them; [Math.sin], [Math.cos] and [Math.atan2],
    which ECMAScript leaves implementation-approximated, are parameters. *)
Module Binary64.

Local Open Scope Z_scope.

Definition prec : Z := 53.
Definition emax : Z := 1024.

(** A JavaScript number. *)
Definition double : Type := spec_float.

Definition is_double (x : double) : Prop := valid_binary prec emax x = true.

(** Neither [NaN] nor an infinity. *)
Definition finite_or_zero (x : double) : Prop :=
  match x with
  | S754_zero _ | S754_finite _ _ _ => True
  | _ => False
  end.

Definition add : double -> double -> double := SFadd prec emax.
Definition sub : double -> double -> double := SFsub prec emax.
Definition mul : double -> double -> double := SFmul prec emax.
Definition div : double -> double -> double := SFdiv prec emax.
Definition Math_sqrt : double -> double := SFsqrt prec emax.

(** An integer literal. *)
Definition of_Z (n : Z) : double := binary_normalize prec emax n 0 false.

(** [Math.PI], the double nearest to pi: 0x1.921fb54442d18p+1. *)
Definition Math_PI : double := S754_finite false 7074237752028440 (-51).

(** The three functions of the host. *)
Record host : Type := mkHost
  { Math_sin : double -> double;
    Math_cos : double -> double;
    Math_atan2 : double -> double -> double }.

Definition calculateDistance (h : host) (lat1 lon1 lat2 lon2 : double) : double :=
  let R := of_Z 6371 in
  let dLat := mul (sub lat2 lat1) (div Math_PI (of_Z 180)) in
  let dLon := mul (sub lon2 lon1) (div Math_PI (of_Z 180)) in
  let a :=
    add (mul (Math_sin h (div dLat (of_Z 2))) (Math_sin h (div dLat (of_Z 2))))
        (mul (mul (mul (Math_cos h (mul lat1 (div Math_PI (of_Z 180))))
                       (Math_cos h (mul lat2 (div Math_PI (of_Z 180)))))
                  (Math_sin h (div dLon (of_Z 2))))
             (Math_sin h (div dLon (of_Z 2)))) in
  let c := mul (of_Z 2) (Math_atan2 h (Math_sqrt a) (Math_sqrt (sub (of_Z 1) a))) in
  mul R c.

(** [Math.sin(dLat / 2)] as a function of the difference in degrees. *)
Definition half_sin (h : host) (d : double) : double :=
  Math_sin h (div (mul d (div Math_PI (of_Z 180))) (of_Z 2)).

(** What the properties below ask of a host.  ECMAScript fixes
    [Math.sin(+0) = +0], and [Math.atan2(+0, x) = +0] for [x > 0]; that the
    sine is odd and that the cosine of a finite number lies in [[-1, 1]]
    is true of the implementations, and not required by the standard. *)
Definition sin_of_zero (h : host) : Prop :=
  Math_sin h (S754_zero false) = S754_zero false.

Definition sin_is_odd (h : host) : Prop :=
  forall x : double, Math_sin h (SFopp x) = SFopp (Math_sin h x).

Definition cos_in_range (h : host) : Prop :=
  forall x : double,
    finite_or_zero x ->
    is_double (Math_cos h x) /\ SFleb (SFabs (Math_cos h x)) (of_Z 1) = true.

Definition atan2_of_zero (h : host) : Prop :=
  forall x : double,
    SFltb (S754_zero false) x = true ->
    Math_atan2 h (S754_zero false) x = S754_zero false.

(** A host to try the properties on: the first-order approximations
    [sin x = x], [cos x = 1] and [atan2 y x = y / x]. *)
Definition small_angles : host :=
  mkHost (fun x => x) (fun _ => of_Z 1) (fun y x => div y x).

End Binary64.

(* ================================================================== *)
(** * The data store *)
(* ================================================================== *)

Definition uuid := string.
Definition timestamp := nat.

(** [CREATE TYPE public.request_status]. *)
Inductive request_status : Type :=
| pending | assigned | in_progress | completed | cancelled.

(** [CREATE TYPE public.app_role]. *)
Inductive app_role : Type :=
| admin | resident | provider.

Definition request_status_eqb (a b : request_status) : bool :=
  match a, b with
  | pending, pending | assigned, assigned | in_progress, in_progress
  | completed, completed | cancelled, cancelled => true
  | _, _ => false
  end.

Definition app_role_eqb (a b : app_role) : bool :=
  match a, b with
  | admin, admin | resident, resident | provider, provider => true
  | _, _ => false
  end.

(** One record per table, with the columns the code reads or writes. *)
Module Profile.
Record t : Type := mk
  { id : uuid;
    name : string;
    location_lat : option R;
    location_lng : option R }.
End Profile.

Module UserRole.
Record t : Type := mk
  { user_id : uuid;
    role : app_role }.
End UserRole.

Module ProviderProfile.
Record t : Type := mk
  { id : uuid;
    user_id : uuid;
    service_area_radius_km : option R;
    is_available : option bool }.
End ProviderProfile.

Module ProviderCategory.
Record t : Type := mk
  { provider_profile_id : uuid;
    category_id : uuid }.
End ProviderCategory.

Module ServiceRequest.
Record t : Type := mk
  { id : uuid;
    resident_id : uuid;
    provider_id : option uuid;
    category_id : uuid;
    status : request_status;
    location_lat : R;
    location_lng : R;
    updated_at : timestamp;
    assigned_at : option timestamp;
    completed_at : option timestamp }.
End ServiceRequest.

(** The note the earlier revision of the single-request handler writes:
    [Automatically assigned to provider NAME (DISTANCE km away)]. *)
Inductive history_note : Type :=
| AutomaticallyAssigned (providerName : string) (distance : number).

Module RequestStatusHistory.
Record t : Type := mk
  { request_id : uuid;
    status : request_status;
    changed_by : option uuid;
    notes : option history_note;
    created_at : timestamp }.
End RequestStatusHistory.

Module Notification.
Record t : Type := mk
  { user_id : uuid;
    title : string;
    message : string;
    type : string;
    related_request_id : uuid }.
End Notification.

Record store : Type := mkStore
  { profiles : list Profile.t;
    user_roles : list UserRole.t;
    provider_profiles : list ProviderProfile.t;
    provider_categories : list ProviderCategory.t;
    service_requests : list ServiceRequest.t;
    request_status_history : list RequestStatusHistory.t;
    notifications : list Notification.t }.

Definition set_service_requests (s : store) (rows : list ServiceRequest.t) : store :=
  mkStore (profiles s) (user_roles s) (provider_profiles s)
          (provider_categories s) rows (request_status_history s)
          (notifications s).

Definition add_history (s : store) (rows : list RequestStatusHistory.t) : store :=
  mkStore (profiles s) (user_roles s) (provider_profiles s)
          (provider_categories s) (service_requests s)
          (request_status_history s ++ rows) (notifications s).

(** [supabase.from('notifications').insert(...)]. *)
Definition insert_notifications (s : store) (rows : list Notification.t) : store :=
  mkStore (profiles s) (user_roles s) (provider_profiles s)
          (provider_categories s) (service_requests s)
          (request_status_history s) (notifications s ++ rows).

(** [.single()]: the row when exactly one matches, an error otherwise. *)
Definition single {A : Type} (rows : list A) : option A :=
  match rows with
  | [r] => Some r
  | _ => None
  end.

(** [x IN (...)] *)
Definition uuid_in (x : uuid) (l : list uuid) : bool :=
  existsb (String.eqb x) l.

(** Who runs a statement: an edge function with the service-role key, for
    which [auth.uid()] is null and row-level security is bypassed, or a
    signed-in user. *)
Inductive session : Type :=
| service_role
| authenticated (uid : uuid).

Definition auth_uid (who : session) : option uuid :=
  match who with
  | service_role => None
  | authenticated u => Some u
  end.

(** ** Triggers on [service_requests] *)

Inductive TG_OP : Type := INSERT | UPDATE.

Definition with_updated_at (r : ServiceRequest.t) (t : timestamp) :=
  ServiceRequest.mk (ServiceRequest.id r) (ServiceRequest.resident_id r)
    (ServiceRequest.provider_id r) (ServiceRequest.category_id r)
    (ServiceRequest.status r) (ServiceRequest.location_lat r)
    (ServiceRequest.location_lng r) t (ServiceRequest.assigned_at r)
    (ServiceRequest.completed_at r).

Definition with_assigned_at (r : ServiceRequest.t) (t : option timestamp) :=
  ServiceRequest.mk (ServiceRequest.id r) (ServiceRequest.resident_id r)
    (ServiceRequest.provider_id r) (ServiceRequest.category_id r)
    (ServiceRequest.status r) (ServiceRequest.location_lat r)
    (ServiceRequest.location_lng r) (ServiceRequest.updated_at r) t
    (ServiceRequest.completed_at r).

Definition with_completed_at (r : ServiceRequest.t) (t : option timestamp) :=
  ServiceRequest.mk (ServiceRequest.id r) (ServiceRequest.resident_id r)
    (ServiceRequest.provider_id r) (ServiceRequest.category_id r)
    (ServiceRequest.status r) (ServiceRequest.location_lat r)
    (ServiceRequest.location_lng r) (ServiceRequest.updated_at r)
    (ServiceRequest.assigned_at r) t.

Definition with_status (r : ServiceRequest.t) (st : request_status) :=
  ServiceRequest.mk (ServiceRequest.id r) (ServiceRequest.resident_id r)
    (ServiceRequest.provider_id r) (ServiceRequest.category_id r)
    st (ServiceRequest.location_lat r)
    (ServiceRequest.location_lng r) (ServiceRequest.updated_at r)
    (ServiceRequest.assigned_at r) (ServiceRequest.completed_at r).

Definition with_provider_id (r : ServiceRequest.t) (p : option uuid) :=
  ServiceRequest.mk (ServiceRequest.id r) (ServiceRequest.resident_id r)
    p (ServiceRequest.category_id r)
    (ServiceRequest.status r) (ServiceRequest.location_lat r)
    (ServiceRequest.location_lng r) (ServiceRequest.updated_at r)
    (ServiceRequest.assigned_at r) (ServiceRequest.completed_at r).

Definition is_none {A : Type} (o : option A) : bool :=
  match o with
  | None => true
  | Some _ => false
  end.

(** [update_updated_at_column]: [NEW.updated_at = NOW()]. *)
Definition update_updated_at_column (now : timestamp) (NEW : ServiceRequest.t)
  : ServiceRequest.t :=
  with_updated_at NEW now.

(** [update_request_timestamps]: fills a timestamp the statement left null. *)
Definition update_request_timestamps (now : timestamp) (NEW : ServiceRequest.t)
  : ServiceRequest.t :=
  if request_status_eqb (ServiceRequest.status NEW) assigned
     && is_none (ServiceRequest.assigned_at NEW)
  then with_assigned_at NEW (Some now)
  else if request_status_eqb (ServiceRequest.status NEW) completed
          && is_none (ServiceRequest.completed_at NEW)
  then with_completed_at NEW (Some now)
  else NEW.

(** [COALESCE(auth.uid(), NEW.resident_id)] *)
Definition coalesce (a : option uuid) (b : uuid) : option uuid :=
  match a with
  | Some x => Some x
  | None => Some b
  end.

(** [log_request_status_change], as the last migration defines it: the rows
    it inserts into [request_status_history]. *)
Definition log_request_status_change
  (op : TG_OP) (who : session) (now : timestamp)
  (OLD : option ServiceRequest.t) (NEW : ServiceRequest.t)
  : list RequestStatusHistory.t :=
  let is_insert := match op with INSERT => true | UPDATE => false end in
  let status_distinct :=
    match OLD with
    | Some old =>
        negb (request_status_eqb (ServiceRequest.status old)
                                 (ServiceRequest.status NEW))
    | None => true
    end in
  if is_insert || status_distinct
  then [RequestStatusHistory.mk (ServiceRequest.id NEW)
          (ServiceRequest.status NEW)
          (coalesce (auth_uid who) (ServiceRequest.resident_id NEW))
          None now]
  else [].

(** ** Row-level security of [service_requests] *)

(** [public.has_role] *)
Definition has_role (s : store) (u : uuid) (r : app_role) : bool :=
  existsb (fun ur => String.eqb (UserRole.user_id ur) u
                     && app_role_eqb (UserRole.role ur) r)
          (user_roles s).

(** The request is assigned to a provider profile owned by [u]. *)
Definition assigned_to_user (s : store) (u : uuid) (r : ServiceRequest.t) : bool :=
  match ServiceRequest.provider_id r with
  | Some p =>
      existsb (fun pp => String.eqb (ProviderProfile.id pp) p
                         && String.eqb (ProviderProfile.user_id pp) u)
              (provider_profiles s)
  | None => false
  end.

(** The [FOR SELECT] policies. *)
Definition can_select (s : store) (who : session) (r : ServiceRequest.t) : bool :=
  match who with
  | service_role => true
  | authenticated u =>
      String.eqb u (ServiceRequest.resident_id r)
      || assigned_to_user s u r
      || has_role s u admin
  end.

(** The [FOR UPDATE] policies. *)
Definition can_update (s : store) (who : session) (r : ServiceRequest.t) : bool :=
  match who with
  | service_role => true
  | authenticated u =>
      (String.eqb u (ServiceRequest.resident_id r)
       && request_status_eqb (ServiceRequest.status r) pending)
      || assigned_to_user s u r
      || has_role s u admin
  end.

(** ** Statements on [service_requests] *)

(** One row of an [UPDATE]: the [SET] clause, the [BEFORE UPDATE] triggers
    in the order of their names, then the [AFTER UPDATE] trigger. *)
Definition update_row (who : session) (now : timestamp)
  (set : ServiceRequest.t -> ServiceRequest.t) (OLD : ServiceRequest.t)
  : ServiceRequest.t * list RequestStatusHistory.t :=
  let NEW := set OLD in
  let NEW := update_request_timestamps now NEW in
  let NEW := update_updated_at_column now NEW in
  (NEW, log_request_status_change UPDATE who now (Some OLD) NEW).

(** [UPDATE service_requests SET ... WHERE ...]: the new rows and the
    history rows the trigger wrote, in row order. *)
Fixpoint update_rows (who : session) (now : timestamp)
  (where_ : ServiceRequest.t -> bool)
  (set : ServiceRequest.t -> ServiceRequest.t)
  (rows : list ServiceRequest.t)
  : list ServiceRequest.t * list RequestStatusHistory.t :=
  match rows with
  | [] => ([], [])
  | r :: rest =>
      let (rest', h') := update_rows who now where_ set rest in
      if where_ r
      then let (r', h) := update_row who now set r in (r' :: rest', h ++ h')
      else (r :: rest', h')
  end.

(** The [FOR UPDATE] policies have a [USING] clause and no [WITH CHECK], so
    the same expressions are checked on the row the statement proposes to
    store, once the [BEFORE UPDATE] triggers have run: when one of the rows
    it selects would no longer pass any policy, the statement is refused
    with an error (new row violates row-level security policy). *)
Definition violates_with_check (who : session) (now : timestamp)
  (where_ : ServiceRequest.t -> bool)
  (set : ServiceRequest.t -> ServiceRequest.t) (s : store) : bool :=
  existsb (fun r => can_update s who r && where_ r
                    && negb (can_update s who (fst (update_row who now set r))))
          (service_requests s).

(** The store after the statement; a refused statement writes nothing. *)
Definition update_service_requests (who : session) (now : timestamp)
  (where_ : ServiceRequest.t -> bool)
  (set : ServiceRequest.t -> ServiceRequest.t) (s : store) : store :=
  if violates_with_check who now where_ set s
  then s
  else
    let (rows, h) :=
      update_rows who now (fun r => can_update s who r && where_ r) set
                  (service_requests s) in
    add_history (set_service_requests s rows) h.

(** The number of rows a statement with this [WHERE] clause affects, when
    it is not refused. *)
Definition rows_affected (who : session)
  (where_ : ServiceRequest.t -> bool) (s : store) : nat :=
  List.length (filter (fun r => can_update s who r && where_ r)
                      (service_requests s)).

(** The [FOR INSERT] policy: [WITH CHECK (auth.uid() = resident_id)]. *)
Definition can_insert (who : session) (NEW : ServiceRequest.t) : bool :=
  match who with
  | service_role => true
  | authenticated u => String.eqb u (ServiceRequest.resident_id NEW)
  end.

(** [INSERT INTO service_requests], refused when the policy rejects the
    row: no [BEFORE INSERT] trigger is left after the last migration;
    [log_request_status_change] runs [AFTER INSERT]. *)
Definition insert_service_request (who : session) (now : timestamp)
  (NEW : ServiceRequest.t) (s : store) : store :=
  if can_insert who NEW
  then add_history (set_service_requests s (service_requests s ++ [NEW]))
                   (log_request_status_change INSERT who now None NEW)
  else s.

(** The row [CreateRequest] inserts: status [pending], no provider; the
    identifier is the one [gen_random_uuid()] draws. *)
Definition new_request (id resident_id category_id : uuid) (lat lng : R)
  (now : timestamp) : ServiceRequest.t :=
  ServiceRequest.mk id resident_id None category_id pending lat lng now None None.

(* ================================================================== *)
(** * Responses and faults *)
(* ================================================================== *)

Open Scope string_scope.

(** The [provider] object of a success body; [distance.toFixed(2)] is kept
    as the number it prints. *)
Record provider_info : Type := mkProviderInfo
  { info_id : uuid;
    info_name : string;
    info_distance : number }.

(** An HTTP response: the status code and the keys of the JSON body. *)
Record response : Type := mkResponse
  { http_status : nat;
    success : option bool;
    message : option string;
    error : option string;
    requestId : option uuid;
    provider_ : option provider_info;
    assignedCount : option nat }.

(** What the invocation cannot read from the store: the clock, and the
    requests on which the store answers an update with an error. *)
Record environment : Type := mkEnv
  { now : timestamp;
    update_error : uuid -> bool }.

(** A candidate of the ranking. *)
Record candidate : Type := mkCandidate
  { providerId : uuid;
    providerName : string;
    distance : number;
    serviceRadius : number }.

(** ** [Array.prototype.sort] *)

(** The sort is stable, so with a consistent comparator its result is the
    one of any stable sort; here, insertion from the right. *)
Section Sort.
Variable A : Type.
Variable compareFn : A -> A -> number.

Fixpoint sort_insert (x : A) (l : list A) : list A :=
  match l with
  | [] => [x]
  | y :: ys =>
      if JS.positive (compareFn x y)
      then y :: sort_insert x ys
      else x :: y :: ys
  end.

Definition Array_sort (l : list A) : list A :=
  fold_right sort_insert [] l.
End Sort.

(** [(a, b) => a.distance - b.distance] *)
Definition by_distance (a b : candidate) : number :=
  (distance a - distance b)%js.

(** [p.distance <= p.serviceRadius] *)
Definition within_radius (p : candidate) : bool :=
  JS.le (distance p) (serviceRadius p).

(** [.filter(...).sort(...)]: the end of both revisions' pipeline, once the
    candidates without a location ([null]) are dropped. *)
Definition rank (cands : list candidate) : list candidate :=
  Array_sort by_distance (filter within_radius cands).

(* ================================================================== *)
(** * Single-request assignment *)
(* ================================================================== *)

Module AssignProvider.

(** [.from('service_requests').select(...).eq('id', requestId).single()] *)
Definition fetch_request (s : store) (requestId : uuid) : option ServiceRequest.t :=
  single (filter (fun r => String.eqb (ServiceRequest.id r) requestId)
                 (service_requests s)).

(** [.from('provider_categories').select('provider_profile_id')
     .eq('category_id', request.category_id)] *)
Definition fetch_providerCategories (s : store) (request : ServiceRequest.t)
  : list ProviderCategory.t :=
  filter (fun pc => String.eqb (ProviderCategory.category_id pc)
                               (ServiceRequest.category_id request))
         (provider_categories s).

Definition is_true (b : option bool) : bool :=
  match b with
  | Some true => true
  | _ => false
  end.

(** [.from('provider_profiles')....in('id', ...).eq('is_available', true)] *)
Definition fetch_providerProfiles (s : store)
  (providerCategories : list ProviderCategory.t) : list ProviderProfile.t :=
  filter (fun pp =>
            uuid_in (ProviderProfile.id pp)
                    (map ProviderCategory.provider_profile_id providerCategories)
            && is_true (ProviderProfile.is_available pp))
         (provider_profiles s).

(** [.from('profiles')....in('id', userIds)] *)
Definition fetch_profiles (s : store) (providerProfiles : list ProviderProfile.t)
  : list Profile.t :=
  filter (fun p => uuid_in (Profile.id p)
                           (map ProviderProfile.user_id providerProfiles))
         (profiles s).

(** The callback of [providerProfiles.map]: [null] for a provider without a
    profile or without a coordinate. *)
Definition with_distance (request : ServiceRequest.t) (profiles : list Profile.t)
  (provider : ProviderProfile.t) : option candidate :=
  match find (fun p => String.eqb (Profile.id p) (ProviderProfile.user_id provider))
             profiles with
  | None => None
  | Some profile =>
      match Profile.location_lat profile, Profile.location_lng profile with
      | Some _, Some _ =>
          let distance :=
            calculateDistance
              (Num (ServiceRequest.location_lat request))
              (Num (ServiceRequest.location_lng request))
              (parseFloat (Profile.location_lat profile))
              (parseFloat (Profile.location_lng profile)) in
          Some (mkCandidate (ProviderProfile.id provider)
                            (Profile.name profile)
                            distance
                            (parseFloat (ProviderProfile.service_area_radius_km provider)))
      | _, _ => None
      end
  end.

Fixpoint drop_null {A : Type} (l : list (option A)) : list A :=
  match l with
  | [] => []
  | Some x :: rest => x :: drop_null rest
  | None :: rest => drop_null rest
  end.

(** The candidates that have a distance, in the order of the profiles. *)
Definition candidates (request : ServiceRequest.t)
  (providerProfiles : list ProviderProfile.t) (profiles : list Profile.t)
  : list candidate :=
  drop_null (map (with_distance request profiles) providerProfiles).

(** [providersWithDistance] *)
Definition providersWithDistance (s : store) (request : ServiceRequest.t)
  : list candidate :=
  let providerCategories := fetch_providerCategories s request in
  let providerProfiles := fetch_providerProfiles s providerCategories in
  let profiles := fetch_profiles s providerProfiles in
  rank (candidates request providerProfiles profiles).

(** The rows of [user_roles] with [role = 'admin']. *)
Definition adminUsers (s : store) : list UserRole.t :=
  filter (fun ur => app_role_eqb (UserRole.role ur) admin) (user_roles s).

Definition adminNotifications (s : store) (requestId : uuid)
  : list Notification.t :=
  map (fun admin_ =>
         Notification.mk (UserRole.user_id admin_)
           "Assignment Failed"
           ("No available provider found for request " ++ requestId)
           "warning"
           requestId)
      (adminUsers s).

(** The [catch] handler. *)
Definition hard_failure (msg : string) : response :=
  mkResponse 400 (Some false) None (Some msg) None None None.

Definition no_match (msg : string) (requestId : uuid) : response :=
  mkResponse 200 (Some false) (Some msg) None (Some requestId) None None.

(** The [SET] clause of the assignment. *)
Definition set_assigned (providerId : uuid) (t : timestamp)
  (r : ServiceRequest.t) : ServiceRequest.t :=
  with_assigned_at (with_status (with_provider_id r (Some providerId)) assigned)
                   (Some t).

(** [.update({...}).eq('id', requestId)] *)
Definition commit (e : environment) (requestId : uuid) (providerId : uuid)
  (s : store) : store :=
  update_service_requests service_role (now e)
    (fun r => String.eqb (ServiceRequest.id r) requestId)
    (set_assigned providerId (now e)) s.

Definition resident_notification (request : ServiceRequest.t)
  (assignedProvider : candidate) (requestId : uuid) : Notification.t :=
  Notification.mk (ServiceRequest.resident_id request)
    "Service Request Assigned"
    ("Your request has been assigned to " ++ providerName assignedProvider)
    "success"
    requestId.

Definition provider_notification (user_id : uuid) (requestId : uuid)
  : Notification.t :=
  Notification.mk user_id
    "New Job Assignment"
    "You have been assigned a new service request"
    "info"
    requestId.

(** The handler of the edge function, on body [{ requestId }]. *)
Definition handler (e : environment) (requestId : uuid) (s : store)
  : store * response :=
  match fetch_request s requestId with
  | None => (s, hard_failure "Service request not found")
  | Some request =>
      let providerCategories := fetch_providerCategories s request in
      if Nat.eqb (List.length providerCategories) 0
      then (s, no_match "No providers available for this category" requestId)
      else
        match providersWithDistance s request with
        | [] =>
            let s1 :=
              match adminUsers s with
              | [] => s
              | _ :: _ => insert_notifications s (adminNotifications s requestId)
              end in
            (s1, no_match "No available providers found in service area" requestId)
        | assignedProvider :: _ =>
            if update_error e requestId
            then (s, hard_failure "Failed to assign provider")
            else
              let s1 := commit e requestId (providerId assignedProvider) s in
              let providerProfile :=
                single (filter (fun pp => String.eqb (ProviderProfile.id pp)
                                                     (providerId assignedProvider))
                               (provider_profiles s1)) in
              let s2 :=
                insert_notifications s1
                  [resident_notification request assignedProvider requestId] in
              let s3 :=
                match providerProfile with
                | Some pp =>
                    if String.eqb (ProviderProfile.user_id pp) ""
                    then s2
                    else insert_notifications s2
                           [provider_notification (ProviderProfile.user_id pp)
                                                  requestId]
                | None => s2
                end in
              (s3,
               mkResponse 200 (Some true)
                 (Some "Provider assigned successfully") None
                 (Some requestId)
                 (Some (mkProviderInfo (providerId assignedProvider)
                                       (providerName assignedProvider)
                                       (distance assignedProvider)))
                 None)
        end
  end.

End AssignProvider.

(* ================================================================== *)
(** * Single-request assignment, earlier revision *)
(* ================================================================== *)

(** ** Foreign keys and embedded resources

    The tables of the migrations and the foreign keys they declare;
    [profiles], [user_roles] and [provider_profiles] each reference
    [auth.users] and not one another. *)
Inductive table : Type :=
| auth_users
| profiles_table
| user_roles_table
| service_categories_table
| provider_profiles_table
| provider_categories_table
| service_requests_table
| request_status_history_table.

Definition table_eqb (a b : table) : bool :=
  match a, b with
  | auth_users, auth_users
  | profiles_table, profiles_table
  | user_roles_table, user_roles_table
  | service_categories_table, service_categories_table
  | provider_profiles_table, provider_profiles_table
  | provider_categories_table, provider_categories_table
  | service_requests_table, service_requests_table
  | request_status_history_table, request_status_history_table => true
  | _, _ => false
  end.

(** [REFERENCES]: the referencing table, then the referenced one. *)
Definition foreign_keys : list (table * table) :=
  [ (profiles_table, auth_users);
    (user_roles_table, auth_users);
    (provider_profiles_table, auth_users);
    (provider_categories_table, provider_profiles_table);
    (provider_categories_table, service_categories_table);
    (service_requests_table, profiles_table);
    (service_requests_table, provider_profiles_table);
    (service_requests_table, service_categories_table);
    (request_status_history_table, service_requests_table);
    (request_status_history_table, profiles_table) ].

(** A [select] can embed one table in another when a foreign key joins the
    two, in either direction; otherwise the query is answered with an
    error and no data.  (A junction table would also do, one whose primary
    key is made of foreign keys to both; every table here has the single
    key [id].) *)
Definition embeddable (outer inner : table) : bool :=
  existsb (fun fk => (table_eqb (fst fk) outer && table_eqb (snd fk) inner)
                     || (table_eqb (fst fk) inner && table_eqb (snd fk) outer))
          foreign_keys.

(** The revision of the handler that reads the providers through one joined
    query and writes the history row itself. *)
Module AssignProviderJoined.

(** A row of the joined query: the provider profile embedded in the
    [provider_categories] row, and the profile embedded in it. *)
Record joined : Type := mkJoined
  { provider_profiles_ : ProviderProfile.t;
    profiles_ : Profile.t }.

(** [provider_profiles!inner (..., profiles!inner (...))], were both
    embeddings resolved on the columns the later revision joins by hand: a
    category row without its provider profile, or whose provider has no
    profile, is not returned. *)
Definition join (s : store) (pc : ProviderCategory.t) : option joined :=
  match find (fun pp => String.eqb (ProviderProfile.id pp)
                                   (ProviderCategory.provider_profile_id pc))
             (provider_profiles s) with
  | None => None
  | Some pp =>
      match find (fun p => String.eqb (Profile.id p) (ProviderProfile.user_id pp))
                 (profiles s) with
      | None => None
      | Some p => Some (mkJoined pp p)
      end
  end.

(** The query on [provider_categories] with its two embeddings: the rows,
    or [None] for [categoriesError]. *)
Definition fetch_providerCategories (s : store) (request : ServiceRequest.t)
  : option (list joined) :=
  if embeddable provider_categories_table provider_profiles_table
     && embeddable provider_profiles_table profiles_table
  then
    Some (AssignProvider.drop_null
            (map (join s)
                 (filter (fun pc => String.eqb (ProviderCategory.category_id pc)
                                               (ServiceRequest.category_id request))
                         (provider_categories s))))
  else None.

(** [isAvailable && hasLocation] *)
Definition available_with_location (pc : joined) : bool :=
  AssignProvider.is_true (ProviderProfile.is_available (provider_profiles_ pc))
  && negb (is_none (Profile.location_lat (profiles_ pc)))
  && negb (is_none (Profile.location_lng (profiles_ pc))).

(** A [null] column used as a number without [parseFloat]: in a comparison
    it converts to [+0]. *)
Definition to_number (v : option R) : number :=
  match v with
  | Some x => Num x
  | None => Num 0
  end.

Definition with_distance (request : ServiceRequest.t) (pc : joined) : candidate :=
  let provider := provider_profiles_ pc in
  let profile := profiles_ pc in
  mkCandidate (ProviderProfile.id provider)
              (Profile.name profile)
              (calculateDistance
                 (Num (ServiceRequest.location_lat request))
                 (Num (ServiceRequest.location_lng request))
                 (to_number (Profile.location_lat profile))
                 (to_number (Profile.location_lng profile)))
              (to_number (ProviderProfile.service_area_radius_km provider)).

Definition providersWithDistance (request : ServiceRequest.t)
  (providerCategories : list joined) : list candidate :=
  rank (map (with_distance request)
            (filter available_with_location providerCategories)).

(** [.from('request_status_history').insert({...})] *)
Definition history_entry (e : environment) (request : ServiceRequest.t)
  (requestId : uuid) (assignedProvider : candidate) : RequestStatusHistory.t :=
  RequestStatusHistory.mk requestId assigned
    (Some (ServiceRequest.resident_id request))
    (Some (AutomaticallyAssigned (providerName assignedProvider)
                                 (distance assignedProvider)))
    (now e).

Definition handler (e : environment) (requestId : uuid) (s : store)
  : store * response :=
  match AssignProvider.fetch_request s requestId with
  | None => (s, AssignProvider.hard_failure "Service request not found")
  | Some request =>
      match fetch_providerCategories s request with
      | None => (s, AssignProvider.hard_failure "Failed to fetch providers")
      | Some providerCategories =>
          match providersWithDistance request providerCategories with
          | [] =>
              (s, AssignProvider.no_match
                    "No available providers found in service area" requestId)
          | assignedProvider :: _ =>
              if update_error e requestId
              then (s, AssignProvider.hard_failure "Failed to assign provider")
              else
                let s1 := AssignProvider.commit e requestId
                            (providerId assignedProvider) s in
                let s2 := add_history s1
                            [history_entry e request requestId assignedProvider] in
                (s2,
                 mkResponse 200 (Some true)
                   (Some "Provider assigned successfully") None
                   (Some requestId)
                   (Some (mkProviderInfo (providerId assignedProvider)
                                         (providerName assignedProvider)
                                         (distance assignedProvider)))
                   None)
          end
      end
  end.

End AssignProviderJoined.

(* ================================================================== *)
(** * Batch assignment: [assign-pending-requests] *)
(* ================================================================== *)

Module AssignPendingRequests.

Definition json_error (code : nat) (msg : string) : response :=
  mkResponse code None None (Some msg) None None None.

(** [providerProfile.service_area_radius_km?.toString() || '10'], parsed. *)
Definition serviceRadius (providerProfile : ProviderProfile.t) : number :=
  match ProviderProfile.service_area_radius_km providerProfile with
  | Some r => Num r
  | None => Num 10
  end.

(** The pending requests of the provider's categories, without provider. *)
Definition fetch_pendingRequests (s : store) (categoryIds : list uuid)
  : list ServiceRequest.t :=
  filter (fun r => request_status_eqb (ServiceRequest.status r) pending
                   && uuid_in (ServiceRequest.category_id r) categoryIds
                   && is_none (ServiceRequest.provider_id r))
         (service_requests s).

(** [.update({...}).eq('id', request.id).eq('status', 'pending')] *)
Definition assign (e : environment) (providerProfile : ProviderProfile.t)
  (request : ServiceRequest.t) (s : store) : store :=
  update_service_requests service_role (now e)
    (fun r => String.eqb (ServiceRequest.id r) (ServiceRequest.id request)
              && request_status_eqb (ServiceRequest.status r) pending)
    (AssignProvider.set_assigned (ProviderProfile.id providerProfile) (now e)) s.

Definition resident_notification (request : ServiceRequest.t) : Notification.t :=
  Notification.mk (ServiceRequest.resident_id request)
    "Service Provider Assigned"
    "A service provider has been assigned to your request."
    "request_assigned"
    (ServiceRequest.id request).

Definition provider_notification (userId : uuid) (request : ServiceRequest.t)
  : Notification.t :=
  Notification.mk userId
    "New Service Assignment"
    "You have been assigned a new service request."
    "new_assignment"
    (ServiceRequest.id request).

(** [distance <= serviceRadius] for one pending request. *)
Definition in_range (providerLat providerLng radius : number)
  (request : ServiceRequest.t) : bool :=
  JS.le (calculateDistance providerLat providerLng
           (Num (ServiceRequest.location_lat request))
           (Num (ServiceRequest.location_lng request)))
        radius.

(** The body of the [for] loop; the state is the store and [assignedCount]. *)
Definition step (e : environment) (userId : uuid)
  (providerProfile : ProviderProfile.t) (providerLat providerLng radius : number)
  (st : store * nat) (request : ServiceRequest.t) : store * nat :=
  let (s, assignedCount) := st in
  if in_range providerLat providerLng radius request
  then
    if update_error e (ServiceRequest.id request)
    then (s, assignedCount)
    else
      let s1 := assign e providerProfile request s in
      let s2 := insert_notifications s1 [resident_notification request] in
      let s3 := insert_notifications s2 [provider_notification userId request] in
      (s3, S assignedCount)
  else (s, assignedCount).

Definition assign_all (e : environment) (userId : uuid)
  (providerProfile : ProviderProfile.t) (providerLat providerLng radius : number)
  (pendingRequests : list ServiceRequest.t) (s : store) : store * nat :=
  fold_left (step e userId providerProfile providerLat providerLng radius)
            pendingRequests (s, 0).

Definition string_of_nat (n : nat) : string :=
  DecimalString.NilEmpty.string_of_uint (Nat.to_uint n).

(** The handler of the edge function, on body [{ userId }]. *)
Definition handler (e : environment) (userId : uuid) (s : store)
  : store * response :=
  if String.eqb userId ""
  then (s, json_error 400 "userId is required")
  else
    match single (filter (fun pp => String.eqb (ProviderProfile.user_id pp) userId)
                         (provider_profiles s)) with
    | None => (s, json_error 404 "Provider profile not found")
    | Some providerProfile =>
        if negb (AssignProvider.is_true (ProviderProfile.is_available providerProfile))
        then (s, mkResponse 200 None (Some "Provider is not available")
                   None None None None)
        else
          match single (filter (fun p => String.eqb (Profile.id p) userId)
                               (profiles s)) with
          | None => (s, json_error 404 "Provider location not found")
          | Some providerProfileData =>
              let providerCategories :=
                filter (fun pc => String.eqb (ProviderCategory.provider_profile_id pc)
                                             (ProviderProfile.id providerProfile))
                       (provider_categories s) in
              match providerCategories with
              | [] => (s, json_error 400 "Provider has no service categories")
              | _ :: _ =>
                  let categoryIds :=
                    map ProviderCategory.category_id providerCategories in
                  match fetch_pendingRequests s categoryIds with
                  | [] => (s, mkResponse 200 None
                                (Some "No pending requests found")
                                None None None (Some 0))
                  | (_ :: _) as pendingRequests =>
                      let providerLat :=
                        parseFloat (Profile.location_lat providerProfileData) in
                      let providerLng :=
                        parseFloat (Profile.location_lng providerProfileData) in
                      let radius := serviceRadius providerProfile in
                      let (s', assignedCount) :=
                        assign_all e userId providerProfile
                                   providerLat providerLng radius
                                   pendingRequests s in
                      (s', mkResponse 200 (Some true)
                             (Some ("Assigned " ++ string_of_nat assignedCount
                                    ++ " pending request(s)"))
                             None None None (Some assignedCount))
                  end
              end
          end
    end.

End AssignPendingRequests.

(* ================================================================== *)
(** * [ProviderJobActions]: marking a job completed *)
(* ================================================================== *)

Module ProviderJobActions.

(** The component renders the button unless the status it was given, a
    snapshot its parent read earlier, is [completed]. *)
Definition button_rendered (currentStatus : string) : bool :=
  negb (String.eqb currentStatus "completed").

Definition set_completed (t : timestamp) (r : ServiceRequest.t) : ServiceRequest.t :=
  with_completed_at (with_status r completed) (Some t).

(** [handleMarkCompleted]: the store afterwards, and whether the success
    toast is shown.  The update reports an error when the store fails or
    refuses the statement. *)
Definition handleMarkCompleted (who : session) (e : environment)
  (requestId : uuid) (s : store) : store * bool :=
  match single (filter (fun r => can_select s who r
                                 && String.eqb (ServiceRequest.id r) requestId)
                       (service_requests s)) with
  | None => (s, false)
  | Some request =>
      if update_error e requestId
         || violates_with_check who (now e)
              (fun r => String.eqb (ServiceRequest.id r) requestId)
              (set_completed (now e)) s
      then (s, false)
      else
        let s1 :=
          update_service_requests who (now e)
            (fun r => String.eqb (ServiceRequest.id r) requestId)
            (set_completed (now e)) s in
        let s2 :=
          if String.eqb (ServiceRequest.resident_id request) ""
          then s1
          else insert_notifications s1
                 [Notification.mk (ServiceRequest.resident_id request)
                    "Service Completed"
                    "Your service request has been marked as completed"
                    "success"
                    requestId] in
        (s2, true)
  end.

End ProviderJobActions.

(* ================================================================== *)
(** * [AvailabilityToggle] and [CreateRequest] *)
(* ================================================================== *)

(** [handleToggle]: [.update({ is_available: checked }).eq("id", profileId)] *)
Definition handleToggle (profileId : uuid) (checked : bool) (s : store) : store :=
  mkStore (profiles s) (user_roles s)
    (map (fun pp =>
            if String.eqb (ProviderProfile.id pp) profileId
            then ProviderProfile.mk (ProviderProfile.id pp)
                   (ProviderProfile.user_id pp)
                   (ProviderProfile.service_area_radius_km pp)
                   (Some checked)
            else pp)
         (provider_profiles s))
    (provider_categories s) (service_requests s)
    (request_status_history s) (notifications s).

(** The insert of [CreateRequest], by the signed-in resident. *)
Definition createRequest (user_id : uuid) (t : timestamp)
  (id category_id : uuid) (lat lng : R) (s : store) : store :=
  insert_service_request (authenticated user_id) t
    (new_request id user_id category_id lat lng t) s.

(* ================================================================== *)
(** * Properties of candidates and of the store *)
(* ================================================================== *)



(** The quantity under the square roots, in the shape the code computes it. *)
Definition code_a (lat1 lon1 lat2 lon2 : R) : R :=
  (sin ((lat2 - lat1) * (PI / 180) / 2) * sin ((lat2 - lat1) * (PI / 180) / 2) +
   cos (lat1 * (PI / 180)) * cos (lat2 * (PI / 180)) *
   sin ((lon2 - lon1) * (PI / 180) / 2) * sin ((lon2 - lon1) * (PI / 180) / 2))%R.

(** [UNIQUE (user_id, role)] on [user_roles]. *)
Definition user_roles_unique (s : store) : Prop := NoDup (user_roles s).

(** [id] is the primary key of [service_requests]. *)
Definition request_ids_unique (s : store) : Prop :=
  NoDup (map ServiceRequest.id (service_requests s)).

(** The rows of a table that concern one request. *)
Definition history_of (requestId : uuid) (s : store) : list RequestStatusHistory.t :=
  filter (fun h => String.eqb (RequestStatusHistory.request_id h) requestId)
         (request_status_history s).

Definition notifications_about (requestId : uuid) (l : list Notification.t)
  : list Notification.t :=
  filter (fun n => String.eqb (Notification.related_request_id n) requestId) l.

Definition notifications_to (u : uuid) (l : list Notification.t)
  : list Notification.t :=
  filter (fun n => String.eqb (Notification.user_id n) u) l.

(** The requests of the batch whose update the loop performs and the store
    accepts. *)
Definition assigned_by_batch (e : environment) (lat lng radius : number)
  (pendingRequests : list ServiceRequest.t) : list ServiceRequest.t :=
  filter (fun r => AssignPendingRequests.in_range lat lng radius r
                   && negb (update_error e (ServiceRequest.id r)))
         pendingRequests.

(** The row of a request once the assignment statement has run on it: the
    [SET] clause and [updated_at]. *)
Definition assigned_to (providerId : uuid) (t : timestamp)
  (r : ServiceRequest.t) : ServiceRequest.t :=
  ServiceRequest.mk (ServiceRequest.id r) (ServiceRequest.resident_id r)
    (Some providerId) (ServiceRequest.category_id r) assigned
    (ServiceRequest.location_lat r) (ServiceRequest.location_lng r)
    t (Some t) (ServiceRequest.completed_at r).

(** The history row the trigger writes for a transition to [st]. *)
Definition transition_row (who : session) (t : timestamp)
  (st : request_status) (r : ServiceRequest.t) : RequestStatusHistory.t :=
  RequestStatusHistory.mk (ServiceRequest.id r) st
    (coalesce (auth_uid who) (ServiceRequest.resident_id r)) None t.

(** Some request of the batch with the identifier of [x] is assigned. *)
Definition batch_touched (e : environment) (lat lng radius : number)
  (l : list ServiceRequest.t) (x : ServiceRequest.t) : bool :=
  existsb (fun r => String.eqb (ServiceRequest.id r) (ServiceRequest.id x)
                    && (AssignPendingRequests.in_range lat lng radius r
                        && negb (update_error e (ServiceRequest.id r))))
          l.

(** The two notifications of one request of the batch. *)
Definition batch_notifications (userId : uuid) (r : ServiceRequest.t)
  : list Notification.t :=
  [ AssignPendingRequests.resident_notification r;
    AssignPendingRequests.provider_notification userId r ].

(** The store and the response of a successful single-request assignment
    to the candidate [p]. *)
Definition success_store (e : environment) (requestId : uuid) (s : store)
  (request : ServiceRequest.t) (p : candidate) : store :=
  let s1 := AssignProvider.commit e requestId (providerId p) s in
  let s2 := insert_notifications s1
              [AssignProvider.resident_notification request p requestId] in
  match single (filter (fun pp => String.eqb (ProviderProfile.id pp) (providerId p))
                       (provider_profiles s)) with
  | Some pp =>
      if String.eqb (ProviderProfile.user_id pp) ""
      then s2
      else insert_notifications s2
             [AssignProvider.provider_notification (ProviderProfile.user_id pp)
                                                   requestId]
  | None => s2
  end.

Definition success_response (requestId : uuid) (p : candidate) : response :=
  mkResponse 200 (Some true) (Some "Provider assigned successfully") None
    (Some requestId)
    (Some (mkProviderInfo (providerId p) (providerName p) (distance p))) None.


(* ================================================================== *)
(** * Scenarios *)
(* ================================================================== *)

Module Scenario.

Definition no_faults (t : timestamp) : environment := mkEnv t (fun _ => false).

Definition people : list Profile.t :=
  [ Profile.mk "resident-1" "Asha" None None;
    Profile.mk "user-p1" "Ravi" (Some 12.9716%R) (Some 77.5946%R);
    Profile.mk "user-p2" "Meena" (Some 12.9716%R) (Some 77.5946%R);
    Profile.mk "admin-1" "Admin" None None ].

Definition roles : list UserRole.t :=
  [ UserRole.mk "resident-1" resident;
    UserRole.mk "user-p1" provider;
    UserRole.mk "user-p2" provider;
    UserRole.mk "admin-1" admin ].

Definition memberships : list ProviderCategory.t :=
  [ ProviderCategory.mk "prov-1" "plumbing";
    ProviderCategory.mk "prov-2" "plumbing" ].

(** Two plumbers at the request's address; the first may be unavailable. *)
Definition plumbers (first_available : bool) : list ProviderProfile.t :=
  [ ProviderProfile.mk "prov-1" "user-p1" (Some 10%R) (Some first_available);
    ProviderProfile.mk "prov-2" "user-p2" (Some 10%R) (Some true) ].

Definition empty_store : store :=
  mkStore people roles (plumbers true) memberships [] [] [].

(** The request of the end-to-end scenarios, just created. *)
Definition created : store :=
  createRequest "resident-1" 1 "req-1" "plumbing" 12.9716%R 77.5946%R empty_store.

Definition pending_row : ServiceRequest.t :=
  ServiceRequest.mk "req-1" "resident-1" None "plumbing" pending
    12.9716%R 77.5946%R 1 None None.

Definition pending_history : RequestStatusHistory.t :=
  RequestStatusHistory.mk "req-1" pending (Some "resident-1") None 1.

(** The request assigned to the first plumber at time 5. *)
Definition assigned_row : ServiceRequest.t :=
  ServiceRequest.mk "req-1" "resident-1" (Some "prov-1") "plumbing" assigned
    12.9716%R 77.5946%R 5 (Some 5) None.

Definition assigned_history : RequestStatusHistory.t :=
  RequestStatusHistory.mk "req-1" assigned (Some "resident-1") None 5.

Definition assigned_notifications : list Notification.t :=
  [ Notification.mk "resident-1" "Service Request Assigned"
      "Your request has been assigned to Ravi" "success" "req-1";
    Notification.mk "user-p1" "New Job Assignment"
      "You have been assigned a new service request" "info" "req-1" ].

Definition assigned_store : store :=
  mkStore people roles (plumbers true) memberships [assigned_row]
          [pending_history; assigned_history] assigned_notifications.

(** The same, after the first plumber switched his availability off. *)
Definition assigned_then_unavailable : store :=
  handleToggle "prov-1" false assigned_store.

(** The request completed by the first plumber at time 7. *)
Definition completed_row : ServiceRequest.t :=
  ServiceRequest.mk "req-1" "resident-1" (Some "prov-1") "plumbing" completed
    12.9716%R 77.5946%R 7 (Some 5) (Some 7).

Definition completed_store : store :=
  mkStore people roles (plumbers true) memberships [completed_row]
          [pending_history; assigned_history;
           RequestStatusHistory.mk "req-1" completed (Some "user-p1") None 7]
          (assigned_notifications ++
           [Notification.mk "resident-1" "Service Completed"
              "Your service request has been marked as completed"
              "success" "req-1"])%list.

(** A request in a category nobody offers. *)
Definition carpentry_store : store :=
  createRequest "resident-1" 1 "req-2" "carpentry" 12.9716%R 77.5946%R empty_store.

Definition carpentry_row : ServiceRequest.t :=
  ServiceRequest.mk "req-2" "resident-1" None "carpentry" pending
    12.9716%R 77.5946%R 1 None None.

(** The plumbing request when no plumber is available. *)
Definition nobody_available : store :=
  handleToggle "prov-2" false (handleToggle "prov-1" false created).

(** The first plumber's radius is null. *)
Definition null_radius_store : store :=
  mkStore people roles
    [ ProviderProfile.mk "prov-1" "user-p1" None (Some true) ]
    memberships [pending_row] [pending_history] [].

(** An environment in which the update of ["req-1"] fails. *)
Definition req_1_fails (t : timestamp) : environment :=
  mkEnv t (fun id => String.eqb id "req-1").

(** Two pending plumbing requests. *)
Definition second_row : ServiceRequest.t :=
  ServiceRequest.mk "req-3" "resident-1" None "plumbing" pending
    12.9716%R 77.5946%R 2 None None.

Definition two_pending : store :=
  mkStore people roles (plumbers true) memberships [pending_row; second_row]
          [pending_history;
           RequestStatusHistory.mk "req-3" pending (Some "resident-1") None 2]
          [].

End Scenario.

(* ================================================================== *)
(** * Further definitions *)
(* ================================================================== *)

(** The candidate is exactly [d] km away. *)
Definition at_distance (d : R) (c : candidate) : bool :=
  match distance c with
  | Num x => if Req_dec_T x d then true else false
  | NaN => false
  end.

(** [id] is the primary key of [profiles] and of [provider_profiles]. *)
Definition profile_ids_unique (s : store) : Prop :=
  NoDup (map Profile.id (profiles s)).

Definition provider_ids_unique (s : store) : Prop :=
  NoDup (map ProviderProfile.id (provider_profiles s)).

(** More scenarios. *)
Module Cases.

(** The first plumber's profile has lost its coordinates. *)
Definition unlocated_people : list Profile.t :=
  [ Profile.mk "resident-1" "Asha" None None;
    Profile.mk "user-p1" "Ravi" None None;
    Profile.mk "admin-1" "Admin" None None ].

Definition unlocated_store : store :=
  mkStore unlocated_people Scenario.roles (Scenario.plumbers true)
          Scenario.memberships [Scenario.pending_row]
          [Scenario.pending_history] [].







End Cases.

(* ================================================================== *)
(** * [CreateRequest]: the photos of the form *)
(* ================================================================== *)

Module CreateRequest.

(** [arr.filter((_, i) => keep(i))], the index counted from [i]. *)
Fixpoint filter_index {A : Type} (keep : nat -> bool) (i : nat) (l : list A)
  : list A :=
  match l with
  | [] => []
  | x :: rest =>
      if keep i
      then x :: filter_index keep (S i) rest
      else filter_index keep (S i) rest
  end.

Section Photos.

Variable File : Type.

(** The state of the component that the two handlers touch: the chosen
    files, their preview URLs, and how many object URLs the browser has
    handed out so far; the n-th object URL is the number n. *)
Record state : Type := mkState
  { photos : list File;
    photoPreview : list nat;
    objectURLs : nat }.

(** [useState<File[]>([])], [useState<string[]>([])] *)
Definition initial : state := mkState [] [] 0.

Definition handlePhotoChange (files : list File) (st : state) : state :=
  if Nat.ltb 5 (List.length files + List.length (photos st))
  then st
  else mkState (photos st ++ files)
               (photoPreview st ++ seq (objectURLs st) (List.length files))
               (objectURLs st + List.length files).

Definition removePhoto (index : nat) (st : state) : state :=
  mkState (filter_index (fun i => negb (Nat.eqb i index)) 0 (photos st))
          (filter_index (fun i => negb (Nat.eqb i index)) 0 (photoPreview st))
          (objectURLs st).

(** What the user does with the photo field. *)
Inductive event : Type :=
| PhotoChange (files : list File)
| RemovePhoto (index : nat).

Definition handle (st : state) (ev : event) : state :=
  match ev with
  | PhotoChange files => handlePhotoChange files st
  | RemovePhoto index => removePhoto index st
  end.

Definition run (events : list event) : state := fold_left handle events initial.

End Photos.

End CreateRequest.

(* ================================================================== *)
(** * Proofs *)
(* ================================================================== *)

Unset Implicit Arguments.

(** * The distance calculator *)

Section Haversine.
Local Open Scope R_scope.

Lemma div_Num (x y : R) : y <> 0 -> JS.div (Num x) (Num y) = Num (x / y).
Proof.
  intros Hy. unfold JS.div. destruct (Req_dec_T y 0) as [E | _]; [contradiction | reflexivity].
Qed.

Lemma sqrt_Num (x : R) : 0 <= x -> Math_sqrt (Num x) = Num (sqrt x).
Proof.
  intros Hx. unfold Math_sqrt. destruct (Rlt_dec x 0) as [L | _]; [lra | reflexivity].
Qed.

Lemma le_Num_true (x y : R) : x <= y -> JS.le (Num x) (Num y) = true.
Proof.
  intros H. unfold JS.le. destruct (Rle_dec x y); [reflexivity | contradiction].
Qed.

Lemma le_true_inv (a b : number) :
  JS.le a b = true -> exists x y, a = Num x /\ b = Num y /\ x <= y.
Proof.
  destruct a as [| x], b as [| y]; simpl; try discriminate.
  destruct (Rle_dec x y); [| discriminate].
  intros _. exists x, y. auto.
Qed.

Lemma code_a_haversine_a lat1 lon1 lat2 lon2 :
  code_a lat1 lon1 lat2 lon2 = haversine_a lat1 lon1 lat2 lon2.
Proof.
  unfold code_a, haversine_a, hav, radians, Rsqr.
  replace ((lat2 * PI / 180 - lat1 * PI / 180) / 2)
    with ((lat2 - lat1) * (PI / 180) / 2) by field.
  replace ((lon2 * PI / 180 - lon1 * PI / 180) / 2)
    with ((lon2 - lon1) * (PI / 180) / 2) by field.
  replace (lat1 * PI / 180) with (lat1 * (PI / 180)) by field.
  replace (lat2 * PI / 180) with (lat2 * (PI / 180)) by field.
  ring.
Qed.

Lemma cos_cos_half (p q : R) :
  cos p * cos q =
  cos ((p + q) / 2) * cos ((p + q) / 2) - sin ((q - p) / 2) * sin ((q - p) / 2).
Proof.
  set (m := (p + q) / 2). set (u := (q - p) / 2).
  replace p with (m - u) by (unfold m, u; field).
  replace q with (m + u) at 1 by (unfold m, u; field).
  rewrite cos_minus, cos_plus.
  pose proof (sin2_cos2 m) as Hm. pose proof (sin2_cos2 u) as Hu.
  unfold Rsqr in Hm, Hu. nra.
Qed.

Lemma haversine_a_range lat1 lon1 lat2 lon2 :
  0 <= haversine_a lat1 lon1 lat2 lon2 <= 1.
Proof.
  unfold haversine_a, hav.
  rewrite cos_cos_half.
  set (su := sin ((radians lat2 - radians lat1) / 2)).
  set (cm := cos ((radians lat1 + radians lat2) / 2)).
  set (sv := sin ((radians lon2 - radians lon1) / 2)).
  assert (Hu : 0 <= su * su <= 1).
  { pose proof (sin2_cos2 ((radians lat2 - radians lat1) / 2)) as H.
    unfold Rsqr in H. fold su in H. nra. }
  assert (Hm : 0 <= cm * cm <= 1).
  { pose proof (sin2_cos2 ((radians lat1 + radians lat2) / 2)) as H.
    unfold Rsqr in H. fold cm in H. nra. }
  assert (Hv : 0 <= sv * sv <= 1).
  { pose proof (sin2_cos2 ((radians lon2 - radians lon1) / 2)) as H.
    unfold Rsqr in H. fold sv in H. nra. }
  unfold Rsqr.
  replace (su * su + (cm * cm - su * su) * (sv * sv))
    with (su * su * (1 - sv * sv) + cm * cm * (sv * sv)) by ring.
  split; nra.
Qed.

Lemma atan2R_asin (A : R) :
  0 <= A <= 1 -> atan2R (sqrt A) (sqrt (1 - A)) = asin (sqrt A).
Proof.
  intros [H0 H1]. unfold atan2R.
  destruct (Rlt_dec 0 (sqrt (1 - A))) as [Hpos | Hnpos].
  - assert (HA : A < 1).
    { destruct (Rle_lt_dec 1 A) as [G | G]; [| exact G].
      replace (1 - A) with 0 in Hpos by lra. rewrite sqrt_0 in Hpos. lra. }
    assert (Hs : sqrt A < 1).
    { rewrite <- sqrt_1. apply sqrt_lt_1_alt. lra. }
    pose proof (sqrt_pos A) as Hs0.
    rewrite asin_atan by lra.
    unfold Rsqr. rewrite sqrt_sqrt by lra. reflexivity.
  - assert (HA : A = 1).
    { destruct (Rle_lt_dec 1 A) as [G | G]; [lra |].
      exfalso. apply Hnpos. apply sqrt_lt_R0. lra. }
    subst A. replace (1 - 1) with 0 by ring.
    rewrite sqrt_0, sqrt_1, asin_1.
    destruct (Rlt_dec 0 0) as [F | _]; [lra |].
    destruct (Rlt_dec 0 1) as [_ | F]; [reflexivity | lra].
Qed.

(** On numbers that are not [NaN] the code computes the haversine
    distance. *)
Lemma calculateDistance_Num lat1 lon1 lat2 lon2 :
  calculateDistance (Num lat1) (Num lon1) (Num lat2) (Num lon2)
  = Num (haversine_km lat1 lon1 lat2 lon2).
Proof.
  unfold calculateDistance.
  assert (H180 : (180:R) <> 0) by lra.
  assert (H2 : (2:R) <> 0) by lra.
  unfold Math_PI.
  rewrite (div_Num PI 180 H180).
  cbn [JS.sub JS.mul JS.add lift2 Math_PI].
  rewrite !(div_Num _ 2 H2).
  cbn [JS.sub JS.mul JS.add lift2 lift1 Math_sin Math_cos].
  fold (code_a lat1 lon1 lat2 lon2).
  rewrite code_a_haversine_a.
  pose proof (haversine_a_range lat1 lon1 lat2 lon2) as Hr.
  rewrite sqrt_Num by lra.
  rewrite sqrt_Num by lra.
  cbn [Math_atan2 lift2 JS.mul].
  rewrite atan2R_asin by exact Hr.
  unfold haversine_km. f_equal. ring.
Qed.

Lemma haversine_a_self lat lon : haversine_a lat lon lat lon = 0.
Proof.
  unfold haversine_a, hav, Rsqr.
  replace ((radians lat - radians lat) / 2) with 0 by field.
  replace ((radians lon - radians lon) / 2) with 0 by field.
  rewrite sin_0. ring.
Qed.

Lemma calculateDistance_self lat lon :
  calculateDistance (Num lat) (Num lon) (Num lat) (Num lon) = Num 0.
Proof.
  rewrite calculateDistance_Num. unfold haversine_km.
  rewrite haversine_a_self, sqrt_0, asin_0. f_equal. ring.
Qed.

(** A coordinate that is [NaN] makes the distance [NaN]. *)
Lemma calculateDistance_NaN (lat1 lon1 lat2 lon2 : number) :
  ~ (is_num lat1 /\ is_num lon1 /\ is_num lat2 /\ is_num lon2) ->
  calculateDistance lat1 lon1 lat2 lon2 = NaN.
Proof.
  intros H. unfold calculateDistance, Math_PI.
  assert (H180 : (180:R) <> 0) by lra.
  rewrite (div_Num PI 180 H180).
  destruct lat1 as [| a1], lon1 as [| o1], lat2 as [| a2], lon2 as [| o2];
    try (exfalso; apply H; simpl; tauto);
    cbn [JS.sub JS.mul JS.add lift2 lift1 Math_sin Math_cos JS.div];
    destruct (Req_dec_T 2 0) as [E | _]; try lra;
    cbn [JS.sub JS.mul JS.add lift2 lift1 Math_sin Math_cos
         Math_sqrt Math_atan2];
    reflexivity.
Qed.

End Haversine.

(** * Distances along a meridian *)

Section Meridian.
Local Open Scope R_scope.







End Meridian.

(** * Sorting *)

Section SortFacts.
Variable A : Type.
Variable compareFn : A -> A -> number.

Lemma sort_insert_perm (x : A) (l : list A) :
  Permutation (sort_insert compareFn x l) (x :: l).
Proof.
  induction l as [| y ys IH]; simpl.
  - apply Permutation_refl.
  - destruct (positive (compareFn x y)).
    + apply perm_trans with (y :: x :: ys).
      * apply perm_skip. exact IH.
      * apply perm_swap.
    + apply Permutation_refl.
Qed.

Lemma Array_sort_perm (l : list A) : Permutation (Array_sort compareFn l) l.
Proof.
  induction l as [| x xs IH]; simpl.
  - apply perm_nil.
  - apply perm_trans with (x :: Array_sort compareFn xs).
    + apply sort_insert_perm.
    + apply perm_skip. exact IH.
Qed.
End SortFacts.

(** [a] is at most as far as [b]; both distances are numbers. *)






Lemma within_radius_spec (c : candidate) :
  within_radius c = true <->
  exists d r, distance c = Num d /\ serviceRadius c = Num r /\ (d <= r)%R.
Proof.
  unfold within_radius. split.
  - apply le_true_inv.
  - intros (d & r & -> & -> & H). apply le_Num_true. exact H.
Qed.


Lemma rank_perm (cands : list candidate) :
  Permutation (rank cands) (filter within_radius cands).
Proof. apply Array_sort_perm. Qed.

Lemma rank_In (cands : list candidate) (c : candidate) :
  In c (rank cands) <-> In c cands /\ within_radius c = true.
Proof.
  rewrite <- filter_In. split; apply Permutation_in.
  - apply rank_perm.
  - apply Permutation_sym, rank_perm.
Qed.



(** * The update statement *)

Lemma update_rows_fst who now w set rows :
  fst (update_rows who now w set rows)
  = map (fun r => if w r then fst (update_row who now set r) else r) rows.
Proof.
  induction rows as [| r rest IH]; simpl; [reflexivity |].
  destruct (update_rows who now w set rest) as [rest' h'] eqn:E.
  simpl in IH. destruct (w r); simpl; rewrite IH; reflexivity.
Qed.

Lemma update_rows_snd who now w set rows :
  snd (update_rows who now w set rows)
  = flat_map (fun r => if w r then snd (update_row who now set r) else []) rows.
Proof.
  induction rows as [| r rest IH]; simpl; [reflexivity |].
  destruct (update_rows who now w set rest) as [rest' h'] eqn:E.
  simpl in IH. destruct (w r); simpl; rewrite IH; reflexivity.
Qed.

(** The edge functions connect with the service-role key, which bypasses
    row-level security: none of their statements is refused. *)
Lemma with_check_service_role now w set s :
  violates_with_check service_role now w set s = false.
Proof.
  unfold violates_with_check.
  induction (service_requests s) as [| r rest IH]; [reflexivity |].
  cbn [existsb]. rewrite IH. cbn [can_update negb].
  rewrite andb_false_r. reflexivity.
Qed.

Lemma update_service_requests_refused who now w set s :
  violates_with_check who now w set s = true ->
  update_service_requests who now w set s = s.
Proof.
  intros H. unfold update_service_requests. rewrite H. reflexivity.
Qed.

Lemma update_service_requests_rows who now w set s :
  violates_with_check who now w set s = false ->
  service_requests (update_service_requests who now w set s)
  = map (fun r => if can_update s who r && w r
                  then fst (update_row who now set r) else r)
        (service_requests s).
Proof.
  intros H. unfold update_service_requests. rewrite H.
  rewrite <- update_rows_fst.
  destruct (update_rows who now _ set (service_requests s)); reflexivity.
Qed.

Lemma update_service_requests_history who now w set s :
  violates_with_check who now w set s = false ->
  request_status_history (update_service_requests who now w set s)
  = (request_status_history s ++
     flat_map (fun r => if can_update s who r && w r
                        then snd (update_row who now set r) else [])
              (service_requests s))%list.
Proof.
  intros H. unfold update_service_requests. rewrite H.
  rewrite <- update_rows_snd.
  destruct (update_rows who now _ set (service_requests s)); reflexivity.
Qed.

Lemma update_service_requests_notifications who now w set s :
  notifications (update_service_requests who now w set s) = notifications s.
Proof.
  unfold update_service_requests.
  destruct (violates_with_check who now w set s); [reflexivity |].
  destruct (update_rows who now _ set (service_requests s)); reflexivity.
Qed.

Lemma update_service_requests_tables who now w set s :
  profiles (update_service_requests who now w set s) = profiles s /\
  user_roles (update_service_requests who now w set s) = user_roles s /\
  provider_profiles (update_service_requests who now w set s) = provider_profiles s /\
  provider_categories (update_service_requests who now w set s) = provider_categories s.
Proof.
  unfold update_service_requests.
  destruct (violates_with_check who now w set s); [auto |].
  destruct (update_rows who now _ set (service_requests s)); simpl; auto.
Qed.

#[local] Arguments JS.le : simpl never.
#[local] Arguments JS.positive : simpl never.
#[local] Arguments calculateDistance : simpl never.
#[local] Arguments String.eqb : simpl nomatch.

Lemma positive_Num_false (x : R) : (x <= 0)%R -> JS.positive (Num x) = false.
Proof.
  intros H. unfold JS.positive. destruct (Rlt_dec 0 x); [lra | reflexivity].
Qed.


(** Evaluation of a handler on a scenario: every distance there is the one
    of a point to itself. *)
Ltac run_distance :=
  repeat first
    [ rewrite calculateDistance_self
    | rewrite (le_Num_true 0 10) by lra
    | rewrite (positive_Num_false (0 - 0)) by lra ].

Ltac run := repeat (progress (simpl; run_distance)).

(** * The single-request handler *)

Section SingleRequest.
Variable e : environment.
Variable requestId : uuid.
Variable s : store.

Lemma fetch_request_missing :
  (forall r, In r (service_requests s) -> ServiceRequest.id r <> requestId) ->
  AssignProvider.fetch_request s requestId = None.
Proof.
  intros H. unfold AssignProvider.fetch_request.
  replace (filter (fun r => ServiceRequest.id r =? requestId) (service_requests s))
    with (@nil ServiceRequest.t); [reflexivity |].
  symmetry. induction (service_requests s) as [| r rows IH]; simpl; [reflexivity |].
  destruct (String.eqb_spec (ServiceRequest.id r) requestId) as [E | _].
  - exfalso. apply (H r); [left; reflexivity | exact E].
  - apply IH. intros r' Hr'. apply H. right. exact Hr'.
Qed.

Lemma handler_not_found :
  AssignProvider.fetch_request s requestId = None ->
  AssignProvider.handler e requestId s
  = (s, AssignProvider.hard_failure "Service request not found").
Proof.
  intros H. unfold AssignProvider.handler. rewrite H. reflexivity.
Qed.

Variable request : ServiceRequest.t.
Hypothesis Hrequest : AssignProvider.fetch_request s requestId = Some request.

Lemma handler_no_candidates :
  AssignProvider.fetch_providerCategories s request = [] ->
  AssignProvider.handler e requestId s
  = (s, AssignProvider.no_match "No providers available for this category" requestId).
Proof.
  intros H. unfold AssignProvider.handler. rewrite Hrequest, H. reflexivity.
Qed.

Lemma no_categories_no_ranking :
  AssignProvider.fetch_providerCategories s request = [] ->
  AssignProvider.providersWithDistance s request = [].
Proof.
  intros H. unfold AssignProvider.providersWithDistance. rewrite H.
  unfold AssignProvider.fetch_providerProfiles. simpl.
  replace (filter _ (provider_profiles s)) with (@nil ProviderProfile.t).
  - reflexivity.
  - symmetry. induction (provider_profiles s); simpl; auto.
Qed.

Lemma categories_length :
  AssignProvider.fetch_providerCategories s request <> [] ->
  Nat.eqb (List.length (AssignProvider.fetch_providerCategories s request)) 0 = false.
Proof.
  destruct (AssignProvider.fetch_providerCategories s request); [congruence | reflexivity].
Qed.

Lemma handler_none_in_range :
  AssignProvider.fetch_providerCategories s request <> [] ->
  AssignProvider.providersWithDistance s request = [] ->
  AssignProvider.handler e requestId s
  = (insert_notifications s (AssignProvider.adminNotifications s requestId),
     AssignProvider.no_match "No available providers found in service area" requestId).
Proof.
  intros Hc Hr. unfold AssignProvider.handler.
  rewrite Hrequest, (categories_length Hc), Hr.
  unfold AssignProvider.adminNotifications.
  destruct (AssignProvider.adminUsers s) eqn:E; [| reflexivity].
  simpl. unfold insert_notifications. rewrite app_nil_r. destruct s; reflexivity.
Qed.

Lemma handler_assigns (p : candidate) (rest : list candidate) :
  AssignProvider.providersWithDistance s request = p :: rest ->
  update_error e requestId = false ->
  AssignProvider.handler e requestId s
  = (success_store e requestId s request p, success_response requestId p).
Proof.
  intros Hr He. unfold AssignProvider.handler. rewrite Hrequest.
  destruct (AssignProvider.fetch_providerCategories s request) eqn:Hc.
  - rewrite (no_categories_no_ranking Hc) in Hr. discriminate.
  - cbn [List.length Nat.eqb]. rewrite Hr, He.
    unfold success_store, success_response, AssignProvider.commit.
    destruct (update_service_requests_tables service_role (now e)
                (fun r => ServiceRequest.id r =? requestId)
                (AssignProvider.set_assigned (providerId p) (now e)) s)
      as (_ & _ & -> & _).
    reflexivity.
Qed.
End SingleRequest.

(** * Admin notifications *)

Lemma app_role_eqb_eq (a b : app_role) : app_role_eqb a b = true <-> a = b.
Proof. destruct a, b; simpl; split; congruence. Qed.

Lemma request_status_eqb_eq (a b : request_status) :
  request_status_eqb a b = true <-> a = b.
Proof. destruct a, b; simpl; split; congruence. Qed.

Lemma request_status_eqb_refl (a : request_status) : request_status_eqb a a = true.
Proof. destruct a; reflexivity. Qed.

Lemma notifications_to_admin (s : store) (requestId u : uuid) :
  List.length (notifications_to u (AssignProvider.adminNotifications s requestId))
  = List.length (filter (fun ur => (UserRole.user_id ur =? u)
                                   && app_role_eqb (UserRole.role ur) admin)
                        (user_roles s)).
Proof.
  unfold notifications_to, AssignProvider.adminNotifications, AssignProvider.adminUsers.
  induction (user_roles s) as [| ur rows IH]; [reflexivity |].
  cbn [filter].
  destruct (app_role_eqb (UserRole.role ur) admin) eqn:Er.
  - cbn [map filter Notification.user_id].
    destruct (UserRole.user_id ur =? u) eqn:Eu; cbn [andb List.length];
      rewrite IH; reflexivity.
  - rewrite andb_false_r. exact IH.
Qed.

Lemma NoDup_all_equal {A : Type} (x : A) (l : list A) :
  NoDup l -> (forall y, In y l -> y = x) -> (List.length l <= 1)%nat.
Proof.
  intros Hnd Hall. destruct l as [| a [| b l']]; simpl; try lia.
  exfalso. inversion Hnd as [| ? ? Hnotin _]; subst.
  apply Hnotin. left.
  rewrite (Hall a), (Hall b); simpl; auto.
Qed.

Lemma admin_rows_count (s : store) (u : uuid) :
  user_roles_unique s ->
  has_role s u admin = true ->
  List.length (filter (fun ur => (UserRole.user_id ur =? u)
                                 && app_role_eqb (UserRole.role ur) admin)
                      (user_roles s)) = 1%nat.
Proof.
  unfold user_roles_unique, has_role. intros Hnd Hrole.
  set (f := fun ur => (UserRole.user_id ur =? u) && app_role_eqb (UserRole.role ur) admin).
  assert (Hle : (List.length (filter f (user_roles s)) <= 1)%nat).
  { apply (NoDup_all_equal (UserRole.mk u admin)).
    - apply NoDup_filter. exact Hnd.
    - intros [u' r'] Hy. apply filter_In in Hy. destruct Hy as [_ Hy].
      unfold f in Hy. simpl in Hy. apply andb_true_iff in Hy. destruct Hy as [Hu Hr].
      apply String.eqb_eq in Hu. apply app_role_eqb_eq in Hr. subst. reflexivity. }
  assert (Hge : (1 <= List.length (filter f (user_roles s)))%nat).
  { apply existsb_exists in Hrole. destruct Hrole as [ur [Hin Hur]].
    assert (Hf : In ur (filter f (user_roles s))) by (apply filter_In; auto).
    destruct (filter f (user_roles s)); [contradiction | simpl; lia]. }
  lia.
Qed.

Lemma no_admin_no_notification (s : store) (requestId u : uuid) :
  has_role s u admin = false ->
  notifications_to u (AssignProvider.adminNotifications s requestId) = [].
Proof.
  intros H.
  assert (Hz : filter (fun ur => (UserRole.user_id ur =? u)
                                 && app_role_eqb (UserRole.role ur) admin)
                      (user_roles s) = []).
  { unfold has_role in H.
    induction (user_roles s) as [| ur rows IH]; simpl in *; [reflexivity |].
    apply orb_false_iff in H. destruct H as [H1 H2]. rewrite H1. apply IH.
    exact H2. }
  pose proof (notifications_to_admin s requestId u) as Hlen.
  rewrite Hz in Hlen. simpl in Hlen.
  destruct (notifications_to u _); [reflexivity | discriminate].
Qed.

Lemma admin_notification_shape (s : store) (requestId : uuid) (n : Notification.t) :
  In n (AssignProvider.adminNotifications s requestId) ->
  Notification.type n = "warning" /\
  Notification.message n = "No available provider found for request " ++ requestId /\
  Notification.related_request_id n = requestId /\
  has_role s (Notification.user_id n) admin = true.
Proof.
  unfold AssignProvider.adminNotifications, AssignProvider.adminUsers. intros H.
  apply in_map_iff in H. destruct H as [ur [<- Hur]].
  apply filter_In in Hur. destruct Hur as [Hin Hrole]. simpl.
  repeat split; try reflexivity.
  unfold has_role. apply existsb_exists. exists ur. split; [exact Hin |].
  rewrite String.eqb_refl. exact Hrole.
Qed.

Lemma ranking_empty_iff (cands : list candidate) :
  rank cands = [] <-> forall c, In c cands -> within_radius c = false.
Proof.
  split.
  - intros H c Hc. destruct (within_radius c) eqn:E; [| reflexivity].
    exfalso. assert (Hin : In c (rank cands)) by (apply rank_In; auto).
    rewrite H in Hin. exact Hin.
  - intros H. destruct (rank cands) as [| c l] eqn:E; [reflexivity |].
    exfalso. assert (Hin : In c (rank cands)) by (rewrite E; left; reflexivity).
    apply rank_In in Hin. destruct Hin as [Hc Hw]. rewrite (H c Hc) in Hw. discriminate.
Qed.

(** * Rows and the assignment statement *)

Lemma update_row_set_assigned who t p r :
  update_row who t (AssignProvider.set_assigned p t) r
  = (assigned_to p t r,
     if request_status_eqb (ServiceRequest.status r) assigned
     then [] else [transition_row who t assigned r]).
Proof.
  unfold update_row, AssignProvider.set_assigned, log_request_status_change.
  simpl. f_equal.
  destruct (ServiceRequest.status r); reflexivity.
Qed.

Lemma assigned_to_id p t r : ServiceRequest.id (assigned_to p t r) = ServiceRequest.id r.
Proof. reflexivity. Qed.

Lemma unique_row (rows : list ServiceRequest.t) (x r : ServiceRequest.t) :
  NoDup (map ServiceRequest.id rows) -> In x rows -> In r rows ->
  ServiceRequest.id x = ServiceRequest.id r -> x = r.
Proof.
  induction rows as [| a rows IH]; simpl; intros Hnd Hx Hr E; [contradiction |].
  inversion Hnd as [| ? ? Hnotin Hnd']; subst.
  destruct Hx as [-> | Hx], Hr as [-> | Hr].
  - reflexivity.
  - exfalso. apply Hnotin. rewrite E. apply in_map. exact Hr.
  - exfalso. apply Hnotin. rewrite <- E. apply in_map. exact Hx.
  - apply IH; assumption.
Qed.

Lemma flat_map_unique {B : Type} (rows : list ServiceRequest.t)
  (r : ServiceRequest.t) (g : ServiceRequest.t -> list B) :
  NoDup (map ServiceRequest.id rows) -> In r rows ->
  flat_map (fun x => if ServiceRequest.id x =? ServiceRequest.id r then g x else [])
           rows = g r.
Proof.
  induction rows as [| a rows IH]; simpl; intros Hnd Hr; [contradiction |].
  inversion Hnd as [| ? ? Hnotin Hnd']; subst.
  destruct Hr as [-> | Hr].
  - rewrite String.eqb_refl.
    replace (flat_map _ rows) with (@nil B); [apply app_nil_r |].
    symmetry. clear IH Hnd Hnd'.
    induction rows as [| b rows IH]; simpl; [reflexivity |].
    destruct (String.eqb_spec (ServiceRequest.id b) (ServiceRequest.id r)) as [E | _].
    + exfalso. apply Hnotin. left. exact E.
    + apply IH. intros H. apply Hnotin. right. exact H.
  - destruct (String.eqb_spec (ServiceRequest.id a) (ServiceRequest.id r)) as [E | _].
    + exfalso. apply Hnotin. rewrite E. apply in_map. exact Hr.
    + simpl. apply IH; assumption.
Qed.

(** * The batch loop *)

Section Batch.
Variable e : environment.
Variable userId : uuid.
Variable providerProfile : ProviderProfile.t.
Variables providerLat providerLng radius : number.

Local Abbreviation step :=
  (AssignPendingRequests.step e userId providerProfile
     providerLat providerLng radius).
Local Abbreviation ok := (assigned_by_batch e providerLat providerLng radius).
Local Abbreviation p := (ProviderProfile.id providerProfile).
Local Abbreviation t := (now e).

Lemma assign_rows (r : ServiceRequest.t) (s : store) :
  service_requests (AssignPendingRequests.assign e providerProfile r s)
  = map (fun x => if (ServiceRequest.id x =? ServiceRequest.id r)
                     && request_status_eqb (ServiceRequest.status x) pending
                  then assigned_to p t x else x)
        (service_requests s).
Proof.
  unfold AssignPendingRequests.assign.
  rewrite update_service_requests_rows by apply with_check_service_role. apply map_ext. intros x.
  rewrite update_row_set_assigned. reflexivity.
Qed.

Lemma assign_history (r : ServiceRequest.t) (s : store) :
  request_status_history (AssignPendingRequests.assign e providerProfile r s)
  = (request_status_history s ++
     flat_map (fun x => if ServiceRequest.id x =? ServiceRequest.id r
                        then if request_status_eqb (ServiceRequest.status x) pending
                             then [transition_row service_role t assigned x]
                             else []
                        else [])
              (service_requests s))%list.
Proof.
  unfold AssignPendingRequests.assign.
  rewrite update_service_requests_history by apply with_check_service_role. f_equal.
  apply flat_map_ext. intros x. rewrite update_row_set_assigned. simpl.
  destruct (ServiceRequest.id x =? ServiceRequest.id r); [| reflexivity].
  destruct (ServiceRequest.status x); reflexivity.
Qed.

Lemma step_ok (s : store) (n : nat) (r : ServiceRequest.t) :
  AssignPendingRequests.in_range providerLat providerLng radius r
  && negb (update_error e (ServiceRequest.id r)) = true ->
  step (s, n) r
  = (insert_notifications
       (insert_notifications (AssignPendingRequests.assign e providerProfile r s)
          [AssignPendingRequests.resident_notification r])
       [AssignPendingRequests.provider_notification userId r],
     S n).
Proof.
  intros H. apply andb_true_iff in H. destruct H as [H1 H2].
  apply negb_true_iff in H2.
  unfold AssignPendingRequests.step. rewrite H1, H2. reflexivity.
Qed.

Lemma step_skip (s : store) (n : nat) (r : ServiceRequest.t) :
  AssignPendingRequests.in_range providerLat providerLng radius r
  && negb (update_error e (ServiceRequest.id r)) = false ->
  step (s, n) r = (s, n).
Proof.
  intros H. unfold AssignPendingRequests.step.
  destruct (AssignPendingRequests.in_range providerLat providerLng radius r);
    [| reflexivity].
  simpl in H. apply negb_false_iff in H. rewrite H. reflexivity.
Qed.

(** [assignedCount] and the notifications, whatever the store. *)
Lemma loop_count_notifications (l : list ServiceRequest.t) (s : store) (n : nat) :
  snd (fold_left step l (s, n)) = (n + List.length (ok l))%nat /\
  notifications (fst (fold_left step l (s, n)))
  = (notifications s ++ flat_map (batch_notifications userId) (ok l))%list /\
  profiles (fst (fold_left step l (s, n))) = profiles s /\
  user_roles (fst (fold_left step l (s, n))) = user_roles s /\
  provider_profiles (fst (fold_left step l (s, n))) = provider_profiles s /\
  provider_categories (fst (fold_left step l (s, n))) = provider_categories s.
Proof.
  revert s n. induction l as [| r l IH]; intros s n.
  - simpl. rewrite app_nil_r. repeat split; lia.
  - cbn [fold_left]. unfold assigned_by_batch in *. cbn [filter].
    destruct (AssignPendingRequests.in_range providerLat providerLng radius r
              && negb (update_error e (ServiceRequest.id r))) eqn:E.
    + rewrite (step_ok s n r E).
      destruct (IH (insert_notifications
                      (insert_notifications
                         (AssignPendingRequests.assign e providerProfile r s)
                         [AssignPendingRequests.resident_notification r])
                      [AssignPendingRequests.provider_notification userId r])
                   (S n))
        as (H1 & H2 & H3 & H4 & H5 & H6).
      rewrite H1, H2, H3, H4, H5, H6.
      unfold AssignPendingRequests.assign.
      destruct (update_service_requests_tables service_role (now e)
                  (fun r0 => (ServiceRequest.id r0 =? ServiceRequest.id r)
                             && request_status_eqb (ServiceRequest.status r0) pending)
                  (AssignProvider.set_assigned (ProviderProfile.id providerProfile) (now e)) s)
        as (T1 & T2 & T3 & T4).
      cbn [insert_notifications notifications profiles user_roles
             provider_profiles provider_categories List.length flat_map
             batch_notifications].
      rewrite update_service_requests_notifications.
      repeat split; try assumption.
      * lia.
      * rewrite <- !app_assoc. reflexivity.
    + rewrite (step_skip s n r E). apply IH.
Qed.

(** A request whose update fails, or that is not pending, keeps its row. *)
Lemma loop_keeps (l : list ServiceRequest.t) (s : store) (n : nat)
  (x : ServiceRequest.t) :
  In x (service_requests s) ->
  update_error e (ServiceRequest.id x) = true
  \/ ServiceRequest.status x <> pending ->
  In x (service_requests (fst (fold_left step l (s, n)))).
Proof.
  revert s n. induction l as [| r l IH]; intros s n Hin Hx; [exact Hin |].
  cbn [fold_left].
  destruct (AssignPendingRequests.in_range providerLat providerLng radius r
            && negb (update_error e (ServiceRequest.id r))) eqn:E.
  - rewrite (step_ok s n r E). apply IH; [| exact Hx].
    cbn [insert_notifications service_requests].
    rewrite assign_rows. apply in_map_iff. exists x. split; [| exact Hin].
    apply andb_true_iff in E. destruct E as [_ E]. apply negb_true_iff in E.
    destruct (String.eqb_spec (ServiceRequest.id x) (ServiceRequest.id r)) as [Eid | _];
      [| reflexivity].
    destruct Hx as [Hx | Hx].
    + rewrite Eid in Hx. congruence.
    + destruct (request_status_eqb (ServiceRequest.status x) pending) eqn:Est;
        [| reflexivity].
      apply request_status_eqb_eq in Est. contradiction.
  - rewrite (step_skip s n r E). apply IH; assumption.
Qed.

(** With [id] a key, the rows and the history after the loop. *)
Lemma loop_rows_history (l : list ServiceRequest.t) (s : store) (n : nat) :
  request_ids_unique s ->
  NoDup (map ServiceRequest.id l) ->
  (forall r, In r l ->
             In r (service_requests s) /\ ServiceRequest.status r = pending) ->
  service_requests (fst (fold_left step l (s, n)))
  = map (fun x => if batch_touched e providerLat providerLng radius l x
                  then assigned_to p t x else x)
        (service_requests s)
  /\ request_status_history (fst (fold_left step l (s, n)))
     = (request_status_history s
        ++ map (transition_row service_role t assigned) (ok l))%list.
Proof.
  revert s n. induction l as [| r l IH]; intros s n Hu Hnd Hl.
  - simpl. rewrite app_nil_r, map_id. auto.
  - cbn [fold_left]. inversion Hnd as [| ? ? Hnotin Hnd']; subst.
    destruct (Hl r (or_introl eq_refl)) as [Hr Hpend].
    assert (Hl' : forall r', In r' l ->
              In r' (service_requests s) /\ ServiceRequest.status r' = pending).
    { intros r' H'. apply Hl. right. exact H'. }
    unfold assigned_by_batch in *. cbn [filter batch_touched existsb].
    destruct (AssignPendingRequests.in_range providerLat providerLng radius r
              && negb (update_error e (ServiceRequest.id r))) eqn:E.
    + rewrite (step_ok s n r E).
      set (s3 := insert_notifications _ _).
      assert (Hrows3 : service_requests s3
                       = map (fun x => if ServiceRequest.id x =? ServiceRequest.id r
                                       then assigned_to p t x else x)
                             (service_requests s)).
      { unfold s3. cbn [insert_notifications service_requests].
        rewrite assign_rows. apply map_ext_in. intros x Hx.
        destruct (String.eqb_spec (ServiceRequest.id x) (ServiceRequest.id r)) as [Eid | _];
          [| reflexivity].
        rewrite (unique_row _ x r Hu Hx Hr Eid), Hpend. reflexivity. }
      assert (Hhist3 : request_status_history s3
                       = (request_status_history s
                          ++ [transition_row service_role t assigned r])%list).
      { unfold s3. cbn [insert_notifications request_status_history].
        rewrite assign_history. f_equal.
        rewrite (flat_map_unique (service_requests s) r
                   (fun x => if request_status_eqb (ServiceRequest.status x) pending
                             then [transition_row service_role t assigned x]
                             else []) Hu Hr).
        rewrite Hpend. reflexivity. }
      assert (Hu3 : request_ids_unique s3).
      { unfold request_ids_unique. rewrite Hrows3, map_map.
        erewrite map_ext; [exact Hu |].
        intros x. simpl.
        destruct (ServiceRequest.id x =? ServiceRequest.id r); reflexivity. }
      assert (Hl3 : forall r', In r' l ->
                In r' (service_requests s3) /\ ServiceRequest.status r' = pending).
      { intros r' H'. destruct (Hl' r' H') as [Hin' Hp']. split; [| exact Hp'].
        rewrite Hrows3. apply in_map_iff. exists r'. split; [| exact Hin'].
        destruct (String.eqb_spec (ServiceRequest.id r') (ServiceRequest.id r)) as [Eid | _];
          [| reflexivity].
        exfalso. apply Hnotin. rewrite <- Eid. apply in_map. exact H'. }
      destruct (IH s3 (S n) Hu3 Hnd' Hl3) as [IHrows IHhist].
      split.
      * rewrite IHrows, Hrows3, map_map. apply map_ext_in. intros x Hx.
        destruct (String.eqb_spec (ServiceRequest.id x) (ServiceRequest.id r)) as [Eid | Nid].
        -- rewrite (unique_row _ x r Hu Hx Hr Eid).
           rewrite String.eqb_refl. cbn [andb orb].
           replace (batch_touched e providerLat providerLng radius l (assigned_to p t r))
             with false; [reflexivity |].
           symmetry. unfold batch_touched. apply not_true_is_false. intros Hex.
           apply existsb_exists in Hex. destruct Hex as [r' [Hin' Hr']].
           apply andb_true_iff in Hr'. destruct Hr' as [Eid' _].
           apply String.eqb_eq in Eid'. rewrite assigned_to_id in Eid'.
           apply Hnotin. rewrite <- Eid'. apply in_map. exact Hin'.
        -- assert (Nid' : (ServiceRequest.id r =? ServiceRequest.id x) = false).
           { apply String.eqb_neq. congruence. }
           rewrite Nid'. reflexivity.
      * rewrite IHhist, Hhist3, <- app_assoc. reflexivity.
    + rewrite (step_skip s n r E).
      destruct (IH s n Hu Hnd' Hl') as [IHrows IHhist].
      split; [| exact IHhist].
      rewrite IHrows. apply map_ext. intros x.
      destruct (ServiceRequest.id r =? ServiceRequest.id x); reflexivity.
Qed.
End Batch.

(** * The scenarios, run *)

Lemma created_store :
  Scenario.created
  = mkStore Scenario.people Scenario.roles (Scenario.plumbers true)
      Scenario.memberships [Scenario.pending_row] [Scenario.pending_history] [].
Proof. reflexivity. Qed.

Lemma first_assignment :
  AssignProvider.handler (Scenario.no_faults 5) "req-1" Scenario.created
  = (Scenario.assigned_store,
     success_response "req-1" (mkCandidate "prov-1" "Ravi" (Num 0) (Num 10))).
Proof.
  unfold AssignProvider.handler, AssignProvider.fetch_request,
    AssignProvider.providersWithDistance, AssignProvider.candidates,
    AssignProvider.with_distance, rank, within_radius, by_distance.
  run. reflexivity.
Qed.

Lemma second_assignment :
  AssignProvider.handler (Scenario.no_faults 9) "req-1"
    Scenario.assigned_then_unavailable
  = (mkStore Scenario.people Scenario.roles (Scenario.plumbers false)
       Scenario.memberships
       [ServiceRequest.mk "req-1" "resident-1" (Some "prov-2") "plumbing"
          assigned 12.9716%R 77.5946%R 9 (Some 9) None]
       [Scenario.pending_history; Scenario.assigned_history]
       (Scenario.assigned_notifications ++
        [Notification.mk "resident-1" "Service Request Assigned"
           "Your request has been assigned to Meena" "success" "req-1";
         Notification.mk "user-p2" "New Job Assignment"
           "You have been assigned a new service request" "info" "req-1"]),
     success_response "req-1" (mkCandidate "prov-2" "Meena" (Num 0) (Num 10))).
Proof.
  unfold AssignProvider.handler, AssignProvider.fetch_request,
    AssignProvider.providersWithDistance, AssignProvider.candidates,
    AssignProvider.with_distance, rank, within_radius, by_distance.
  run. reflexivity.
Qed.

Lemma repeated_assignment :
  AssignProvider.handler (Scenario.no_faults 9) "req-1" Scenario.assigned_store
  = (mkStore Scenario.people Scenario.roles (Scenario.plumbers true)
       Scenario.memberships
       [ServiceRequest.mk "req-1" "resident-1" (Some "prov-1") "plumbing"
          assigned 12.9716%R 77.5946%R 9 (Some 9) None]
       [Scenario.pending_history; Scenario.assigned_history]
       (Scenario.assigned_notifications ++ Scenario.assigned_notifications),
     success_response "req-1" (mkCandidate "prov-1" "Ravi" (Num 0) (Num 10))).
Proof.
  unfold AssignProvider.handler, AssignProvider.fetch_request,
    AssignProvider.providersWithDistance, AssignProvider.candidates,
    AssignProvider.with_distance, rank, within_radius, by_distance.
  run. reflexivity.
Qed.

(** The earlier revision: its joined query embeds [profiles] in
    [provider_profiles], which no foreign key joins, so the query is
    answered with an error whatever the store holds. *)
Lemma joined_query_fails (s : store) (request : ServiceRequest.t) :
  AssignProviderJoined.fetch_providerCategories s request = None.
Proof. reflexivity. Qed.

Lemma joined_handler_fails (e : environment) (requestId : uuid) (s : store) :
  AssignProviderJoined.handler e requestId s
  = (s, AssignProvider.hard_failure
          match AssignProvider.fetch_request s requestId with
          | None => "Service request not found"
          | Some _ => "Failed to fetch providers"
          end).
Proof.
  unfold AssignProviderJoined.handler.
  destruct (AssignProvider.fetch_request s requestId) as [request |];
    [| reflexivity].
  rewrite joined_query_fails. reflexivity.
Qed.

Lemma repeated_completion :
  ProviderJobActions.handleMarkCompleted (authenticated "user-p1")
    (Scenario.no_faults 9) "req-1" Scenario.completed_store
  = (mkStore Scenario.people Scenario.roles (Scenario.plumbers true)
       Scenario.memberships
       [ServiceRequest.mk "req-1" "resident-1" (Some "prov-1") "plumbing"
          completed 12.9716%R 77.5946%R 9 (Some 5) (Some 9)]
       (request_status_history Scenario.completed_store)
       (notifications Scenario.completed_store ++
        [Notification.mk "resident-1" "Service Completed"
           "Your service request has been marked as completed"
           "success" "req-1"]),
     true).
Proof.
  unfold ProviderJobActions.handleMarkCompleted. run. reflexivity.
Qed.

Lemma first_completion :
  ProviderJobActions.handleMarkCompleted (authenticated "user-p1")
    (Scenario.no_faults 7) "req-1" Scenario.assigned_store
  = (Scenario.completed_store, true).
Proof.
  unfold ProviderJobActions.handleMarkCompleted. run. reflexivity.
Qed.

Lemma batch_with_fault :
  AssignPendingRequests.handler (Scenario.req_1_fails 5) "user-p1"
    Scenario.two_pending
  = (mkStore Scenario.people Scenario.roles (Scenario.plumbers true)
       Scenario.memberships
       [Scenario.pending_row;
        ServiceRequest.mk "req-3" "resident-1" (Some "prov-1") "plumbing"
          assigned 12.9716%R 77.5946%R 5 (Some 5) None]
       (request_status_history Scenario.two_pending ++
        [RequestStatusHistory.mk "req-3" assigned (Some "resident-1") None 5])
       [Notification.mk "resident-1" "Service Provider Assigned"
          "A service provider has been assigned to your request."
          "request_assigned" "req-3";
        Notification.mk "user-p1" "New Service Assignment"
          "You have been assigned a new service request."
          "new_assignment" "req-3"],
     mkResponse 200 (Some true) (Some "Assigned 1 pending request(s)")
       None None None (Some 1)).
Proof.
  unfold AssignPendingRequests.handler, AssignPendingRequests.assign_all,
    AssignPendingRequests.step, AssignPendingRequests.in_range,
    AssignPendingRequests.serviceRadius.
  run. reflexivity.
Qed.

(** * What the triggers guarantee *)

(** An insert writes one history row, with the status of the new row. *)
Lemma insert_logs_once who t NEW s :
  can_insert who NEW = true ->
  request_status_history (insert_service_request who t NEW s)
  = (request_status_history s
     ++ [transition_row who t (ServiceRequest.status NEW) NEW])%list.
Proof. intros H. unfold insert_service_request. rewrite H. reflexivity. Qed.

(** An updated row writes one history row when its status changes, and
    none otherwise. *)
Lemma update_row_logs who t set OLD :
  snd (update_row who t set OLD)
  = if request_status_eqb (ServiceRequest.status OLD)
                          (ServiceRequest.status (set OLD))
    then []
    else [transition_row who t (ServiceRequest.status (set OLD))
            (fst (update_row who t set OLD))].
Proof.
  unfold update_row, log_request_status_change, transition_row. simpl.
  assert (Hst : ServiceRequest.status (update_request_timestamps t (set OLD))
                = ServiceRequest.status (set OLD)).
  { unfold update_request_timestamps.
    destruct (request_status_eqb (ServiceRequest.status (set OLD)) assigned
              && is_none (ServiceRequest.assigned_at (set OLD))); [reflexivity |].
    destruct (request_status_eqb (ServiceRequest.status (set OLD)) completed
              && is_none (ServiceRequest.completed_at (set OLD))); reflexivity. }
  rewrite Hst.
  destruct (request_status_eqb (ServiceRequest.status OLD)
                               (ServiceRequest.status (set OLD))); reflexivity.
Qed.

(** The trigger alone never replaces a timestamp that is set. *)
Lemma update_request_timestamps_keeps t NEW :
  (ServiceRequest.assigned_at NEW <> None ->
   ServiceRequest.assigned_at (update_request_timestamps t NEW)
   = ServiceRequest.assigned_at NEW) /\
  (ServiceRequest.completed_at NEW <> None ->
   ServiceRequest.completed_at (update_request_timestamps t NEW)
   = ServiceRequest.completed_at NEW).
Proof.
  unfold update_request_timestamps.
  destruct (ServiceRequest.assigned_at NEW) eqn:Ea,
           (ServiceRequest.completed_at NEW) eqn:Ec,
           (ServiceRequest.status NEW);
    simpl; rewrite ?Ea, ?Ec; split; intros H; try reflexivity; congruence.
Qed.

Lemma filter_none {A : Type} (f : A -> bool) (l : list A) :
  (forall x, In x l -> f x = false) -> filter f l = [].
Proof.
  induction l as [| a l IH]; intros H; simpl; [reflexivity |].
  rewrite (H a (or_introl eq_refl)). apply IH. intros x Hx. apply H. right. exact Hx.
Qed.

Lemma flat_map_none {A B : Type} (g : A -> list B) (l : list A) :
  (forall x, In x l -> g x = []) -> flat_map g l = [].
Proof.
  induction l as [| a l IH]; intros H; simpl; [reflexivity |].
  rewrite (H a (or_introl eq_refl)). apply IH. intros x Hx. apply H. right. exact Hx.
Qed.

Lemma store_ext (s s' : store) :
  profiles s' = profiles s ->
  user_roles s' = user_roles s ->
  provider_profiles s' = provider_profiles s ->
  provider_categories s' = provider_categories s ->
  service_requests s' = service_requests s ->
  request_status_history s' = request_status_history s ->
  notifications s' = notifications s ->
  s' = s.
Proof.
  destruct s, s'; simpl; intros; subst; reflexivity.
Qed.

(** The batch statement is guarded: on a store where the request is not
    pending it affects no row and changes nothing. *)
Lemma batch_assign_guarded e pp r s :
  (forall x, In x (service_requests s) ->
             ServiceRequest.id x = ServiceRequest.id r ->
             ServiceRequest.status x <> pending) ->
  AssignPendingRequests.assign e pp r s = s /\
  rows_affected service_role
    (fun x => (ServiceRequest.id x =? ServiceRequest.id r)
              && request_status_eqb (ServiceRequest.status x) pending) s = 0%nat.
Proof.
  intros H.
  assert (Hw : forall x, In x (service_requests s) ->
             (ServiceRequest.id x =? ServiceRequest.id r)
             && request_status_eqb (ServiceRequest.status x) pending = false).
  { intros x Hx.
    destruct (String.eqb_spec (ServiceRequest.id x) (ServiceRequest.id r)) as [E | _];
      [| reflexivity].
    simpl. apply not_true_is_false. intros Hp. apply request_status_eqb_eq in Hp.
    exact (H x Hx E Hp). }
  split.
  - apply store_ext; unfold AssignPendingRequests.assign.
    + apply update_service_requests_tables.
    + apply update_service_requests_tables.
    + apply update_service_requests_tables.
    + apply update_service_requests_tables.
    + rewrite update_service_requests_rows by apply with_check_service_role.
      rewrite <- (map_id (service_requests s)) at 2.
      apply map_ext_in. intros x Hx. simpl. rewrite (Hw x Hx). reflexivity.
    + rewrite update_service_requests_history by apply with_check_service_role.
      rewrite flat_map_none; [apply app_nil_r |].
      intros x Hx. simpl. rewrite (Hw x Hx). reflexivity.
    + apply update_service_requests_notifications.
  - unfold rows_affected. rewrite filter_none; [reflexivity |].
    intros x Hx. rewrite (Hw x Hx). reflexivity.
Qed.

(** The row [.single()] returns is a row of the table with that [id]. *)
Lemma fetch_request_row (s : store) (requestId : uuid) (request : ServiceRequest.t) :
  AssignProvider.fetch_request s requestId = Some request ->
  In request (service_requests s) /\ ServiceRequest.id request = requestId.
Proof.
  unfold AssignProvider.fetch_request. intros H.
  assert (Hin : In request (filter (fun r => ServiceRequest.id r =? requestId)
                                   (service_requests s))).
  { destruct (filter _ (service_requests s)) as [| a [| b l]]; try discriminate.
    injection H as <-. left. reflexivity. }
  apply filter_In in Hin. destruct Hin as [Hin E].
  apply String.eqb_eq in E. auto.
Qed.

(** The later revision leaves the history to the trigger: assigning a
    request that is not yet [assigned] adds one row, assigning it again
    adds none. *)
Lemma commit_history (e : environment) (requestId p : uuid) (s : store)
  (request : ServiceRequest.t) :
  request_ids_unique s ->
  AssignProvider.fetch_request s requestId = Some request ->
  request_status_history (AssignProvider.commit e requestId p s)
  = (request_status_history s
     ++ if request_status_eqb (ServiceRequest.status request) assigned
        then []
        else [transition_row service_role (now e) assigned request])%list.
Proof.
  intros Hu Hreq. destruct (fetch_request_row s requestId request Hreq) as [Hin Hid].
  unfold AssignProvider.commit. rewrite update_service_requests_history by apply with_check_service_role. f_equal.
  subst requestId.
  rewrite <- (flat_map_unique (service_requests s) request
                (fun x => if request_status_eqb (ServiceRequest.status x) assigned
                          then []
                          else [transition_row service_role (now e) assigned x])
                Hu Hin).
  apply flat_map_ext. intros x. rewrite update_row_set_assigned. simpl.
  destruct (ServiceRequest.id x =? ServiceRequest.id request); reflexivity.
Qed.

(** The loop on a request that was pending when it was fetched and is not
    any more: the guarded statement changes nothing, and the request is
    counted and notified all the same, since an update that affects no row
    is no error. *)
Lemma batch_counts_a_stale_request e userId pp lat lng radius s n r :
  (forall x, In x (service_requests s) ->
             ServiceRequest.id x = ServiceRequest.id r ->
             ServiceRequest.status x <> pending) ->
  AssignPendingRequests.in_range lat lng radius r = true ->
  update_error e (ServiceRequest.id r) = false ->
  AssignPendingRequests.step e userId pp lat lng radius (s, n) r
  = (insert_notifications
       (insert_notifications s [AssignPendingRequests.resident_notification r])
       [AssignPendingRequests.provider_notification userId r],
     S n).
Proof.
  intros Hstale Hrange Herr. unfold AssignPendingRequests.step.
  rewrite Hrange, Herr.
  destruct (batch_assign_guarded e pp r s Hstale) as [-> _]. reflexivity.
Qed.

(** * The batch handler *)

Lemma notifications_about_batch (userId : uuid) (l : list ServiceRequest.t)
  (r : ServiceRequest.t) :
  NoDup (map ServiceRequest.id l) -> In r l ->
  notifications_about (ServiceRequest.id r) (flat_map (batch_notifications userId) l)
  = batch_notifications userId r.
Proof.
  unfold notifications_about.
  induction l as [| a l IH]; intros Hnd Hr; [contradiction |].
  inversion Hnd as [| ? ? Hnotin Hnd']; subst.
  cbn [flat_map batch_notifications app filter
       AssignPendingRequests.resident_notification
       AssignPendingRequests.provider_notification
       Notification.related_request_id].
  destruct Hr as [-> | Hr].
  - rewrite String.eqb_refl. unfold batch_notifications.
    cbn [AssignPendingRequests.resident_notification
         AssignPendingRequests.provider_notification]. do 2 f_equal.
    apply filter_none. intros n Hn.
    apply in_flat_map in Hn. destruct Hn as [b [Hb Hn]].
    assert (E : Notification.related_request_id n = ServiceRequest.id b).
    { destruct Hn as [<- | [<- | []]]; reflexivity. }
    rewrite E. apply String.eqb_neq. intros Eid. apply Hnotin.
    rewrite <- Eid. apply in_map. exact Hb.
  - assert (N : (ServiceRequest.id a =? ServiceRequest.id r) = false).
    { apply String.eqb_neq. intros Eid. apply Hnotin. rewrite Eid.
      apply in_map. exact Hr. }
    rewrite N. apply IH; assumption.
Qed.

Lemma notifications_about_other (userId : uuid) (l : list ServiceRequest.t)
  (requestId : uuid) :
  ~ In requestId (map ServiceRequest.id l) ->
  notifications_about requestId (flat_map (batch_notifications userId) l) = [].
Proof.
  intros H. unfold notifications_about. apply filter_none. intros n Hn.
  apply in_flat_map in Hn. destruct Hn as [b [Hb Hn]].
  assert (E : Notification.related_request_id n = ServiceRequest.id b).
  { destruct Hn as [<- | [<- | []]]; reflexivity. }
  rewrite E. apply String.eqb_neq. intros Eid. apply H.
  rewrite <- Eid. apply in_map. exact Hb.
Qed.

Lemma NoDup_map_filter {A B : Type} (f : A -> B) (g : A -> bool) (l : list A) :
  NoDup (map f l) -> NoDup (map f (filter g l)).
Proof.
  induction l as [| a l IH]; simpl; intros H; [constructor |].
  inversion H as [| ? ? Hnotin H']; subst.
  destruct (g a); simpl; [| apply IH; exact H'].
  constructor; [| apply IH; exact H'].
  intros Hin. apply Hnotin. apply in_map_iff in Hin.
  destruct Hin as [x [E Hx]]. apply filter_In in Hx.
  rewrite <- E. apply in_map. tauto.
Qed.

Lemma batch_touched_spec e lat lng radius l x :
  NoDup (map ServiceRequest.id l) -> In x l ->
  batch_touched e lat lng radius l x
  = AssignPendingRequests.in_range lat lng radius x
    && negb (update_error e (ServiceRequest.id x)).
Proof.
  intros Hnd Hx. unfold batch_touched.
  destruct (AssignPendingRequests.in_range lat lng radius x
            && negb (update_error e (ServiceRequest.id x))) eqn:E.
  - apply existsb_exists. exists x. rewrite String.eqb_refl. auto.
  - apply not_true_is_false. intros H. apply existsb_exists in H.
    destruct H as [r [Hr H]]. apply andb_true_iff in H. destruct H as [Eid H].
    apply String.eqb_eq in Eid.
    assert (r = x) by (apply (unique_row l); auto). subst r. congruence.
Qed.

Section BatchHandler.
Variable e : environment.
Variable userId : uuid.
Variable s : store.
Variable providerProfile : ProviderProfile.t.
Variable providerProfileData : Profile.t.

Hypothesis HuserId : userId <> "".
Hypothesis HproviderProfile :
  single (filter (fun pp => ProviderProfile.user_id pp =? userId)
                 (provider_profiles s)) = Some providerProfile.

Lemma handler_unavailable :
  AssignProvider.is_true (ProviderProfile.is_available providerProfile) = false ->
  AssignPendingRequests.handler e userId s
  = (s, mkResponse 200 None (Some "Provider is not available")
          None None None None).
Proof.
  intros H. unfold AssignPendingRequests.handler.
  apply String.eqb_neq in HuserId. rewrite HuserId, HproviderProfile, H.
  reflexivity.
Qed.

Hypothesis Havailable : ProviderProfile.is_available providerProfile = Some true.
Hypothesis HproviderProfileData :
  single (filter (fun p => Profile.id p =? userId) (profiles s))
  = Some providerProfileData.

Local Abbreviation categoryIds :=
  (map ProviderCategory.category_id
       (filter (fun pc => ProviderCategory.provider_profile_id pc
                          =? ProviderProfile.id providerProfile)
               (provider_categories s))).
Local Abbreviation pendingRequests :=
  (AssignPendingRequests.fetch_pendingRequests s categoryIds).
Local Abbreviation providerLat :=
  (parseFloat (Profile.location_lat providerProfileData)).
Local Abbreviation providerLng :=
  (parseFloat (Profile.location_lng providerProfileData)).
Local Abbreviation radius := (AssignPendingRequests.serviceRadius providerProfile).

Hypothesis Hpending : pendingRequests <> [].

Lemma handler_loop :
  AssignPendingRequests.handler e userId s
  = (let (s', assignedCount) :=
       AssignPendingRequests.assign_all e userId providerProfile
         providerLat providerLng radius pendingRequests s in
     (s', mkResponse 200 (Some true)
            (Some ("Assigned " ++ AssignPendingRequests.string_of_nat assignedCount
                   ++ " pending request(s)"))
            None None None (Some assignedCount))).
Proof.
  unfold AssignPendingRequests.handler.
  apply String.eqb_neq in HuserId.
  rewrite HuserId, HproviderProfile, Havailable, HproviderProfileData.
  cbn [AssignProvider.is_true negb].
  destruct (filter (fun pc => ProviderCategory.provider_profile_id pc
                              =? ProviderProfile.id providerProfile)
                   (provider_categories s)) as [| pc pcs] eqn:Ec.
  - exfalso. apply Hpending. unfold AssignPendingRequests.fetch_pendingRequests.
    apply filter_none. intros x _. simpl. rewrite andb_false_r. reflexivity.
  - destruct (AssignPendingRequests.fetch_pendingRequests s
                (map ProviderCategory.category_id (pc :: pcs))) eqn:Ep.
    + exfalso. apply Hpending. reflexivity.
    + reflexivity.
Qed.
End BatchHandler.

(** * The default radius *)








(* ================================================================== *)
(** * The claims *)
(* ================================================================== *)

(** C1.  The claim asks for a write guarded by [status = 'pending'] and
    [provider_id IS NULL], so that assigning an assigned request changes
    nothing.  The single-request handler updates by [id] alone.  Invoked a
    second time, at time 9, on the request it assigned at time 5, it
    affects one row and moves [assigned_at] from 5 to 9; once the first
    plumber is unavailable it also replaces [provider_id], notifies again
    and answers with a success. *)
Theorem second_assignment_rewrites_the_request :
  (let s1 := fst (AssignProvider.handler (Scenario.no_faults 5) "req-1"
                    Scenario.created) in
   let (s2, resp) := AssignProvider.handler (Scenario.no_faults 9) "req-1" s1 in
   map (fun r => (ServiceRequest.status r, ServiceRequest.provider_id r,
                  ServiceRequest.assigned_at r))
       (service_requests s1)
   = [(assigned, Some "prov-1", Some 5)] /\
   map (fun r => (ServiceRequest.status r, ServiceRequest.provider_id r,
                  ServiceRequest.assigned_at r))
       (service_requests s2)
   = [(assigned, Some "prov-1", Some 9)] /\
   success resp = Some true) /\
  map (fun r => (ServiceRequest.status r, ServiceRequest.provider_id r,
                 ServiceRequest.assigned_at r))
      (service_requests Scenario.assigned_then_unavailable)
  = [(assigned, Some "prov-1", Some 5)] /\
  rows_affected service_role (fun r => ServiceRequest.id r =? "req-1")
                Scenario.assigned_then_unavailable = 1 /\
  let (s', resp) :=
    AssignProvider.handler (Scenario.no_faults 9) "req-1"
      Scenario.assigned_then_unavailable in
  map (fun r => (ServiceRequest.status r, ServiceRequest.provider_id r,
                 ServiceRequest.assigned_at r))
      (service_requests s')
  = [(assigned, Some "prov-2", Some 9)] /\
  success resp = Some true /\
  List.length (notifications s')
  = 2 + List.length (notifications Scenario.assigned_then_unavailable).
Proof.
  rewrite first_assignment. cbn [fst].
  rewrite repeated_assignment, second_assignment. repeat split; reflexivity.
Qed.

(** C4.  With the request found: when no membership row exists for its
    category the handler answers "No providers available for this
    category" and writes nothing; when memberships exist but no candidate
    is within its radius it answers "No available providers found in
    service area" and inserts one warning per admin row, naming the
    request.  Both answers are [success: false] with status 200 and no
    [error] key. *)
Theorem no_match_outcomes_are_told_apart :
  forall (e : environment) (requestId : uuid) (s : store)
         (request : ServiceRequest.t),
    AssignProvider.fetch_request s requestId = Some request ->
    (AssignProvider.fetch_providerCategories s request = [] ->
     AssignProvider.handler e requestId s
     = (s, mkResponse 200 (Some false)
             (Some "No providers available for this category") None
             (Some requestId) None None)) /\
    (AssignProvider.fetch_providerCategories s request <> [] ->
     (forall c,
         In c (AssignProvider.candidates request
                 (AssignProvider.fetch_providerProfiles s
                    (AssignProvider.fetch_providerCategories s request))
                 (AssignProvider.fetch_profiles s
                    (AssignProvider.fetch_providerProfiles s
                       (AssignProvider.fetch_providerCategories s request)))) ->
         within_radius c = false) ->
     exists s',
       AssignProvider.handler e requestId s
       = (s', mkResponse 200 (Some false)
                (Some "No available providers found in service area") None
                (Some requestId) None None) /\
       service_requests s' = service_requests s /\
       request_status_history s' = request_status_history s /\
       notifications s'
       = (notifications s ++ AssignProvider.adminNotifications s requestId)%list /\
       (forall n, In n (AssignProvider.adminNotifications s requestId) ->
                  Notification.type n = "warning" /\
                  Notification.message n
                  = "No available provider found for request " ++ requestId /\
                  Notification.related_request_id n = requestId /\
                  has_role s (Notification.user_id n) admin = true) /\
       (forall u, has_role s u admin = false ->
                  notifications_to u (AssignProvider.adminNotifications s requestId)
                  = []) /\
       (user_roles_unique s ->
        forall u, has_role s u admin = true ->
                  List.length
                    (notifications_to u
                       (AssignProvider.adminNotifications s requestId)) = 1)).
Proof.
  intros e requestId s request Hreq. split.
  - intros Hc. apply (handler_no_candidates e requestId s request Hreq Hc).
  - intros Hc Hnone.
    exists (insert_notifications s (AssignProvider.adminNotifications s requestId)).
    split; [| split; [| split; [| split; [| split; [| split]]]]].
    + apply (handler_none_in_range e requestId s request Hreq Hc).
      unfold AssignProvider.providersWithDistance.
      apply ranking_empty_iff. exact Hnone.
    + reflexivity.
    + reflexivity.
    + reflexivity.
    + apply admin_notification_shape.
    + apply no_admin_no_notification.
    + intros Hu u Hrole. rewrite notifications_to_admin.
      apply admin_rows_count; assumption.
Qed.

Lemma no_match_outcomes_are_told_apart_witness :
  (AssignProvider.fetch_request Scenario.carpentry_store "req-2"
   = Some Scenario.carpentry_row /\
   AssignProvider.fetch_providerCategories Scenario.carpentry_store
     Scenario.carpentry_row = [] /\
   AssignProvider.handler (Scenario.no_faults 5) "req-2" Scenario.carpentry_store
   = (Scenario.carpentry_store,
      mkResponse 200 (Some false)
        (Some "No providers available for this category") None
        (Some "req-2") None None)) /\
  (AssignProvider.fetch_request Scenario.nobody_available "req-1"
   = Some Scenario.pending_row /\
   AssignProvider.fetch_providerCategories Scenario.nobody_available
     Scenario.pending_row <> [] /\
   exists s',
     AssignProvider.handler (Scenario.no_faults 5) "req-1" Scenario.nobody_available
     = (s', mkResponse 200 (Some false)
              (Some "No available providers found in service area") None
              (Some "req-1") None None) /\
     notifications s'
     = [Notification.mk "admin-1" "Assignment Failed"
          "No available provider found for request req-1" "warning" "req-1"]).
Proof.
  split.
  - assert (H1 : AssignProvider.fetch_request Scenario.carpentry_store "req-2"
                 = Some Scenario.carpentry_row) by reflexivity.
    assert (H2 : AssignProvider.fetch_providerCategories Scenario.carpentry_store
                   Scenario.carpentry_row = []) by reflexivity.
    split; [exact H1 |]. split; [exact H2 |].
    exact (proj1 (no_match_outcomes_are_told_apart (Scenario.no_faults 5) "req-2"
                    Scenario.carpentry_store Scenario.carpentry_row H1) H2).
  - assert (H1 : AssignProvider.fetch_request Scenario.nobody_available "req-1"
                 = Some Scenario.pending_row) by reflexivity.
    assert (H2 : AssignProvider.fetch_providerCategories Scenario.nobody_available
                   Scenario.pending_row <> []) by (simpl; discriminate).
    assert (H3 : forall c,
               In c (AssignProvider.candidates Scenario.pending_row
                       (AssignProvider.fetch_providerProfiles Scenario.nobody_available
                          (AssignProvider.fetch_providerCategories
                             Scenario.nobody_available Scenario.pending_row))
                       (AssignProvider.fetch_profiles Scenario.nobody_available
                          (AssignProvider.fetch_providerProfiles
                             Scenario.nobody_available
                             (AssignProvider.fetch_providerCategories
                                Scenario.nobody_available Scenario.pending_row)))) ->
               within_radius c = false).
    { simpl. intros c []. }
    split; [exact H1 |]. split; [exact H2 |].
    destruct (proj2 (no_match_outcomes_are_told_apart (Scenario.no_faults 5) "req-1"
                       Scenario.nobody_available Scenario.pending_row H1) H2 H3)
      as (s' & Hh & _ & _ & Hn & _).
    exists s'. split; [exact Hh | exact Hn].
Defined.

(** C7.  When no row of [service_requests] has the identifier, the handler
    answers [{ success: false, error }] with status 400, a body without
    [message], and returns the store as it found it. *)
Theorem missing_request_is_a_hard_failure :
  forall (e : environment) (requestId : uuid) (s : store),
    (forall r, In r (service_requests s) -> ServiceRequest.id r <> requestId) ->
    exists resp,
      AssignProvider.handler e requestId s = (s, resp) /\
      http_status resp = 400 /\
      success resp = Some false /\
      error resp = Some "Service request not found" /\
      message resp = None /\
      provider_ resp = None.
Proof.
  intros e requestId s H.
  exists (AssignProvider.hard_failure "Service request not found").
  split; [| repeat split].
  apply handler_not_found. apply fetch_request_missing. exact H.
Qed.

Lemma missing_request_is_a_hard_failure_witness :
  (forall r, In r (service_requests Scenario.created) ->
             ServiceRequest.id r <> "req-9") /\
  exists resp,
    AssignProvider.handler (Scenario.no_faults 5) "req-9" Scenario.created
    = (Scenario.created, resp) /\
    http_status resp = 400 /\
    success resp = Some false /\
    error resp = Some "Service request not found" /\
    message resp = None /\
    provider_ resp = None.
Proof.
  assert (H : forall r, In r (service_requests Scenario.created) ->
                        ServiceRequest.id r <> "req-9").
  { intros r [<- | []]. discriminate. }
  split; [exact H |].
  exact (missing_request_is_a_hard_failure (Scenario.no_faults 5) "req-9"
           Scenario.created H).
Defined.

(** C9.  A provider whose profile has [is_available = false] gets status
    200 with "Provider is not available", and the store is returned as it
    was. *)
Theorem unavailable_provider_changes_nothing :
  forall (e : environment) (userId : uuid) (s : store)
         (providerProfile : ProviderProfile.t),
    userId <> "" ->
    single (filter (fun pp => ProviderProfile.user_id pp =? userId)
                   (provider_profiles s)) = Some providerProfile ->
    ProviderProfile.is_available providerProfile = Some false ->
    AssignPendingRequests.handler e userId s
    = (s, mkResponse 200 None (Some "Provider is not available")
            None None None None).
Proof.
  intros e userId s pp Hu Hpp Hav.
  apply (handler_unavailable e userId s pp Hu Hpp).
  rewrite Hav. reflexivity.
Qed.

Lemma unavailable_provider_changes_nothing_witness :
  "user-p1" <> "" /\
  single (filter (fun pp => ProviderProfile.user_id pp =? "user-p1")
                 (provider_profiles Scenario.nobody_available))
  = Some (ProviderProfile.mk "prov-1" "user-p1" (Some 10%R) (Some false)) /\
  AssignPendingRequests.handler (Scenario.no_faults 5) "user-p1"
    Scenario.nobody_available
  = (Scenario.nobody_available,
     mkResponse 200 None (Some "Provider is not available") None None None None).
Proof.
  assert (H1 : "user-p1" <> "") by discriminate.
  assert (H2 : single (filter (fun pp => ProviderProfile.user_id pp =? "user-p1")
                              (provider_profiles Scenario.nobody_available))
               = Some (ProviderProfile.mk "prov-1" "user-p1" (Some 10%R) (Some false)))
    by reflexivity.
  split; [exact H1 |]. split; [exact H2 |].
  exact (unavailable_provider_changes_nothing (Scenario.no_faults 5) "user-p1"
           Scenario.nobody_available
           (ProviderProfile.mk "prov-1" "user-p1" (Some 10%R) (Some false))
           H1 H2 eq_refl).
Defined.


(** C8.  The batch handler treats every pending request on its own.  With
    the provider found, available and located, and some pending request
    fetched: the answer is [success: true] with [assignedCount] the number
    of in-range requests whose update the store accepted; the notifications
    inserted are two per such request, to its resident and to the provider;
    a request whose update fails keeps its row and gets no notification,
    and the requests after it are still processed.  With [id] a key of
    [service_requests], every counted request ends assigned to the provider
    with one history row, and every other row is unchanged. *)
Theorem batch_handles_each_request_on_its_own :
  forall (e : environment) (userId : uuid) (s : store)
         (providerProfile : ProviderProfile.t) (providerProfileData : Profile.t),
    userId <> "" ->
    single (filter (fun pp => ProviderProfile.user_id pp =? userId)
                   (provider_profiles s)) = Some providerProfile ->
    ProviderProfile.is_available providerProfile = Some true ->
    single (filter (fun p => Profile.id p =? userId) (profiles s))
    = Some providerProfileData ->
    let pendingRequests :=
      AssignPendingRequests.fetch_pendingRequests s
        (map ProviderCategory.category_id
             (filter (fun pc => ProviderCategory.provider_profile_id pc
                                =? ProviderProfile.id providerProfile)
                     (provider_categories s))) in
    let providerLat := parseFloat (Profile.location_lat providerProfileData) in
    let providerLng := parseFloat (Profile.location_lng providerProfileData) in
    let radius := AssignPendingRequests.serviceRadius providerProfile in
    let done := assigned_by_batch e providerLat providerLng radius pendingRequests in
    pendingRequests <> [] ->
    exists s',
      AssignPendingRequests.handler e userId s
      = (s', mkResponse 200 (Some true)
               (Some ("Assigned "
                      ++ AssignPendingRequests.string_of_nat (List.length done)
                      ++ " pending request(s)"))
               None None None (Some (List.length done))) /\
      notifications s'
      = (notifications s ++ flat_map (batch_notifications userId) done)%list /\
      (forall r, In r done ->
                 batch_notifications userId r
                 = [AssignPendingRequests.resident_notification r;
                    AssignPendingRequests.provider_notification userId r] /\
                 Notification.user_id (AssignPendingRequests.resident_notification r)
                 = ServiceRequest.resident_id r /\
                 Notification.user_id
                   (AssignPendingRequests.provider_notification userId r)
                 = userId) /\
      (forall r, In r pendingRequests ->
                 update_error e (ServiceRequest.id r) = true ->
                 In r (service_requests s') /\ ~ In r done /\
                 notifications_about (ServiceRequest.id r)
                   (flat_map (batch_notifications userId) done) = []) /\
      (request_ids_unique s ->
       request_status_history s'
       = (request_status_history s
          ++ map (transition_row service_role (now e) assigned) done)%list /\
       (forall r, In r done ->
                  In (assigned_to (ProviderProfile.id providerProfile) (now e) r)
                     (service_requests s') /\
                  notifications_about (ServiceRequest.id r)
                    (flat_map (batch_notifications userId) done)
                  = batch_notifications userId r) /\
       (forall r, In r (service_requests s) -> ~ In r done ->
                  In r (service_requests s') /\
                  notifications_about (ServiceRequest.id r)
                    (flat_map (batch_notifications userId) done) = [])).
Proof.
  intros e userId s pp pd Hu Hpp Hav Hpd pend lat lng radius done Hpend.
  pose proof (handler_loop e userId s pp pd Hu Hpp Hav Hpd Hpend) as Hh.
  fold pend lat lng radius in Hh.
  unfold AssignPendingRequests.assign_all in Hh.
  destruct (loop_count_notifications e userId pp lat lng radius pend s 0)
    as (Hcount & Hnotif & _).
  pose proof (loop_keeps e userId pp lat lng radius pend s 0) as Hkeep.
  pose proof (loop_rows_history e userId pp lat lng radius pend s 0) as Hrows.
  destruct (fold_left (AssignPendingRequests.step e userId pp lat lng radius)
                      pend (s, 0%nat)) as [s' n] eqn:Eloop.
  simpl in Hcount, Hnotif, Hkeep, Hrows. fold done in Hcount, Hnotif, Hrows.
  subst n.
  assert (Hsub : forall r, In r pend ->
             In r (service_requests s) /\ ServiceRequest.status r = pending).
  { intros r Hr. unfold pend, AssignPendingRequests.fetch_pendingRequests in Hr.
    apply filter_In in Hr. destruct Hr as [Hin Hf]. split; [exact Hin |].
    apply andb_true_iff in Hf. destruct Hf as [Hf _].
    apply andb_true_iff in Hf. destruct Hf as [Hf _].
    apply request_status_eqb_eq. exact Hf. }
  exists s'. split; [exact Hh |]. split; [exact Hnotif |].
  split; [| split].
  - intros r _. repeat split.
  - intros r Hr Herr. split; [| split].
    + apply Hkeep; [apply Hsub; exact Hr | left; exact Herr].
    + unfold done, assigned_by_batch. intros Hd. apply filter_In in Hd.
      destruct Hd as [_ Hd]. rewrite Herr, andb_false_r in Hd. discriminate.
    + apply notifications_about_other. intros Hid.
      apply in_map_iff in Hid. destruct Hid as [x [Eid Hx]].
      unfold done, assigned_by_batch in Hx. apply filter_In in Hx.
      destruct Hx as [_ Hx]. rewrite Eid, Herr, andb_false_r in Hx. discriminate.
  - intros Huniq.
    assert (Hndp : NoDup (map ServiceRequest.id pend)).
    { unfold pend, AssignPendingRequests.fetch_pendingRequests.
      apply NoDup_map_filter. exact Huniq. }
    assert (Hndd : NoDup (map ServiceRequest.id done)).
    { unfold done, assigned_by_batch. apply NoDup_map_filter. exact Hndp. }
    destruct (Hrows Huniq Hndp Hsub) as [Hr Hhist].
    split; [exact Hhist |]. split.
    + intros r Hd. split.
      * assert (Hrp : In r pend).
        { unfold done, assigned_by_batch in Hd. apply filter_In in Hd. tauto. }
        rewrite Hr. apply in_map_iff. exists r. split; [| apply Hsub; exact Hrp].
        rewrite (batch_touched_spec e lat lng radius pend r Hndp Hrp).
        unfold done, assigned_by_batch in Hd. apply filter_In in Hd.
        destruct Hd as [_ ->]. reflexivity.
      * apply notifications_about_batch; assumption.
    + intros r Hin Hnd. split.
      * rewrite Hr. apply in_map_iff. exists r. split; [| exact Hin].
        replace (batch_touched e lat lng radius pend r) with false; [reflexivity |].
        symmetry. apply not_true_is_false. intros Ht.
        unfold batch_touched in Ht. apply existsb_exists in Ht.
        destruct Ht as [x [Hx Ht]]. apply andb_true_iff in Ht.
        destruct Ht as [Eid Hok]. apply String.eqb_eq in Eid.
        assert (x = r).
        { apply (unique_row (service_requests s)); auto. apply Hsub. exact Hx. }
        subst x. apply Hnd. unfold done, assigned_by_batch. apply filter_In. auto.
      * apply notifications_about_other. intros Hid.
        apply in_map_iff in Hid. destruct Hid as [x [Eid Hx]].
        assert (x = r).
        { apply (unique_row (service_requests s)); auto.
          apply Hsub. unfold done, assigned_by_batch in Hx.
          apply filter_In in Hx. tauto. }
        subst x. contradiction.
Qed.

Lemma batch_handles_each_request_on_its_own_witness :
  "user-p1" <> "" /\
  single (filter (fun pp => ProviderProfile.user_id pp =? "user-p1")
                 (provider_profiles Scenario.two_pending))
  = Some (ProviderProfile.mk "prov-1" "user-p1" (Some 10%R) (Some true)) /\
  single (filter (fun p => Profile.id p =? "user-p1") (profiles Scenario.two_pending))
  = Some (Profile.mk "user-p1" "Ravi" (Some 12.9716%R) (Some 77.5946%R)) /\
  AssignPendingRequests.fetch_pendingRequests Scenario.two_pending ["plumbing"]
  = [Scenario.pending_row; Scenario.second_row] /\
  exists s',
    AssignPendingRequests.handler (Scenario.req_1_fails 5) "user-p1"
      Scenario.two_pending
    = (s', mkResponse 200 (Some true) (Some "Assigned 1 pending request(s)")
             None None None (Some 1)) /\
    notifications s' = batch_notifications "user-p1" Scenario.second_row /\
    In Scenario.pending_row (service_requests s').
Proof.
  assert (H1 : "user-p1" <> "") by discriminate.
  assert (H2 : single (filter (fun pp => ProviderProfile.user_id pp =? "user-p1")
                              (provider_profiles Scenario.two_pending))
               = Some (ProviderProfile.mk "prov-1" "user-p1" (Some 10%R) (Some true)))
    by reflexivity.
  assert (H3 : single (filter (fun p => Profile.id p =? "user-p1")
                              (profiles Scenario.two_pending))
               = Some (Profile.mk "user-p1" "Ravi" (Some 12.9716%R) (Some 77.5946%R)))
    by reflexivity.
  assert (H4 : AssignPendingRequests.fetch_pendingRequests Scenario.two_pending
                 ["plumbing"] = [Scenario.pending_row; Scenario.second_row])
    by reflexivity.
  assert (H5 : AssignPendingRequests.fetch_pendingRequests Scenario.two_pending
                 (map ProviderCategory.category_id
                    (filter (fun pc => ProviderCategory.provider_profile_id pc
                                       =? "prov-1")
                            (provider_categories Scenario.two_pending))) <> [])
    by (simpl; discriminate).
  assert (Hdone : assigned_by_batch (Scenario.req_1_fails 5)
                    (Num 12.9716) (Num 77.5946) (Num 10)
                    [Scenario.pending_row; Scenario.second_row]
                  = [Scenario.second_row]).
  { unfold assigned_by_batch, AssignPendingRequests.in_range. simpl.
    run_distance. reflexivity. }
  split; [exact H1 |]. split; [exact H2 |]. split; [exact H3 |].
  split; [exact H4 |].
  destruct (batch_handles_each_request_on_its_own (Scenario.req_1_fails 5)
              "user-p1" Scenario.two_pending
              (ProviderProfile.mk "prov-1" "user-p1" (Some 10%R) (Some true))
              (Profile.mk "user-p1" "Ravi" (Some 12.9716%R) (Some 77.5946%R))
              H1 H2 eq_refl H3 H5)
    as (s' & Hh & Hn & _ & Hfail & _).
  change (assigned_by_batch _ _ _ _ _)
    with (assigned_by_batch (Scenario.req_1_fails 5)
            (Num 12.9716) (Num 77.5946) (Num 10)
            [Scenario.pending_row; Scenario.second_row]) in Hh, Hn.
  rewrite Hdone in Hh, Hn.
  exists s'. split; [exact Hh | split].
  - exact Hn.
  - apply (Hfail Scenario.pending_row); [left; reflexivity | reflexivity].
Defined.

(** C5.  The claim asks that [assigned_at] and [completed_at] be written
    once.  Both handlers put the current time in their [SET] clause and
    select the row by [id] alone: marking the completed request completed
    again moves [completed_at] from 7 to 9, and assigning the assigned
    request again moves [assigned_at] from 5 to 9. *)
Theorem repeated_operations_rewrite_the_timestamps :
  (map ServiceRequest.completed_at (service_requests Scenario.completed_store)
   = [Some 7] /\
   ProviderJobActions.button_rendered "in_progress" = true /\
   map ServiceRequest.completed_at
       (service_requests
          (fst (ProviderJobActions.handleMarkCompleted (authenticated "user-p1")
                  (Scenario.no_faults 9) "req-1" Scenario.completed_store)))
   = [Some 9]) /\
  (map ServiceRequest.assigned_at (service_requests Scenario.assigned_store)
   = [Some 5] /\
   map ServiceRequest.assigned_at
       (service_requests
          (fst (AssignProvider.handler (Scenario.no_faults 9) "req-1"
                  Scenario.assigned_store)))
   = [Some 9]).
Proof.
  rewrite repeated_completion, repeated_assignment. repeat split; reflexivity.
Qed.

(* ================================================================== *)
(** * Further properties *)
(* ================================================================== *)

(** ** The distance calculator *)

Section Distances.
Local Open Scope R_scope.

(** X2.  A coordinate that is [NaN] (a missing column read through
    [parseFloat]) makes the distance [NaN], and a [NaN] distance is within
    no radius. *)
Theorem calculateDistance_propagates_NaN :
  forall lat1 lon1 lat2 lon2 radius : number,
    ~ (is_num lat1 /\ is_num lon1 /\ is_num lat2 /\ is_num lon2) ->
    calculateDistance lat1 lon1 lat2 lon2 = NaN /\
    JS.le (calculateDistance lat1 lon1 lat2 lon2) radius = false.
Proof.
  intros lat1 lon1 lat2 lon2 radius H.
  rewrite (calculateDistance_NaN lat1 lon1 lat2 lon2 H). split; reflexivity.
Qed.

Lemma calculateDistance_propagates_NaN_witness :
  ~ (is_num (Num 12) /\ is_num NaN /\ is_num (Num 12) /\ is_num (Num 77)) /\
  calculateDistance (Num 12) NaN (Num 12) (Num 77) = NaN /\
  JS.le (calculateDistance (Num 12) NaN (Num 12) (Num 77)) (Num 10) = false.
Proof.
  assert (H : ~ (is_num (Num 12) /\ is_num NaN /\ is_num (Num 12) /\ is_num (Num 77))).
  { simpl. tauto. }
  split; [exact H |].
  exact (calculateDistance_propagates_NaN (Num 12) NaN (Num 12) (Num 77) (Num 10) H).
Defined.

End Distances.

(** ** The sort is stable *)

Section Stable.
Variable A : Type.
Variable compareFn : A -> A -> number.
Variable tied : A -> bool.
Hypothesis Htied :
  forall a b, tied a = true -> tied b = true -> JS.positive (compareFn a b) = false.

Lemma sort_insert_tied (x : A) (l : list A) :
  tied x = true -> filter tied (sort_insert compareFn x l) = x :: filter tied l.
Proof.
  intros Hx. induction l as [| y ys IH]; simpl.
  - rewrite Hx. reflexivity.
  - destruct (JS.positive (compareFn x y)) eqn:E.
    + assert (Hy : tied y = false).
      { destruct (tied y) eqn:Ey; [| reflexivity].
        rewrite (Htied x y Hx Ey) in E. discriminate. }
      simpl. rewrite Hy. exact IH.
    + simpl. rewrite Hx. reflexivity.
Qed.

Lemma sort_insert_untied (x : A) (l : list A) :
  tied x = false -> filter tied (sort_insert compareFn x l) = filter tied l.
Proof.
  intros Hx. induction l as [| y ys IH]; simpl.
  - rewrite Hx. reflexivity.
  - destruct (JS.positive (compareFn x y)); simpl.
    + rewrite IH. reflexivity.
    + rewrite Hx. reflexivity.
Qed.

Lemma Array_sort_stable (l : list A) :
  filter tied (Array_sort compareFn l) = filter tied l.
Proof.
  induction l as [| x xs IH]; simpl; [reflexivity |].
  destruct (tied x) eqn:Hx.
  - rewrite (sort_insert_tied x _ Hx), IH. reflexivity.
  - rewrite (sort_insert_untied x _ Hx), IH. reflexivity.
Qed.
End Stable.

(** X5.  Candidates at the same distance leave the ranking in the order
    in which they entered it: the sort is stable. *)
Theorem ranking_keeps_the_order_of_ties :
  forall (cands : list candidate) (d : R),
    filter (at_distance d) (rank cands)
    = filter (at_distance d) (filter within_radius cands).
Proof.
  intros cands d. unfold rank. apply Array_sort_stable.
  intros a b Ha Hb. unfold at_distance in Ha, Hb. unfold by_distance.
  destruct (distance a) as [| x]; [discriminate |].
  destruct (distance b) as [| y]; [discriminate |].
  destruct (Req_dec_T x d) as [-> |]; [| discriminate].
  destruct (Req_dec_T y d) as [-> |]; [| discriminate].
  apply positive_Num_false. lra.
Qed.

(** ** The resolver of the single-request handler *)

Lemma in_drop_null {A : Type} (l : list (option A)) (x : A) :
  In x (AssignProvider.drop_null l) <-> In (Some x) l.
Proof.
  induction l as [| [a |] l IH]; simpl.
  - tauto.
  - rewrite IH. split; intros [H | H]; auto; left; congruence.
  - rewrite IH. split; [auto | intros [H | H]; [discriminate | exact H]].
Qed.

Lemma uuid_in_spec (x : uuid) (l : list uuid) : uuid_in x l = true <-> In x l.
Proof.
  unfold uuid_in. rewrite existsb_exists. split.
  - intros [y [Hy E]]. apply String.eqb_eq in E. subst. exact Hy.
  - intros H. exists x. split; [exact H | apply String.eqb_refl].
Qed.

Lemma find_unique_profile (l : list Profile.t) (p : Profile.t) :
  NoDup (map Profile.id l) -> In p l ->
  find (fun q => Profile.id q =? Profile.id p) l = Some p.
Proof.
  induction l as [| a l IH]; simpl; intros Hnd Hin; [contradiction |].
  inversion Hnd as [| ? ? Hnotin Hnd']; subst.
  destruct Hin as [-> | Hin].
  - rewrite String.eqb_refl. reflexivity.
  - destruct (String.eqb_spec (Profile.id a) (Profile.id p)) as [E | _].
    + exfalso. apply Hnotin. rewrite E. apply in_map. exact Hin.
    + apply IH; assumption.
Qed.

(** The provider profile behind a ranked candidate. *)
Lemma ranked_candidates_are_eligible_providers_support
  (s : store) (request : ServiceRequest.t) (c : candidate) :
  In c (AssignProvider.providersWithDistance s request) ->
  exists pp : ProviderProfile.t,
    In pp (provider_profiles s) /\ ProviderProfile.id pp = providerId c.
Proof.
  intros Hc.
  unfold AssignProvider.providersWithDistance in Hc.
  apply rank_In in Hc. destruct Hc as [Hc _].
  unfold AssignProvider.candidates in Hc. apply in_drop_null in Hc.
  apply in_map_iff in Hc. destruct Hc as [pp [Hwd Hpp]].
  unfold AssignProvider.fetch_providerProfiles in Hpp.
  apply filter_In in Hpp. destruct Hpp as [Hpp _].
  exists pp. split; [exact Hpp |].
  unfold AssignProvider.with_distance in Hwd.
  destruct (find _ _) as [profile |]; [| discriminate].
  destruct (Profile.location_lat profile); [| discriminate].
  destruct (Profile.location_lng profile); [| discriminate].
  injection Hwd as <-. reflexivity.
Qed.

(** X6.  Whoever is ranked is a provider of the request's category who is
    available, has a profile with both coordinates and a radius that is not
    null, and is within that radius of the request. *)
Theorem ranked_candidates_are_eligible_providers :
  forall (s : store) (request : ServiceRequest.t) (c : candidate),
    In c (AssignProvider.providersWithDistance s request) ->
    exists (pp : ProviderProfile.t) (profile : Profile.t) (lat lng r d : R),
      In pp (provider_profiles s) /\
      ProviderProfile.id pp = providerId c /\
      ProviderProfile.is_available pp = Some true /\
      In (ProviderCategory.mk (ProviderProfile.id pp)
                              (ServiceRequest.category_id request))
         (provider_categories s) /\
      In profile (profiles s) /\
      Profile.id profile = ProviderProfile.user_id pp /\
      Profile.name profile = providerName c /\
      Profile.location_lat profile = Some lat /\
      Profile.location_lng profile = Some lng /\
      ProviderProfile.service_area_radius_km pp = Some r /\
      calculateDistance (Num (ServiceRequest.location_lat request))
                        (Num (ServiceRequest.location_lng request))
                        (Num lat) (Num lng) = Num d /\
      distance c = Num d /\
      (d <= r)%R.
Proof.
  intros s request c Hc.
  unfold AssignProvider.providersWithDistance in Hc.
  apply rank_In in Hc. destruct Hc as [Hc Hw].
  unfold AssignProvider.candidates in Hc. apply in_drop_null in Hc.
  apply in_map_iff in Hc. destruct Hc as [pp [Hwd Hpp]].
  unfold AssignProvider.fetch_providerProfiles in Hpp.
  apply filter_In in Hpp. destruct Hpp as [Hpp Hf].
  apply andb_true_iff in Hf. destruct Hf as [Hmem Hav].
  apply uuid_in_spec in Hmem. apply in_map_iff in Hmem.
  destruct Hmem as [[ppid cat] [Eid Hpc]]. simpl in Eid.
  unfold AssignProvider.fetch_providerCategories in Hpc.
  apply filter_In in Hpc. destruct Hpc as [Hpc Hcat]. simpl in Hcat.
  apply String.eqb_eq in Hcat. subst ppid cat.
  unfold AssignProvider.with_distance in Hwd.
  destruct (find _ _) as [profile |] eqn:Hfind; [| discriminate].
  apply find_some in Hfind. destruct Hfind as [Hprof Hpid].
  apply String.eqb_eq in Hpid.
  unfold AssignProvider.fetch_profiles in Hprof. apply filter_In in Hprof.
  destruct Hprof as [Hprof _].
  destruct (Profile.location_lat profile) as [lat |] eqn:Elat; [| discriminate].
  destruct (Profile.location_lng profile) as [lng |] eqn:Elng; [| discriminate].
  injection Hwd as <-.
  apply within_radius_spec in Hw. destruct Hw as (d & r & Hd & Hr & Hle).
  simpl in Hd, Hr.
  destruct (ProviderProfile.service_area_radius_km pp) as [r' |] eqn:Er;
    [| discriminate].
  simpl in Hr. injection Hr as ->.
  exists pp, profile, lat, lng, r, d.
  destruct (ProviderProfile.is_available pp) as [[|] |] eqn:Eav; try discriminate.
  repeat split; auto.
Qed.

Lemma scenario_ranking :
  AssignProvider.providersWithDistance Scenario.created Scenario.pending_row
  = [mkCandidate "prov-1" "Ravi" (Num 0) (Num 10);
     mkCandidate "prov-2" "Meena" (Num 0) (Num 10)].
Proof.
  unfold AssignProvider.providersWithDistance, AssignProvider.candidates,
    AssignProvider.with_distance, rank, within_radius, by_distance.
  run. reflexivity.
Qed.

Lemma ranked_candidates_are_eligible_providers_witness :
  In (mkCandidate "prov-1" "Ravi" (Num 0) (Num 10))
     (AssignProvider.providersWithDistance Scenario.created Scenario.pending_row) /\
  exists pp : ProviderProfile.t,
    In pp (provider_profiles Scenario.created) /\
    ProviderProfile.id pp = "prov-1" /\
    ProviderProfile.is_available pp = Some true.
Proof.
  assert (H : In (mkCandidate "prov-1" "Ravi" (Num 0) (Num 10))
                 (AssignProvider.providersWithDistance Scenario.created
                    Scenario.pending_row)).
  { rewrite scenario_ranking. left. reflexivity. }
  split; [exact H |].
  destruct (ranked_candidates_are_eligible_providers Scenario.created
              Scenario.pending_row (mkCandidate "prov-1" "Ravi" (Num 0) (Num 10)) H)
    as (pp & profile & lat & lng & r & d & Hin & Hid & Hav & _).
  exists pp. split; [exact Hin |]. split; [exact Hid | exact Hav].
Defined.

(** X7.  Conversely, with [id] a key of [profiles]: an available provider
    of the request's category, whose profile has both coordinates and
    whose radius covers the distance, is ranked. *)
Theorem eligible_providers_are_ranked :
  forall (s : store) (request : ServiceRequest.t)
         (pp : ProviderProfile.t) (profile : Profile.t) (lat lng r d : R),
    profile_ids_unique s ->
    In pp (provider_profiles s) ->
    ProviderProfile.is_available pp = Some true ->
    In (ProviderCategory.mk (ProviderProfile.id pp)
                            (ServiceRequest.category_id request))
       (provider_categories s) ->
    In profile (profiles s) ->
    Profile.id profile = ProviderProfile.user_id pp ->
    Profile.location_lat profile = Some lat ->
    Profile.location_lng profile = Some lng ->
    ProviderProfile.service_area_radius_km pp = Some r ->
    calculateDistance (Num (ServiceRequest.location_lat request))
                      (Num (ServiceRequest.location_lng request))
                      (Num lat) (Num lng) = Num d ->
    (d <= r)%R ->
    In (mkCandidate (ProviderProfile.id pp) (Profile.name profile) (Num d) (Num r))
       (AssignProvider.providersWithDistance s request).
Proof.
  intros s request pp profile lat lng r d Hu Hpp Hav Hpc Hprof Hid Hlat Hlng Hr Hd Hle.
  unfold AssignProvider.providersWithDistance. apply rank_In. split.
  - unfold AssignProvider.candidates. apply in_drop_null. apply in_map_iff.
    exists pp. split.
    + unfold AssignProvider.with_distance.
      assert (Hpps : In pp (AssignProvider.fetch_providerProfiles s
                              (AssignProvider.fetch_providerCategories s request))).
      { unfold AssignProvider.fetch_providerProfiles. apply filter_In.
        split; [exact Hpp |]. rewrite Hav. simpl. rewrite andb_true_r.
        apply uuid_in_spec. apply in_map_iff.
        exists (ProviderCategory.mk (ProviderProfile.id pp)
                                    (ServiceRequest.category_id request)).
        split; [reflexivity |].
        unfold AssignProvider.fetch_providerCategories. apply filter_In.
        split; [exact Hpc | apply String.eqb_refl]. }
      set (pps := AssignProvider.fetch_providerProfiles s _) in *.
      assert (Hfound : In profile (AssignProvider.fetch_profiles s pps)).
      { unfold AssignProvider.fetch_profiles. apply filter_In.
        split; [exact Hprof |]. apply uuid_in_spec. rewrite Hid.
        apply in_map. exact Hpps. }
      rewrite <- Hid.
      rewrite (find_unique_profile (AssignProvider.fetch_profiles s pps) profile).
      * rewrite Hlat, Hlng. simpl. rewrite Hd, Hr. reflexivity.
      * unfold AssignProvider.fetch_profiles. apply NoDup_map_filter. exact Hu.
      * exact Hfound.
    + unfold AssignProvider.fetch_providerProfiles. apply filter_In.
      split; [exact Hpp |]. rewrite Hav. simpl. rewrite andb_true_r.
      apply uuid_in_spec. apply in_map_iff.
      exists (ProviderCategory.mk (ProviderProfile.id pp)
                                  (ServiceRequest.category_id request)).
      split; [reflexivity |].
      unfold AssignProvider.fetch_providerCategories. apply filter_In.
      split; [exact Hpc | apply String.eqb_refl].
  - apply within_radius_spec. exists d, r. auto.
Qed.

Lemma eligible_providers_are_ranked_witness :
  profile_ids_unique Scenario.created /\
  In (mkCandidate "prov-2" "Meena" (Num 0) (Num 10))
     (AssignProvider.providersWithDistance Scenario.created Scenario.pending_row).
Proof.
  assert (Hu : profile_ids_unique Scenario.created).
  { unfold profile_ids_unique. simpl.
    repeat (constructor; [simpl; intuition discriminate |]). constructor. }
  split; [exact Hu |].
  refine (eligible_providers_are_ranked Scenario.created Scenario.pending_row
            (ProviderProfile.mk "prov-2" "user-p2" (Some 10%R) (Some true))
            (Profile.mk "user-p2" "Meena" (Some 12.9716%R) (Some 77.5946%R))
            12.9716%R 77.5946%R 10%R 0%R Hu _ eq_refl _ _ eq_refl eq_refl eq_refl
            eq_refl _ _).
  - simpl. auto.
  - simpl. auto.
  - simpl. auto.
  - apply calculateDistance_self.
  - lra.
Defined.

(** ** Statements and triggers *)

Lemma update_request_timestamps_fields t NEW :
  ServiceRequest.id (update_request_timestamps t NEW) = ServiceRequest.id NEW /\
  ServiceRequest.resident_id (update_request_timestamps t NEW)
  = ServiceRequest.resident_id NEW /\
  ServiceRequest.status (update_request_timestamps t NEW) = ServiceRequest.status NEW /\
  ServiceRequest.provider_id (update_request_timestamps t NEW)
  = ServiceRequest.provider_id NEW.
Proof.
  unfold update_request_timestamps.
  destruct (request_status_eqb (ServiceRequest.status NEW) assigned
            && is_none (ServiceRequest.assigned_at NEW)); [repeat split |].
  destruct (request_status_eqb (ServiceRequest.status NEW) completed
            && is_none (ServiceRequest.completed_at NEW)); repeat split.
Qed.

Lemma update_row_fields who t set OLD :
  ServiceRequest.id (fst (update_row who t set OLD)) = ServiceRequest.id (set OLD) /\
  ServiceRequest.status (fst (update_row who t set OLD))
  = ServiceRequest.status (set OLD) /\
  ServiceRequest.updated_at (fst (update_row who t set OLD)) = t.
Proof.
  unfold update_row. simpl.
  destruct (update_request_timestamps_fields t (set OLD)) as (H1 & _ & H3 & _).
  auto.
Qed.

Lemma flat_map_if {A B : Type} (c : A -> bool) (g : A -> B) (l : list A) :
  flat_map (fun x => if c x then [g x] else []) l = map g (filter c l).
Proof.
  induction l as [| a l IH]; simpl; [reflexivity |].
  destruct (c a); simpl; rewrite IH; reflexivity.
Qed.

(** X8.  An [UPDATE] of [service_requests] is either refused, when a row
    it selects would no longer pass a policy once written, and then
    changes nothing; or it writes history through the trigger only: one
    row for every row it matches whose status changes, carrying the new
    status, and none for the others, adding and removing no request.  In
    both cases no other table is touched.  A statement of the service role
    is never refused. *)
Theorem update_logs_one_row_per_status_change :
  forall (who : session) (t : timestamp)
         (where_ : ServiceRequest.t -> bool)
         (set : ServiceRequest.t -> ServiceRequest.t) (s : store),
    let s' := update_service_requests who t where_ set s in
    (violates_with_check who t where_ set s = true -> s' = s) /\
    (violates_with_check who t where_ set s = false ->
     request_status_history s'
     = (request_status_history s
        ++ map (fun OLD => transition_row who t (ServiceRequest.status (set OLD))
                             (fst (update_row who t set OLD)))
               (filter (fun OLD =>
                          can_update s who OLD && where_ OLD
                          && negb (request_status_eqb
                                     (ServiceRequest.status OLD)
                                     (ServiceRequest.status (set OLD))))
                       (service_requests s)))%list /\
     List.length (service_requests s') = List.length (service_requests s)) /\
    (who = service_role -> violates_with_check who t where_ set s = false) /\
    notifications s' = notifications s /\
    profiles s' = profiles s /\
    user_roles s' = user_roles s /\
    provider_profiles s' = provider_profiles s /\
    provider_categories s' = provider_categories s.
Proof.
  intros who t w set s s'. unfold s'.
  destruct (update_service_requests_tables who t w set s) as (T1 & T2 & T3 & T4).
  split; [apply update_service_requests_refused |].
  split; [| split; [| split; [| split; [| split; [| split]]]]]; try assumption.
  - intros Hok. split.
    + rewrite update_service_requests_history by exact Hok. f_equal.
      rewrite <- flat_map_if. apply flat_map_ext. intros x.
      rewrite update_row_logs.
      destruct (can_update s who x && w x); [| reflexivity].
      destruct (request_status_eqb (ServiceRequest.status x)
                                   (ServiceRequest.status (set x))); reflexivity.
    + rewrite update_service_requests_rows by exact Hok. apply length_map.
  - intros ->. apply with_check_service_role.
  - apply update_service_requests_notifications.
Qed.

(** A resident marks their own pending request completed: the new row is
    neither pending nor assigned to them, and the statement is refused. *)
Lemma update_logs_one_row_per_status_change_witness :
  violates_with_check (authenticated "resident-1") 9
    (fun r => ServiceRequest.id r =? "req-1")
    (ProviderJobActions.set_completed 9) Scenario.created = true /\
  update_service_requests (authenticated "resident-1") 9
    (fun r => ServiceRequest.id r =? "req-1")
    (ProviderJobActions.set_completed 9) Scenario.created
  = Scenario.created.
Proof.
  assert (H : violates_with_check (authenticated "resident-1") 9
                (fun r => ServiceRequest.id r =? "req-1")
                (ProviderJobActions.set_completed 9) Scenario.created = true)
    by reflexivity.
  split; [exact H |].
  exact (proj1 (update_logs_one_row_per_status_change (authenticated "resident-1") 9
                  (fun r => ServiceRequest.id r =? "req-1")
                  (ProviderJobActions.set_completed 9) Scenario.created) H).
Defined.

(** X9.  [update_request_timestamps] fills [assigned_at] on a row that is
    [assigned] without one, fills [completed_at] on a row that is
    [completed] without one, replaces no timestamp that is set, changes
    nothing else, and running it twice is running it once. *)
Theorem timestamps_trigger_only_fills_nulls :
  forall (t : timestamp) (NEW : ServiceRequest.t),
    (ServiceRequest.status NEW = assigned ->
     ServiceRequest.assigned_at NEW = None ->
     ServiceRequest.assigned_at (update_request_timestamps t NEW) = Some t) /\
    (ServiceRequest.status NEW = completed ->
     ServiceRequest.completed_at NEW = None ->
     ServiceRequest.completed_at (update_request_timestamps t NEW) = Some t) /\
    (forall t0, ServiceRequest.assigned_at NEW = Some t0 ->
                ServiceRequest.assigned_at (update_request_timestamps t NEW)
                = Some t0) /\
    (forall t0, ServiceRequest.completed_at NEW = Some t0 ->
                ServiceRequest.completed_at (update_request_timestamps t NEW)
                = Some t0) /\
    (ServiceRequest.status NEW <> assigned ->
     ServiceRequest.status NEW <> completed ->
     update_request_timestamps t NEW = NEW) /\
    update_request_timestamps t (update_request_timestamps t NEW)
    = update_request_timestamps t NEW.
Proof.
  intros t NEW. unfold update_request_timestamps.
  destruct NEW as [id res prov cat st lat lng upd asg cmp]. simpl.
  repeat split.
  - intros -> ->. reflexivity.
  - intros -> ->. reflexivity.
  - intros t0 ->. destruct st, cmp; reflexivity.
  - intros t0 ->. destruct st, asg; reflexivity.
  - intros H1 H2. destruct st; try reflexivity; congruence.
  - destruct st, asg, cmp; reflexivity.
Qed.

Lemma timestamps_trigger_only_fills_nulls_witness :
  ServiceRequest.status (AssignProvider.set_assigned "prov-1" 5 Scenario.pending_row)
  = assigned /\
  ServiceRequest.assigned_at
    (update_request_timestamps 9
       (with_assigned_at
          (AssignProvider.set_assigned "prov-1" 5 Scenario.pending_row) None))
  = Some 9 /\
  ServiceRequest.assigned_at
    (update_request_timestamps 9
       (AssignProvider.set_assigned "prov-1" 5 Scenario.pending_row))
  = Some 5.
Proof.
  split; [reflexivity |]. split.
  - exact (proj1 (timestamps_trigger_only_fills_nulls 9
                    (with_assigned_at
                       (AssignProvider.set_assigned "prov-1" 5 Scenario.pending_row)
                       None))
                 eq_refl eq_refl).
  - exact (proj1 (proj2 (proj2 (timestamps_trigger_only_fills_nulls 9
                    (AssignProvider.set_assigned "prov-1" 5 Scenario.pending_row))))
                 5 eq_refl).
Defined.

(** ** The single-request handler as a whole *)

(** The three ways the handler ends. *)
Lemma single_handler_cases (e : environment) (requestId : uuid) (s : store) :
  (AssignProvider.handler e requestId s
   = (s, AssignProvider.hard_failure "Service request not found")
   \/ AssignProvider.handler e requestId s
      = (s, AssignProvider.hard_failure "Failed to assign provider")
   \/ AssignProvider.handler e requestId s
      = (s, AssignProvider.no_match "No providers available for this category"
              requestId))
  \/ AssignProvider.handler e requestId s
     = (insert_notifications s (AssignProvider.adminNotifications s requestId),
        AssignProvider.no_match "No available providers found in service area"
          requestId)
  \/ exists request p rest,
       AssignProvider.fetch_request s requestId = Some request /\
       AssignProvider.providersWithDistance s request = p :: rest /\
       update_error e requestId = false /\
       AssignProvider.handler e requestId s
       = (success_store e requestId s request p, success_response requestId p).
Proof.
  destruct (AssignProvider.fetch_request s requestId) as [request |] eqn:Hreq.
  - destruct (AssignProvider.fetch_providerCategories s request) as [| pc pcs] eqn:Hc.
    + left. right. right. apply (handler_no_candidates e requestId s request Hreq Hc).
    + destruct (AssignProvider.providersWithDistance s request) as [| p rest] eqn:Hr.
      * right. left. apply (handler_none_in_range e requestId s request Hreq); [| exact Hr].
        rewrite Hc. discriminate.
      * destruct (update_error e requestId) eqn:He.
        -- left. right. left. unfold AssignProvider.handler.
           rewrite Hreq, Hc, Hr, He. reflexivity.
        -- right. right. exists request, p, rest. repeat split; try assumption.
           apply (handler_assigns e requestId s request Hreq p rest Hr He).
  - left. left. apply handler_not_found. exact Hreq.
Qed.

Lemma success_store_tables e requestId s request p :
  profiles (success_store e requestId s request p) = profiles s /\
  user_roles (success_store e requestId s request p) = user_roles s /\
  provider_profiles (success_store e requestId s request p) = provider_profiles s /\
  provider_categories (success_store e requestId s request p) = provider_categories s /\
  service_requests (success_store e requestId s request p)
  = map (fun r => if ServiceRequest.id r =? requestId
                  then assigned_to (providerId p) (now e) r else r)
        (service_requests s) /\
  request_status_history (success_store e requestId s request p)
  = request_status_history (AssignProvider.commit e requestId (providerId p) s) /\
  exists ns,
    notifications (success_store e requestId s request p)
    = (notifications s ++ ns)%list /\
    (List.length ns = 1 \/ List.length ns = 2)%nat.
Proof.
  unfold success_store.
  destruct (update_service_requests_tables service_role (now e)
              (fun r => ServiceRequest.id r =? requestId)
              (AssignProvider.set_assigned (providerId p) (now e)) s)
    as (T1 & T2 & T3 & T4).
  assert (Hrows : service_requests (AssignProvider.commit e requestId (providerId p) s)
                  = map (fun r => if ServiceRequest.id r =? requestId
                                  then assigned_to (providerId p) (now e) r else r)
                        (service_requests s)).
  { unfold AssignProvider.commit. rewrite update_service_requests_rows by apply with_check_service_role.
    apply map_ext. intros r. rewrite update_row_set_assigned. reflexivity. }
  assert (Hn : notifications (AssignProvider.commit e requestId (providerId p) s)
               = notifications s).
  { apply update_service_requests_notifications. }
  fold (AssignProvider.commit e requestId (providerId p) s) in T1, T2, T3, T4.
  destruct (single _) as [pp |].
  - destruct (ProviderProfile.user_id pp =? "");
      cbn [insert_notifications profiles user_roles provider_profiles
           provider_categories service_requests request_status_history
           notifications];
      rewrite T1, T2, T3, T4, Hrows, Hn; repeat split.
    + eexists. split; [reflexivity |]. left. reflexivity.
    + eexists. split; [rewrite <- app_assoc; reflexivity |]. right. reflexivity.
  - cbn [insert_notifications profiles user_roles provider_profiles
         provider_categories service_requests request_status_history
         notifications].
    rewrite T1, T2, T3, T4, Hrows, Hn. repeat split.
    eexists. split; [reflexivity |]. left. reflexivity.
Qed.

(** X10.  Whatever its input, the single-request handler leaves the
    profiles, roles, provider profiles and memberships as they are, keeps
    the identifiers of the requests (so a key stays a key) and every
    request with another identifier, and only appends to the notifications
    and to the history. *)
Theorem single_request_handler_frame :
  forall (e : environment) (requestId : uuid) (s : store),
    let s' := fst (AssignProvider.handler e requestId s) in
    profiles s' = profiles s /\
    user_roles s' = user_roles s /\
    provider_profiles s' = provider_profiles s /\
    provider_categories s' = provider_categories s /\
    map ServiceRequest.id (service_requests s')
    = map ServiceRequest.id (service_requests s) /\
    (forall r, In r (service_requests s) -> ServiceRequest.id r <> requestId ->
               In r (service_requests s')) /\
    (exists ns, notifications s' = (notifications s ++ ns)%list) /\
    (exists hs, request_status_history s' = (request_status_history s ++ hs)%list).
Proof.
  intros e requestId s s'. unfold s'.
  destruct (single_handler_cases e requestId s)
    as [[-> | [-> | ->]] | [-> | (request & p & rest & Hreq & Hr & He & ->)]];
    cbn [fst].
  1-3: repeat split; auto; exists []; symmetry; apply app_nil_r.
  - cbn [insert_notifications profiles user_roles provider_profiles
         provider_categories service_requests request_status_history
         notifications].
    repeat split; auto.
    + eexists. reflexivity.
    + exists []. symmetry. apply app_nil_r.
  - destruct (success_store_tables e requestId s request p)
      as (T1 & T2 & T3 & T4 & Hrows & Hhist & ns & Hns & _).
    repeat split; auto.
    + rewrite Hrows, map_map. apply map_ext. intros r.
      destruct (ServiceRequest.id r =? requestId); reflexivity.
    + intros r Hin Hid. rewrite Hrows. apply in_map_iff. exists r.
      split; [| exact Hin].
      apply String.eqb_neq in Hid. rewrite Hid. reflexivity.
    + exists ns. exact Hns.
    + rewrite Hhist. unfold AssignProvider.commit.
      rewrite update_service_requests_history by apply with_check_service_role. eexists. reflexivity.
Qed.

(** X11.  A response with status 400 (request not found, or the store
    rejecting the update) comes with the store untouched, and so does the
    answer that the category has no provider. *)
Theorem single_request_failures_write_nothing :
  forall (e : environment) (requestId : uuid) (s : store),
    (http_status (snd (AssignProvider.handler e requestId s)) = 400 \/
     message (snd (AssignProvider.handler e requestId s))
     = Some "No providers available for this category") ->
    fst (AssignProvider.handler e requestId s) = s.
Proof.
  intros e requestId s H.
  destruct (single_handler_cases e requestId s)
    as [[E | [E | E]] | [E | (request & p & rest & Hreq & Hr & He & E)]];
    rewrite E in *; cbn [fst snd] in *; try reflexivity.
  - destruct H as [H | H]; discriminate.
  - destruct H as [H | H]; discriminate.
Qed.

Lemma single_request_failures_write_nothing_witness :
  http_status (snd (AssignProvider.handler (Scenario.req_1_fails 5) "req-1"
                      Scenario.created)) = 400 /\
  error (snd (AssignProvider.handler (Scenario.req_1_fails 5) "req-1"
                Scenario.created)) = Some "Failed to assign provider" /\
  fst (AssignProvider.handler (Scenario.req_1_fails 5) "req-1" Scenario.created)
  = Scenario.created.
Proof.
  assert (E : AssignProvider.handler (Scenario.req_1_fails 5) "req-1" Scenario.created
              = (Scenario.created,
                 AssignProvider.hard_failure "Failed to assign provider")).
  { unfold AssignProvider.handler, AssignProvider.fetch_request,
      AssignProvider.providersWithDistance, AssignProvider.candidates,
      AssignProvider.with_distance, rank, within_radius, by_distance.
    run. reflexivity. }
  assert (H : http_status (snd (AssignProvider.handler (Scenario.req_1_fails 5)
                                  "req-1" Scenario.created)) = 400).
  { rewrite E. reflexivity. }
  split; [exact H |]. split; [rewrite E; reflexivity |].
  exact (single_request_failures_write_nothing (Scenario.req_1_fails 5) "req-1"
           Scenario.created (or_introl H)).
Defined.

Lemma filter_unique_provider (l : list ProviderProfile.t) (pp : ProviderProfile.t) :
  NoDup (map ProviderProfile.id l) -> In pp l ->
  filter (fun q => ProviderProfile.id q =? ProviderProfile.id pp) l = [pp].
Proof.
  induction l as [| a l IH]; simpl; intros Hnd Hin; [contradiction |].
  inversion Hnd as [| ? ? Hnotin Hnd']; subst.
  destruct Hin as [-> | Hin].
  - rewrite String.eqb_refl. f_equal. apply filter_none. intros x Hx.
    apply String.eqb_neq. intros E. apply Hnotin. rewrite <- E.
    apply in_map. exact Hx.
  - destruct (String.eqb_spec (ProviderProfile.id a) (ProviderProfile.id pp)) as [E | _].
    + exfalso. apply Hnotin. rewrite E. apply in_map. exact Hin.
    + apply IH; assumption.
Qed.

(** X12.  With [id] a key of [provider_profiles] and no empty user
    identifier, a successful assignment appends exactly two notifications:
    one to the resident of the request, naming the provider, and one to
    the user who owns the assigned provider profile. *)
Theorem successful_assignment_notifies_both_parties :
  forall (e : environment) (requestId : uuid) (s : store)
         (request : ServiceRequest.t) (p : candidate) (rest : list candidate),
    provider_ids_unique s ->
    (forall pp, In pp (provider_profiles s) -> ProviderProfile.user_id pp <> "") ->
    AssignProvider.fetch_request s requestId = Some request ->
    AssignProvider.providersWithDistance s request = p :: rest ->
    update_error e requestId = false ->
    exists pp : ProviderProfile.t,
      In pp (provider_profiles s) /\
      ProviderProfile.id pp = providerId p /\
      notifications (fst (AssignProvider.handler e requestId s))
      = (notifications s
         ++ [Notification.mk (ServiceRequest.resident_id request)
               "Service Request Assigned"
               ("Your request has been assigned to " ++ providerName p)
               "success" requestId;
             Notification.mk (ProviderProfile.user_id pp)
               "New Job Assignment"
               "You have been assigned a new service request"
               "info" requestId])%list.
Proof.
  intros e requestId s request p rest Hu Hne Hreq Hr He.
  assert (Hp : In p (AssignProvider.providersWithDistance s request)).
  { rewrite Hr. left. reflexivity. }
  destruct (ranked_candidates_are_eligible_providers_support s request p Hp)
    as (pp & Hin & Hid).
  exists pp. split; [exact Hin |]. split; [exact Hid |].
  rewrite (handler_assigns e requestId s request Hreq p rest Hr He). cbn [fst].
  unfold success_store. rewrite <- Hid.
  rewrite (filter_unique_provider (provider_profiles s) pp Hu Hin).
  cbn [single].
  pose proof (Hne pp Hin) as Hnz. apply String.eqb_neq in Hnz. rewrite Hnz.
  cbn [insert_notifications notifications].
  unfold AssignProvider.commit. rewrite update_service_requests_notifications.
  rewrite <- app_assoc. reflexivity.
Qed.

Lemma successful_assignment_notifies_both_parties_witness :
  provider_ids_unique Scenario.created /\
  exists pp : ProviderProfile.t,
    ProviderProfile.id pp = "prov-1" /\
    notifications (fst (AssignProvider.handler (Scenario.no_faults 5) "req-1"
                          Scenario.created))
    = [Notification.mk "resident-1" "Service Request Assigned"
         "Your request has been assigned to Ravi" "success" "req-1";
       Notification.mk (ProviderProfile.user_id pp) "New Job Assignment"
         "You have been assigned a new service request" "info" "req-1"].
Proof.
  assert (Hu : provider_ids_unique Scenario.created).
  { unfold provider_ids_unique. simpl.
    repeat (constructor; [simpl; intuition discriminate |]). constructor. }
  assert (Hne : forall pp, In pp (provider_profiles Scenario.created) ->
                           ProviderProfile.user_id pp <> "").
  { simpl. intros pp [<- | [<- | []]]; discriminate. }
  split; [exact Hu |].
  destruct (successful_assignment_notifies_both_parties (Scenario.no_faults 5)
              "req-1" Scenario.created Scenario.pending_row
              (mkCandidate "prov-1" "Ravi" (Num 0) (Num 10))
              [mkCandidate "prov-2" "Meena" (Num 0) (Num 10)]
              Hu Hne eq_refl scenario_ranking eq_refl)
    as (pp & _ & Hid & Hn).
  exists pp. split; [exact Hid | exact Hn].
Defined.

(** ** The batch handler as a whole *)

(** Either the handler returns before its loop, with the store as it was
    and no [success] key, or it runs the loop for the provider it found. *)
Lemma batch_handler_cases (e : environment) (userId : uuid) (s : store) :
  (exists resp,
      AssignPendingRequests.handler e userId s = (s, resp) /\
      success resp = None /\
      (assignedCount resp = None \/ assignedCount resp = Some 0%nat))
  \/
  (exists providerProfile providerProfileData,
      userId <> "" /\
      single (filter (fun pp => ProviderProfile.user_id pp =? userId)
                     (provider_profiles s)) = Some providerProfile /\
      ProviderProfile.is_available providerProfile = Some true /\
      single (filter (fun p => Profile.id p =? userId) (profiles s))
      = Some providerProfileData /\
      AssignPendingRequests.fetch_pendingRequests s
        (map ProviderCategory.category_id
             (filter (fun pc => ProviderCategory.provider_profile_id pc
                                =? ProviderProfile.id providerProfile)
                     (provider_categories s))) <> []).
Proof.
  unfold AssignPendingRequests.handler.
  destruct (String.eqb_spec userId "") as [E | N].
  { left. eexists. split; [reflexivity |]. split; [reflexivity | left; reflexivity]. }
  destruct (single (filter (fun pp => ProviderProfile.user_id pp =? userId)
                           (provider_profiles s))) as [pp |] eqn:Hpp.
  2: { left. eexists. split; [reflexivity |]. split; [reflexivity | left; reflexivity]. }
  destruct (ProviderProfile.is_available pp) as [[|] |] eqn:Hav; cbn [AssignProvider.is_true negb].
  2-3: left; eexists; split; [reflexivity |]; split; [reflexivity | left; reflexivity].
  destruct (single (filter (fun p => Profile.id p =? userId) (profiles s)))
    as [pd |] eqn:Hpd.
  2: { left. eexists. split; [reflexivity |]. split; [reflexivity | left; reflexivity]. }
  destruct (filter (fun pc => ProviderCategory.provider_profile_id pc
                              =? ProviderProfile.id pp)
                   (provider_categories s)) as [| pc pcs] eqn:Hc.
  { left. eexists. split; [reflexivity |]. split; [reflexivity | left; reflexivity]. }
  destruct (AssignPendingRequests.fetch_pendingRequests s
              (map ProviderCategory.category_id (pc :: pcs))) as [| r rs] eqn:Hp.
  { left. eexists. split; [reflexivity |]. split; [reflexivity | right; reflexivity]. }
  right. exists pp, pd.
  split; [exact N |]. split; [first [reflexivity | exact Hpp] |].
  split; [first [reflexivity | exact Hav] |].
  split; [first [reflexivity | exact Hpd] |]. rewrite ?Hc, ?Hp. discriminate.
Qed.

Lemma loop_ids e userId pp lat lng radius l s n :
  map ServiceRequest.id
      (service_requests
         (fst (fold_left (AssignPendingRequests.step e userId pp lat lng radius)
                         l (s, n))))
  = map ServiceRequest.id (service_requests s) /\
  exists hs,
    request_status_history
      (fst (fold_left (AssignPendingRequests.step e userId pp lat lng radius)
                      l (s, n)))
    = (request_status_history s ++ hs)%list.
Proof.
  revert s n. induction l as [| r l IH]; intros s n.
  - split; [reflexivity |]. exists []. symmetry. apply app_nil_r.
  - cbn [fold_left].
    destruct (AssignPendingRequests.in_range lat lng radius r
              && negb (update_error e (ServiceRequest.id r))) eqn:E.
    + rewrite (step_ok e userId pp lat lng radius s n r E).
      destruct (IH (insert_notifications
                      (insert_notifications
                         (AssignPendingRequests.assign e pp r s)
                         [AssignPendingRequests.resident_notification r])
                      [AssignPendingRequests.provider_notification userId r])
                   (S n)) as [Hids [hs Hhs]].
      cbn [insert_notifications service_requests request_status_history] in Hids, Hhs.
      split.
      * rewrite Hids, assign_rows, map_map. apply map_ext. intros x.
        destruct ((ServiceRequest.id x =? ServiceRequest.id r)
                  && request_status_eqb (ServiceRequest.status x) pending);
          reflexivity.
      * rewrite Hhs, assign_history, <- app_assoc. eexists. reflexivity.
    + rewrite (step_skip e userId pp lat lng radius s n r E). apply IH.
Qed.

(** X13.  Whatever its input, the batch handler leaves the profiles,
    roles, provider profiles and memberships as they are, keeps the
    identifiers of the requests and every request that is not pending,
    only appends to the history, and appends two notifications for every
    request it counts in [assignedCount]. *)
Theorem batch_handler_frame :
  forall (e : environment) (userId : uuid) (s : store),
    let s' := fst (AssignPendingRequests.handler e userId s) in
    let resp := snd (AssignPendingRequests.handler e userId s) in
    profiles s' = profiles s /\
    user_roles s' = user_roles s /\
    provider_profiles s' = provider_profiles s /\
    provider_categories s' = provider_categories s /\
    map ServiceRequest.id (service_requests s')
    = map ServiceRequest.id (service_requests s) /\
    (forall r, In r (service_requests s) -> ServiceRequest.status r <> pending ->
               In r (service_requests s')) /\
    (exists hs, request_status_history s' = (request_status_history s ++ hs)%list) /\
    (exists ns,
        notifications s' = (notifications s ++ ns)%list /\
        forall n, assignedCount resp = Some n -> List.length ns = (2 * n)%nat).
Proof.
  intros e userId s s' resp. unfold s', resp.
  destruct (batch_handler_cases e userId s)
    as [(resp0 & E & _ & Hc) | (pp & pd & Hu & Hpp & Hav & Hpd & Hpend)].
  - rewrite E. cbn [fst snd]. repeat split; auto.
    + exists []. symmetry. apply app_nil_r.
    + exists []. split; [symmetry; apply app_nil_r |].
      intros n Hn. destruct Hc as [Hc | Hc]; rewrite Hc in Hn;
        [discriminate | injection Hn as <-; reflexivity].
  - rewrite (handler_loop e userId s pp pd Hu Hpp Hav Hpd Hpend).
    unfold AssignPendingRequests.assign_all.
    set (lat := parseFloat (Profile.location_lat pd)).
    set (lng := parseFloat (Profile.location_lng pd)).
    set (radius := AssignPendingRequests.serviceRadius pp).
    set (pend := AssignPendingRequests.fetch_pendingRequests s _).
    destruct (loop_count_notifications e userId pp lat lng radius pend s 0)
      as (Hcount & Hnotif & T1 & T2 & T3 & T4).
    destruct (loop_ids e userId pp lat lng radius pend s 0) as [Hids Hhist].
    pose proof (loop_keeps e userId pp lat lng radius pend s 0) as Hkeep.
    destruct (fold_left _ pend (s, 0%nat)) as [s1 n1].
    cbn [fst snd assignedCount] in *.
    repeat split; auto.
    exists (flat_map (batch_notifications userId)
                     (assigned_by_batch e lat lng radius pend)).
    split; [exact Hnotif |].
    intros n Hn. injection Hn as <-. rewrite Hcount.
    clear. induction (assigned_by_batch e lat lng radius pend) as [| r l IH];
      [reflexivity |].
    cbn [flat_map batch_notifications app List.length]. rewrite IH. lia.
Qed.

(** X14.  Unless it answers [success: true], the batch handler returns
    the store as it found it: no user identifier, no provider profile, an
    unavailable provider, no profile row, no category, no pending request. *)
Theorem batch_failures_write_nothing :
  forall (e : environment) (userId : uuid) (s : store),
    success (snd (AssignPendingRequests.handler e userId s)) <> Some true ->
    fst (AssignPendingRequests.handler e userId s) = s.
Proof.
  intros e userId s H.
  destruct (batch_handler_cases e userId s)
    as [(resp0 & E & _ & _) | (pp & pd & Hu & Hpp & Hav & Hpd & Hpend)].
  - rewrite E. reflexivity.
  - exfalso. apply H.
    rewrite (handler_loop e userId s pp pd Hu Hpp Hav Hpd Hpend).
    destruct (AssignPendingRequests.assign_all _ _ _ _ _ _ _ _). reflexivity.
Qed.

Lemma batch_failures_write_nothing_witness :
  AssignPendingRequests.handler (Scenario.no_faults 5) "nobody" Scenario.two_pending
  = (Scenario.two_pending,
     AssignPendingRequests.json_error 404 "Provider profile not found") /\
  fst (AssignPendingRequests.handler (Scenario.no_faults 5) "nobody"
         Scenario.two_pending) = Scenario.two_pending.
Proof.
  assert (E : AssignPendingRequests.handler (Scenario.no_faults 5) "nobody"
                Scenario.two_pending
              = (Scenario.two_pending,
                 AssignPendingRequests.json_error 404 "Provider profile not found"))
    by reflexivity.
  split; [exact E |].
  apply (batch_failures_write_nothing (Scenario.no_faults 5) "nobody"
           Scenario.two_pending).
  rewrite E. discriminate.
Defined.

Lemma loop_out_of_range e userId pp lat lng radius l s n :
  (forall r, In r l -> AssignPendingRequests.in_range lat lng radius r = false) ->
  fold_left (AssignPendingRequests.step e userId pp lat lng radius) l (s, n) = (s, n).
Proof.
  induction l as [| r l IH]; intros H; [reflexivity |].
  cbn [fold_left]. rewrite (step_skip e userId pp lat lng radius s n r).
  - apply IH. intros x Hx. apply H. right. exact Hx.
  - rewrite (H r (or_introl eq_refl)). reflexivity.
Qed.

(** X15.  A provider whose profile row lacks a coordinate is assigned
    nothing: every distance is [NaN], the store is returned as it was, and
    when pending requests of their categories exist the answer is still
    [success: true], with [assignedCount] 0. *)
Theorem provider_without_coordinates_is_assigned_nothing :
  forall (e : environment) (userId : uuid) (s : store)
         (providerProfile : ProviderProfile.t) (providerProfileData : Profile.t),
    userId <> "" ->
    single (filter (fun pp => ProviderProfile.user_id pp =? userId)
                   (provider_profiles s)) = Some providerProfile ->
    ProviderProfile.is_available providerProfile = Some true ->
    single (filter (fun p => Profile.id p =? userId) (profiles s))
    = Some providerProfileData ->
    Profile.location_lat providerProfileData = None \/
    Profile.location_lng providerProfileData = None ->
    fst (AssignPendingRequests.handler e userId s) = s /\
    (AssignPendingRequests.fetch_pendingRequests s
       (map ProviderCategory.category_id
            (filter (fun pc => ProviderCategory.provider_profile_id pc
                               =? ProviderProfile.id providerProfile)
                    (provider_categories s))) <> [] ->
     snd (AssignPendingRequests.handler e userId s)
     = mkResponse 200 (Some true) (Some "Assigned 0 pending request(s)")
         None None None (Some 0%nat)).
Proof.
  intros e userId s pp pd Hu Hpp Hav Hpd Hloc.
  assert (Hloop : forall l,
             fold_left (AssignPendingRequests.step e userId pp
                          (parseFloat (Profile.location_lat pd))
                          (parseFloat (Profile.location_lng pd))
                          (AssignPendingRequests.serviceRadius pp)) l (s, 0%nat)
             = (s, 0%nat)).
  { intros l. apply loop_out_of_range. intros r _.
    unfold AssignPendingRequests.in_range.
    rewrite calculateDistance_NaN; [reflexivity |].
    intros (H1 & H2 & _). destruct Hloc as [E | E]; rewrite E in *; assumption. }
  split.
  - destruct (batch_handler_cases e userId s)
      as [(resp0 & E & _) | (pp' & pd' & _ & Hpp' & _ & Hpd' & Hpend)].
    + rewrite E. reflexivity.
    + rewrite Hpp in Hpp'. injection Hpp' as <-.
      rewrite Hpd in Hpd'. injection Hpd' as <-.
      rewrite (handler_loop e userId s pp pd Hu Hpp Hav Hpd Hpend).
      unfold AssignPendingRequests.assign_all. rewrite Hloop. reflexivity.
  - intros Hpend.
    rewrite (handler_loop e userId s pp pd Hu Hpp Hav Hpd Hpend).
    unfold AssignPendingRequests.assign_all. rewrite Hloop. reflexivity.
Qed.

Lemma provider_without_coordinates_is_assigned_nothing_witness :
  AssignPendingRequests.handler (Scenario.no_faults 5) "user-p1"
    Cases.unlocated_store
  = (Cases.unlocated_store,
     mkResponse 200 (Some true) (Some "Assigned 0 pending request(s)")
       None None None (Some 0%nat)).
Proof.
  assert (H1 : "user-p1" <> "") by discriminate.
  destruct (provider_without_coordinates_is_assigned_nothing
              (Scenario.no_faults 5) "user-p1" Cases.unlocated_store
              (ProviderProfile.mk "prov-1" "user-p1" (Some 10%R) (Some true))
              (Profile.mk "user-p1" "Ravi" None None)
              H1 eq_refl eq_refl eq_refl (or_introl eq_refl)) as [Hs Hr].
  assert (Hp : AssignPendingRequests.fetch_pendingRequests Cases.unlocated_store
                 (map ProviderCategory.category_id
                    (filter (fun pc => ProviderCategory.provider_profile_id pc
                                       =? "prov-1")
                            (provider_categories Cases.unlocated_store))) <> [])
    by (simpl; discriminate).
  specialize (Hr Hp).
  destruct (AssignPendingRequests.handler (Scenario.no_faults 5) "user-p1"
              Cases.unlocated_store) as [s' resp].
  cbn [fst snd] in Hs, Hr. rewrite Hs, Hr. reflexivity.
Defined.

(** X16.  The loop does not look at how many rows its update affected.
    For a fetched request that is no longer pending in the store, the
    guarded update changes no request and writes no history, and the
    request is counted and both notifications are inserted all the same. *)
Theorem stale_request_is_counted_and_notified :
  forall (e : environment) (userId : uuid) (providerProfile : ProviderProfile.t)
         (providerLat providerLng radius : number) (s : store) (n : nat)
         (request : ServiceRequest.t),
    (forall x, In x (service_requests s) ->
               ServiceRequest.id x = ServiceRequest.id request ->
               ServiceRequest.status x <> pending) ->
    AssignPendingRequests.in_range providerLat providerLng radius request = true ->
    update_error e (ServiceRequest.id request) = false ->
    let (s', n') :=
      AssignPendingRequests.step e userId providerProfile
        providerLat providerLng radius (s, n) request in
    n' = S n /\
    service_requests s' = service_requests s /\
    request_status_history s' = request_status_history s /\
    notifications s'
    = (notifications s
       ++ [AssignPendingRequests.resident_notification request;
           AssignPendingRequests.provider_notification userId request])%list.
Proof.
  intros e userId pp lat lng radius s n r Hstale Hrange Herr.
  unfold AssignPendingRequests.step. rewrite Hrange, Herr.
  destruct (batch_assign_guarded e pp r s Hstale) as [-> _].
  cbn [insert_notifications service_requests request_status_history notifications].
  rewrite <- app_assoc. repeat split.
Qed.

Lemma stale_request_is_counted_and_notified_witness :
  (forall x, In x (service_requests Scenario.assigned_store) ->
             ServiceRequest.id x = ServiceRequest.id Scenario.pending_row ->
             ServiceRequest.status x <> pending) /\
  AssignPendingRequests.in_range (Num 12.9716) (Num 77.5946) (Num 10)
    Scenario.pending_row = true /\
  let (s', n') :=
    AssignPendingRequests.step (Scenario.no_faults 9) "user-p2"
      (ProviderProfile.mk "prov-2" "user-p2" (Some 10%R) (Some true))
      (Num 12.9716) (Num 77.5946) (Num 10)
      (Scenario.assigned_store, 0%nat) Scenario.pending_row in
  n' = 1%nat /\
  service_requests s' = [Scenario.assigned_row] /\
  List.length (notifications s') = 4%nat.
Proof.
  assert (H1 : forall x, In x (service_requests Scenario.assigned_store) ->
                 ServiceRequest.id x = ServiceRequest.id Scenario.pending_row ->
                 ServiceRequest.status x <> pending).
  { intros x [<- | []] _. discriminate. }
  assert (H2 : AssignPendingRequests.in_range (Num 12.9716) (Num 77.5946) (Num 10)
                 Scenario.pending_row = true).
  { unfold AssignPendingRequests.in_range. simpl. run_distance. reflexivity. }
  split; [exact H1 |]. split; [exact H2 |].
  pose proof (stale_request_is_counted_and_notified (Scenario.no_faults 9) "user-p2"
                (ProviderProfile.mk "prov-2" "user-p2" (Some 10%R) (Some true))
                (Num 12.9716) (Num 77.5946) (Num 10) Scenario.assigned_store 0%nat
                Scenario.pending_row H1 H2 eq_refl) as H.
  destruct (AssignPendingRequests.step _ _ _ _ _ _ _ _) as [s' n'].
  destruct H as (Hn & Hrows & _ & Hnot).
  split; [exact Hn |]. split; [exact Hrows |]. rewrite Hnot. reflexivity.
Defined.

(* ------------------------------------------------------------------ *)
(** ** The client-side statements under row-level security *)
(* ------------------------------------------------------------------ *)

Lemma existsb_none {A : Type} (f : A -> bool) (l : list A) :
  (forall x, In x l -> f x = false) -> existsb f l = false.
Proof.
  induction l as [| x l IH]; intros H; [reflexivity |].
  cbn [existsb]. rewrite (H x (or_introl eq_refl)). apply IH.
  intros y Hy. apply H. right. exact Hy.
Qed.

(** A statement that selects no row is not refused. *)
Lemma with_check_nothing_selected who t w set s :
  (forall r, In r (service_requests s) -> can_update s who r && w r = false) ->
  violates_with_check who t w set s = false.
Proof.
  intros H. unfold violates_with_check. apply existsb_none.
  intros r Hr. rewrite (H r Hr). reflexivity.
Qed.

Lemma update_nothing who t w set s :
  (forall r, In r (service_requests s) -> can_update s who r && w r = false) ->
  service_requests (update_service_requests who t w set s) = service_requests s /\
  request_status_history (update_service_requests who t w set s)
  = request_status_history s.
Proof.
  intros H. pose proof (with_check_nothing_selected who t w set s H) as Hok. split.
  - rewrite update_service_requests_rows by exact Hok.
    rewrite <- (map_id (service_requests s)) at 2.
    apply map_ext_in. intros r Hr. rewrite (H r Hr). reflexivity.
  - rewrite update_service_requests_history by exact Hok.
    rewrite flat_map_none; [apply app_nil_r |].
    intros r Hr. rewrite (H r Hr). reflexivity.
Qed.

(** The row [handleMarkCompleted] proposes keeps its provider, so whoever
    owns the assigned provider profile may still write it. *)
Lemma completed_row_passes (u : uuid) (t : timestamp) (s : store)
  (r : ServiceRequest.t) :
  assigned_to_user s u r = true ->
  can_update s (authenticated u)
    (fst (update_row (authenticated u) t (ProviderJobActions.set_completed t) r))
  = true.
Proof.
  intros H. cbn [can_update].
  replace (assigned_to_user s u
             (fst (update_row (authenticated u) t
                     (ProviderJobActions.set_completed t) r)))
    with (assigned_to_user s u r).
  - rewrite H, orb_true_r. reflexivity.
  - destruct r as [id res prov cat st lat lng upd asg cmp]. reflexivity.
Qed.

Lemma with_check_assigned_provider (u : uuid) (t : timestamp) (s : store)
  (request : ServiceRequest.t) :
  request_ids_unique s -> In request (service_requests s) ->
  assigned_to_user s u request = true ->
  violates_with_check (authenticated u) t
    (fun r => ServiceRequest.id r =? ServiceRequest.id request)
    (ProviderJobActions.set_completed t) s = false.
Proof.
  intros Hnd Hin Has. unfold violates_with_check. apply existsb_none.
  intros r Hr.
  destruct (String.eqb_spec (ServiceRequest.id r) (ServiceRequest.id request))
    as [E | _]; [| rewrite andb_false_r; reflexivity].
  assert (r = request) by (apply (unique_row (service_requests s)); auto).
  subst r. rewrite (completed_row_passes u t s request Has).
  cbn [negb]. apply andb_false_r.
Qed.

(** X17.  [handleMarkCompleted] by a caller whom no [FOR UPDATE] policy
    lets write the request changes no request and writes no history; when
    the caller can read the request and the statement reports no error, the
    success toast is shown all the same, the update having affected no row. *)
Theorem completion_without_the_right_to_update_is_silent :
  forall (who : session) (e : environment) (requestId : uuid) (s : store),
    (forall r, In r (service_requests s) -> ServiceRequest.id r = requestId ->
               can_update s who r = false) ->
    let out := ProviderJobActions.handleMarkCompleted who e requestId s in
    service_requests (fst out) = service_requests s /\
    request_status_history (fst out) = request_status_history s /\
    (forall request,
        single (filter (fun r => can_select s who r
                                 && (ServiceRequest.id r =? requestId))
                       (service_requests s)) = Some request ->
        update_error e requestId = false ->
        snd out = true).
Proof.
  intros who e requestId s H.
  assert (Hw : forall r, In r (service_requests s) ->
                 can_update s who r && (ServiceRequest.id r =? requestId) = false).
  { intros r Hr. destruct (String.eqb_spec (ServiceRequest.id r) requestId) as [E | _].
    - rewrite (H r Hr E). reflexivity.
    - apply andb_false_r. }
  destruct (update_nothing who (now e)
              (fun r => ServiceRequest.id r =? requestId)
              (ProviderJobActions.set_completed (now e)) s Hw) as [Hrows Hhist].
  cbv zeta. unfold ProviderJobActions.handleMarkCompleted.
  rewrite (with_check_nothing_selected who (now e)
             (fun r => ServiceRequest.id r =? requestId)
             (ProviderJobActions.set_completed (now e)) s Hw), orb_false_r.
  destruct (single _) as [request |]; [| repeat split; intros; discriminate].
  destruct (update_error e requestId); [repeat split; intros; discriminate |].
  destruct (ServiceRequest.resident_id request =? ""); cbn [fst snd];
    cbn [insert_notifications service_requests request_status_history];
    repeat split; assumption.
Qed.

Lemma completion_without_the_right_to_update_is_silent_witness :
  let out := ProviderJobActions.handleMarkCompleted (authenticated "resident-1")
               (Scenario.no_faults 9) "req-1" Scenario.assigned_store in
  service_requests (fst out) = [Scenario.assigned_row] /\
  request_status_history (fst out)
  = [Scenario.pending_history; Scenario.assigned_history] /\
  snd out = true.
Proof.
  assert (H : forall r, In r (service_requests Scenario.assigned_store) ->
                ServiceRequest.id r = "req-1" ->
                can_update Scenario.assigned_store (authenticated "resident-1") r
                = false).
  { intros r [<- | []] _. reflexivity. }
  destruct (completion_without_the_right_to_update_is_silent
              (authenticated "resident-1") (Scenario.no_faults 9) "req-1"
              Scenario.assigned_store H) as (Hrows & Hhist & Htoast).
  split; [exact Hrows |]. split; [exact Hhist |].
  exact (Htoast Scenario.assigned_row eq_refl eq_refl).
Defined.

Lemma flat_map_agree {A B : Type} (f g : A -> list B) (l : list A) :
  (forall x, In x l -> f x = g x) -> flat_map f l = flat_map g l.
Proof.
  induction l as [| x l IH]; intros H; [reflexivity |].
  cbn [flat_map]. rewrite (H x (or_introl eq_refl)). f_equal.
  apply IH. intros y Hy. apply H. right. exact Hy.
Qed.

Lemma filter_unique_request (l : list ServiceRequest.t) (c : ServiceRequest.t -> bool)
  (request : ServiceRequest.t) :
  NoDup (map ServiceRequest.id l) -> In request l -> c request = true ->
  filter (fun r => c r && (ServiceRequest.id r =? ServiceRequest.id request)) l
  = [request].
Proof.
  induction l as [| x l IH]; intros Hnd Hin Hc; [destruct Hin |].
  cbn [map] in Hnd. inversion Hnd as [| ? ? Hni Hnd']; subst.
  cbn [filter]. destruct Hin as [-> | Hin].
  - rewrite Hc, String.eqb_refl. cbn [andb]. f_equal.
    apply filter_none. intros y Hy.
    destruct (String.eqb_spec (ServiceRequest.id y) (ServiceRequest.id request))
      as [E | _]; [| apply andb_false_r].
    exfalso. apply Hni. rewrite <- E. apply in_map. exact Hy.
  - destruct (String.eqb_spec (ServiceRequest.id x) (ServiceRequest.id request))
      as [E | _].
    + exfalso. apply Hni. rewrite E. apply in_map. exact Hin.
    + rewrite andb_false_r. apply IH; assumption.
Qed.

(** X18.  With [id] a key of [service_requests]: [handleMarkCompleted] by
    the user who owns the provider profile the request is assigned to sets
    the row to [completed] with [completed_at] and [updated_at] the current
    time, keeps its provider and [assigned_at], leaves every other row as it
    was, and the trigger logs one [completed] row whose [changed_by] is that
    user (none when the row was completed already). *)
Theorem assigned_provider_completes_the_request :
  forall (u : uuid) (e : environment) (s : store) (request : ServiceRequest.t),
    request_ids_unique s ->
    In request (service_requests s) ->
    assigned_to_user s u request = true ->
    update_error e (ServiceRequest.id request) = false ->
    let out := ProviderJobActions.handleMarkCompleted (authenticated u) e
                 (ServiceRequest.id request) s in
    snd out = true /\
    service_requests (fst out)
    = map (fun r =>
             if ServiceRequest.id r =? ServiceRequest.id request
             then ServiceRequest.mk (ServiceRequest.id r) (ServiceRequest.resident_id r)
                    (ServiceRequest.provider_id r) (ServiceRequest.category_id r)
                    completed (ServiceRequest.location_lat r)
                    (ServiceRequest.location_lng r) (now e)
                    (ServiceRequest.assigned_at r) (Some (now e))
             else r)
          (service_requests s) /\
    request_status_history (fst out)
    = (request_status_history s
       ++ if request_status_eqb (ServiceRequest.status request) completed
          then []
          else [RequestStatusHistory.mk (ServiceRequest.id request) completed
                  (Some u) None (now e)])%list.
Proof.
  intros u e s request Hnd Hin Has Herr.
  assert (Hsel : can_select s (authenticated u) request = true).
  { cbn [can_select]. rewrite Has. rewrite orb_true_r. reflexivity. }
  assert (Hupd : can_update s (authenticated u) request = true).
  { cbn [can_update]. rewrite Has. rewrite orb_true_r. reflexivity. }
  cbv zeta. unfold ProviderJobActions.handleMarkCompleted.
  rewrite (filter_unique_request (service_requests s)
             (can_select s (authenticated u)) request Hnd Hin Hsel).
  cbn [single]. rewrite Herr.
  pose proof (with_check_assigned_provider u (now e) s request Hnd Hin Has) as Hok.
  rewrite Hok. cbn [orb].
  assert (Hrows : forall s2,
             service_requests s2
             = service_requests
                 (update_service_requests (authenticated u) (now e)
                    (fun r => ServiceRequest.id r =? ServiceRequest.id request)
                    (ProviderJobActions.set_completed (now e)) s) ->
             service_requests s2
             = map (fun r =>
                      if ServiceRequest.id r =? ServiceRequest.id request
                      then ServiceRequest.mk (ServiceRequest.id r)
                             (ServiceRequest.resident_id r)
                             (ServiceRequest.provider_id r)
                             (ServiceRequest.category_id r)
                             completed (ServiceRequest.location_lat r)
                             (ServiceRequest.location_lng r) (now e)
                             (ServiceRequest.assigned_at r) (Some (now e))
                      else r)
                   (service_requests s)).
  { intros s2 ->. rewrite update_service_requests_rows by exact Hok.
    apply map_ext_in. intros r Hr.
    destruct (String.eqb_spec (ServiceRequest.id r) (ServiceRequest.id request))
      as [E | _]; [| rewrite andb_false_r; reflexivity].
    assert (r = request) by (apply (unique_row (service_requests s)); auto).
    subst r. rewrite Hupd. reflexivity. }
  assert (Hhist : forall s2,
             request_status_history s2
             = request_status_history
                 (update_service_requests (authenticated u) (now e)
                    (fun r => ServiceRequest.id r =? ServiceRequest.id request)
                    (ProviderJobActions.set_completed (now e)) s) ->
             request_status_history s2
             = (request_status_history s
                ++ if request_status_eqb (ServiceRequest.status request) completed
                   then []
                   else [RequestStatusHistory.mk (ServiceRequest.id request) completed
                           (Some u) None (now e)])%list).
  { intros s2 ->. rewrite update_service_requests_history by exact Hok. f_equal.
    rewrite (flat_map_agree _
               (fun x => if ServiceRequest.id x =? ServiceRequest.id request
                         then snd (update_row (authenticated u) (now e)
                                     (ProviderJobActions.set_completed (now e)) x)
                         else []) (service_requests s)).
    - rewrite (flat_map_unique (service_requests s) request _ Hnd Hin).
      rewrite update_row_logs. cbn [ProviderJobActions.set_completed
        with_completed_at with_status ServiceRequest.status].
      destruct (request_status_eqb (ServiceRequest.status request) completed);
        reflexivity.
    - intros r Hr.
      destruct (String.eqb_spec (ServiceRequest.id r) (ServiceRequest.id request))
        as [E | _]; [| rewrite andb_false_r; reflexivity].
      assert (r = request) by (apply (unique_row (service_requests s)); auto).
      subst r. rewrite Hupd. reflexivity. }
  destruct (ServiceRequest.resident_id request =? ""); cbn [fst snd].
  - split; [reflexivity |]. split; [apply Hrows | apply Hhist]; reflexivity.
  - split; [reflexivity |]. split; [apply Hrows | apply Hhist]; reflexivity.
Qed.

Lemma assigned_provider_completes_the_request_witness :
  let out := ProviderJobActions.handleMarkCompleted (authenticated "user-p1")
               (Scenario.no_faults 7) "req-1" Scenario.assigned_store in
  snd out = true /\
  service_requests (fst out) = [Scenario.completed_row] /\
  request_status_history (fst out)
  = [Scenario.pending_history; Scenario.assigned_history;
     RequestStatusHistory.mk "req-1" completed (Some "user-p1") None 7].
Proof.
  assert (Hnd : request_ids_unique Scenario.assigned_store).
  { unfold request_ids_unique. simpl. constructor; [intros [] | constructor]. }
  exact (assigned_provider_completes_the_request "user-p1" (Scenario.no_faults 7)
           Scenario.assigned_store Scenario.assigned_row Hnd
           (or_introl eq_refl) eq_refl eq_refl).
Defined.

(** X19.  Whoever a [FOR UPDATE] policy lets write a request, a
    [FOR SELECT] policy lets read it; and a signed-in user who is neither
    an administrator nor the owner of the assigned provider profile can
    write a request only when it is their own and still pending. *)
Theorem update_right_implies_read_right :
  forall (s : store) (who : session) (r : ServiceRequest.t),
    can_update s who r = true ->
    can_select s who r = true /\
    (forall u, who = authenticated u ->
               has_role s u admin = false ->
               assigned_to_user s u r = false ->
               ServiceRequest.resident_id r = u /\ ServiceRequest.status r = pending).
Proof.
  intros s [| u] r H.
  - split; [reflexivity | intros u E; discriminate].
  - cbn [can_update can_select] in *. split.
    + destruct (u =? ServiceRequest.resident_id r); [reflexivity |].
      cbn [andb orb] in *. exact H.
    + intros u' E Hadm Has. injection E as <-.
      rewrite Hadm, Has, !orb_false_r in H.
      apply andb_true_iff in H. destruct H as [H1 H2].
      apply String.eqb_eq in H1. apply request_status_eqb_eq in H2.
      split; [symmetry; exact H1 | exact H2].
Qed.

Lemma update_right_implies_read_right_witness :
  can_select Scenario.created (authenticated "resident-1") Scenario.pending_row = true /\
  ServiceRequest.status Scenario.pending_row = pending.
Proof.
  destruct (update_right_implies_read_right Scenario.created
              (authenticated "resident-1") Scenario.pending_row eq_refl)
    as [Hsel Hown].
  split; [exact Hsel |].
  exact (proj2 (Hown "resident-1" eq_refl eq_refl eq_refl)).
Defined.

(** X20.  A request created under an identifier no row has yet is found
    by the single-request handler's fetch as the row inserted, pending and
    without a provider; the trigger logs one [pending] row whose
    [changed_by] is the resident; identifiers stay distinct; and the batch
    fetch of a provider who serves its category returns it. *)
Theorem created_request_is_pending_and_logged_once :
  forall (user_id : uuid) (t : timestamp) (id category_id : uuid) (lat lng : R)
         (s : store),
    ~ In id (map ServiceRequest.id (service_requests s)) ->
    let s' := createRequest user_id t id category_id lat lng s in
    let row := ServiceRequest.mk id user_id None category_id pending lat lng t
                 None None in
    AssignProvider.fetch_request s' id = Some row /\
    request_status_history s'
    = (request_status_history s
       ++ [RequestStatusHistory.mk id pending (Some user_id) None t])%list /\
    (request_ids_unique s -> request_ids_unique s') /\
    (forall categoryIds, In category_id categoryIds ->
                         In row (AssignPendingRequests.fetch_pendingRequests s'
                                   categoryIds)).
Proof.
  intros user_id t id category_id lat lng s Hfresh. cbv zeta.
  unfold createRequest, insert_service_request, new_request.
  cbn [can_insert ServiceRequest.resident_id]. rewrite String.eqb_refl.
  unfold add_history, set_service_requests.
  cbn [add_history set_service_requests service_requests request_status_history
       log_request_status_change orb auth_uid coalesce
       ServiceRequest.id ServiceRequest.status ServiceRequest.resident_id].
  split; [| split; [reflexivity | split]].
  - unfold AssignProvider.fetch_request. cbn [service_requests].
    rewrite filter_app. rewrite filter_none.
    + cbn [filter ServiceRequest.id app]. rewrite String.eqb_refl. reflexivity.
    + intros x Hx. apply String.eqb_neq. intros E. apply Hfresh.
      rewrite <- E. apply in_map. exact Hx.
  - unfold request_ids_unique. cbn [service_requests]. intros Hnd.
    rewrite map_app. cbn [map ServiceRequest.id].
    apply NoDup_app; [exact Hnd | constructor; [intros [] | constructor] |].
    intros a Ha [<- | []]. exact (Hfresh Ha).
  - intros categoryIds Hcat. unfold AssignPendingRequests.fetch_pendingRequests.
    cbn [service_requests]. apply filter_In. split.
    + apply in_or_app. right. left. reflexivity.
    + cbn [ServiceRequest.status ServiceRequest.category_id
           ServiceRequest.provider_id request_status_eqb is_none].
      apply (proj2 (uuid_in_spec category_id categoryIds)) in Hcat.
      rewrite Hcat. reflexivity.
Qed.

Lemma created_request_is_pending_and_logged_once_witness :
  AssignProvider.fetch_request Scenario.created "req-1" = Some Scenario.pending_row /\
  request_status_history Scenario.created = [Scenario.pending_history].
Proof.
  assert (H : ~ In "req-1" (map ServiceRequest.id
                              (service_requests Scenario.empty_store)))
    by (intros []).
  destruct (created_request_is_pending_and_logged_once "resident-1" 1 "req-1"
              "plumbing" 12.9716%R 77.5946%R Scenario.empty_store H)
    as (Hfetch & Hhist & _).
  split; [exact Hfetch | exact Hhist].
Defined.

(* ------------------------------------------------------------------ *)
(** ** Availability *)
(* ------------------------------------------------------------------ *)

Lemma handleToggle_rows (profileId : uuid) (checked : bool) (s : store)
  (pp : ProviderProfile.t) :
  In pp (provider_profiles (handleToggle profileId checked s)) ->
  ProviderProfile.id pp = profileId ->
  ProviderProfile.is_available pp = Some checked.
Proof.
  unfold handleToggle. cbn [provider_profiles]. intros Hin Hid.
  apply in_map_iff in Hin. destruct Hin as [x [E Hx]].
  destruct (String.eqb_spec (ProviderProfile.id x) profileId) as [Ex | Ex].
  - subst pp. reflexivity.
  - subst pp. contradiction.
Qed.

Lemma handleToggle_by_user (profileId userId : uuid) (checked : bool) (s : store) :
  filter (fun pp => ProviderProfile.user_id pp =? userId)
         (provider_profiles (handleToggle profileId checked s))
  = map (fun pp =>
           if ProviderProfile.id pp =? profileId
           then ProviderProfile.mk (ProviderProfile.id pp) (ProviderProfile.user_id pp)
                  (ProviderProfile.service_area_radius_km pp) (Some checked)
           else pp)
        (filter (fun pp => ProviderProfile.user_id pp =? userId) (provider_profiles s)).
Proof.
  unfold handleToggle. cbn [provider_profiles].
  induction (provider_profiles s) as [| x l IH]; [reflexivity |].
  cbn [map filter].
  destruct (ProviderProfile.id x =? profileId) eqn:E; cbn [ProviderProfile.user_id];
    destruct (ProviderProfile.user_id x =? userId); cbn [map]; rewrite ?E, IH;
    reflexivity.
Qed.

(** X21.  Once a provider profile has been switched to unavailable, the
    single-request handler ranks no candidate with that profile, whatever
    the request; and the batch function called for the profile's user
    answers [Provider is not available] and leaves the store as the toggle
    left it. *)
Theorem unavailable_provider_gets_no_assignment :
  forall (profileId : uuid) (s : store),
    let s' := handleToggle profileId false s in
    (forall (request : ServiceRequest.t) (c : candidate),
        In c (AssignProvider.providersWithDistance s' request) ->
        providerId c <> profileId) /\
    (forall (e : environment) (userId : uuid) (providerProfile : ProviderProfile.t),
        userId <> "" ->
        single (filter (fun pp => ProviderProfile.user_id pp =? userId)
                       (provider_profiles s)) = Some providerProfile ->
        ProviderProfile.id providerProfile = profileId ->
        AssignPendingRequests.handler e userId s'
        = (s', mkResponse 200 None (Some "Provider is not available")
                 None None None None)).
Proof.
  intros profileId s. cbv zeta. split.
  - intros request c Hc E.
    unfold AssignProvider.providersWithDistance in Hc.
    apply rank_In in Hc. destruct Hc as [Hc _].
    unfold AssignProvider.candidates in Hc. apply in_drop_null in Hc.
    apply in_map_iff in Hc. destruct Hc as [pp [Hwd Hpp]].
    unfold AssignProvider.fetch_providerProfiles in Hpp.
    apply filter_In in Hpp. destruct Hpp as [Hpp Hf].
    apply andb_true_iff in Hf. destruct Hf as [_ Hav].
    assert (Hid : ProviderProfile.id pp = providerId c).
    { unfold AssignProvider.with_distance in Hwd.
      destruct (find _ _) as [profile |]; [| discriminate].
      destruct (Profile.location_lat profile); [| discriminate].
      destruct (Profile.location_lng profile); [| discriminate].
      injection Hwd as <-. reflexivity. }
    rewrite (handleToggle_rows profileId false s pp Hpp) in Hav;
      [discriminate | congruence].
  - intros e userId pp Hu Hpp Hid.
    apply (handler_unavailable e userId (handleToggle profileId false s)
             (ProviderProfile.mk (ProviderProfile.id pp) (ProviderProfile.user_id pp)
                (ProviderProfile.service_area_radius_km pp) (Some false)) Hu).
    + rewrite handleToggle_by_user.
      destruct (filter _ (provider_profiles s)) as [| x [| y l]]; try discriminate.
      cbn [single] in Hpp. injection Hpp as ->.
      cbn [map single]. rewrite Hid, String.eqb_refl. reflexivity.
    + reflexivity.
Qed.

Lemma unavailable_provider_gets_no_assignment_witness :
  AssignPendingRequests.handler (Scenario.no_faults 9) "user-p1"
    (handleToggle "prov-1" false Scenario.created)
  = (handleToggle "prov-1" false Scenario.created,
     mkResponse 200 None (Some "Provider is not available") None None None None).
Proof.
  assert (H : "user-p1" <> "") by discriminate.
  exact (proj2 (unavailable_provider_gets_no_assignment "prov-1" Scenario.created)
           (Scenario.no_faults 9) "user-p1"
           (ProviderProfile.mk "prov-1" "user-p1" (Some 10%R) (Some true))
           H eq_refl eq_refl).
Defined.

(* ------------------------------------------------------------------ *)
(** ** The earlier revision of the single-request handler *)
(* ------------------------------------------------------------------ *)

(** X22.  The earlier revision of the single-request handler reads the
    providers through one query that embeds [profiles] in
    [provider_profiles].  No foreign key joins these two tables, so the
    query is answered with an error: for every request that exists the
    handler answers 400 with [Failed to fetch providers], for one that does
    not, 400 with [Service request not found]; it never reaches its update
    or its history insert, and the store is returned as it was. *)
Theorem joined_revision_always_fails :
  forall (e : environment) (requestId : uuid) (s : store),
    embeddable provider_profiles_table profiles_table = false /\
    fst (AssignProviderJoined.handler e requestId s) = s /\
    http_status (snd (AssignProviderJoined.handler e requestId s)) = 400%nat /\
    success (snd (AssignProviderJoined.handler e requestId s)) = Some false /\
    (forall request,
        AssignProvider.fetch_request s requestId = Some request ->
        snd (AssignProviderJoined.handler e requestId s)
        = AssignProvider.hard_failure "Failed to fetch providers") /\
    (AssignProvider.fetch_request s requestId = None ->
     snd (AssignProviderJoined.handler e requestId s)
     = AssignProvider.hard_failure "Service request not found").
Proof.
  intros e requestId s. rewrite joined_handler_fails. cbn [fst snd].
  split; [reflexivity |]. split; [reflexivity |].
  split; [reflexivity |]. split; [reflexivity |]. split.
  - intros request ->. reflexivity.
  - intros ->. reflexivity.
Qed.

Lemma joined_revision_always_fails_witness :
  AssignProviderJoined.handler (Scenario.no_faults 5) "req-1" Scenario.created
  = (Scenario.created, AssignProvider.hard_failure "Failed to fetch providers").
Proof.
  destruct (joined_revision_always_fails (Scenario.no_faults 5) "req-1"
              Scenario.created) as (_ & Hs & _ & _ & Hr & _).
  specialize (Hr Scenario.pending_row eq_refl).
  destruct (AssignProviderJoined.handler (Scenario.no_faults 5) "req-1"
              Scenario.created) as [s' resp].
  cbn [fst snd] in Hs, Hr. rewrite Hs, Hr. reflexivity.
Defined.

(* ------------------------------------------------------------------ *)
(** ** The photos of the request form *)
(* ------------------------------------------------------------------ *)

Section PhotoList.

Context {A : Type}.

Lemma filter_index_shift (keep : nat -> bool) (i : nat) (l : list A) :
  CreateRequest.filter_index keep (S i) l
  = CreateRequest.filter_index (fun j => keep (S j)) i l.
Proof.
  revert i. induction l as [| x l IH]; intros i; [reflexivity |].
  cbn [CreateRequest.filter_index]. rewrite IH. reflexivity.
Qed.

Lemma filter_index_all (keep : nat -> bool) (i : nat) (l : list A) :
  (forall j, keep j = true) -> CreateRequest.filter_index keep i l = l.
Proof.
  intros H. revert i. induction l as [| x l IH]; intros i; [reflexivity |].
  cbn [CreateRequest.filter_index]. rewrite H, IH. reflexivity.
Qed.

Lemma filter_index_drop (index : nat) (l : list A) :
  CreateRequest.filter_index (fun i => negb (Nat.eqb i index)) 0 l
  = (firstn index l ++ skipn (S index) l)%list.
Proof.
  revert index. induction l as [| x l IH]; intros index.
  - destruct index; reflexivity.
  - cbn [CreateRequest.filter_index]. rewrite filter_index_shift.
    destruct index as [| index].
    + cbn [Nat.eqb negb firstn skipn app].
      apply filter_index_all. intros j. reflexivity.
    + cbn [Nat.eqb negb firstn skipn app]. f_equal. apply IH.
Qed.

Lemma drop_length (index : nat) (l : list A) :
  List.length (firstn index l ++ skipn (S index) l)
  = if Nat.ltb index (List.length l) then pred (List.length l) else List.length l.
Proof.
  rewrite length_app, length_firstn, length_skipn.
  destruct (Nat.ltb_spec index (List.length l)); lia.
Qed.

Lemma in_drop (index : nat) (l : list A) (x : A) :
  In x (firstn index l ++ skipn (S index) l) -> In x l.
Proof.
  intros H. apply in_app_or in H. destruct H as [H | H].
  - rewrite <- (firstn_skipn index l). apply in_or_app. left. exact H.
  - rewrite <- (firstn_skipn (S index) l). apply in_or_app. right. exact H.
Qed.

End PhotoList.

(** X23.  [removePhoto] drops exactly the photo at the index and the
    preview at the same index, and nothing when the index is past the end;
    no object URL is created. *)
Theorem removePhoto_drops_the_indexed_photo :
  forall (File : Type) (index : nat) (st : CreateRequest.state File),
    let st' := CreateRequest.removePhoto index st in
    CreateRequest.photos st'
    = (firstn index (CreateRequest.photos st)
       ++ skipn (S index) (CreateRequest.photos st))%list /\
    CreateRequest.photoPreview st'
    = (firstn index (CreateRequest.photoPreview st)
       ++ skipn (S index) (CreateRequest.photoPreview st))%list /\
    (List.length (CreateRequest.photos st) <= index ->
     CreateRequest.photos st' = CreateRequest.photos st).
Proof.
  intros File index st. cbv zeta. unfold CreateRequest.removePhoto.
  cbn [CreateRequest.photos CreateRequest.photoPreview].
  rewrite !filter_index_drop. split; [reflexivity |]. split; [reflexivity |].
  intros Hlen. rewrite firstn_all2 by exact Hlen.
  rewrite skipn_all2 by lia. apply app_nil_r.
Qed.

(** X24.  Whatever the user does with the photo field, starting from the
    empty form: at most five photos are held, there is one preview per
    photo, and every preview is an object URL that was created. *)
Theorem photo_limit_is_invariant :
  forall (File : Type) (events : list (CreateRequest.event File)),
    let st := CreateRequest.run events in
    List.length (CreateRequest.photos st) <= 5 /\
    List.length (CreateRequest.photoPreview st)
    = List.length (CreateRequest.photos st) /\
    (forall url, In url (CreateRequest.photoPreview st) ->
                 url < CreateRequest.objectURLs st).
Proof.
  intros File events. cbv zeta. unfold CreateRequest.run.
  assert (Hinit : List.length (CreateRequest.photos (CreateRequest.initial File)) <= 5 /\
                  List.length (CreateRequest.photoPreview (CreateRequest.initial File))
                  = List.length (CreateRequest.photos (CreateRequest.initial File)) /\
                  (forall url, In url (CreateRequest.photoPreview
                                         (CreateRequest.initial File)) ->
                               url < CreateRequest.objectURLs
                                       (CreateRequest.initial File))).
  { cbn. split; [lia |]. split; [reflexivity | intros url []]. }
  revert Hinit. generalize (CreateRequest.initial File) as st.
  induction events as [| ev events IH]; intros st Hst; [exact Hst |].
  cbn [fold_left]. apply IH. destruct Hst as (H5 & Hlen & Hurl).
  destruct ev as [files | index]; cbn [CreateRequest.handle].
  - unfold CreateRequest.handlePhotoChange.
    destruct (Nat.ltb_spec 5 (List.length files
                              + List.length (CreateRequest.photos st)))
      as [Hgt | Hle].
    + split; [exact H5 |]. split; [exact Hlen | exact Hurl].
    + cbn [CreateRequest.photos CreateRequest.photoPreview CreateRequest.objectURLs].
      rewrite !length_app, length_seq. split; [lia |]. split; [lia |].
      intros url Hin. apply in_app_or in Hin. destruct Hin as [Hin | Hin].
      * specialize (Hurl url Hin). lia.
      * apply in_seq in Hin. lia.
  - unfold CreateRequest.removePhoto.
    cbn [CreateRequest.photos CreateRequest.photoPreview CreateRequest.objectURLs].
    rewrite !filter_index_drop, !drop_length, Hlen. split.
    + destruct (Nat.ltb index (List.length (CreateRequest.photos st))); lia.
    + split; [reflexivity |].
      intros url Hin. apply Hurl. exact (in_drop index _ url Hin).
Qed.

(* ================================================================== *)
(** * The ranking and the history, end to end *)
(* ================================================================== *)

(** ** Who is ranked *)









(** ** One history row per transition *)

(** C2.  Every transition of a request is logged once, by the trigger and
    by nothing else.  The trigger writes one row for a row inserted, with
    the status inserted, so that a request created by its resident is
    logged once as [pending]; for a row written by an [UPDATE] it writes
    one row when the status changes and none when it does not.  The
    single-request handler adds, on a success, the one [assigned] row of
    the request it assigned (none when the request was assigned already,
    its status not changing), and no row on any other outcome.  The batch
    loop adds one [assigned] row per request it assigns, of those its
    query returned.  The earlier revision of the single-request
    handler, whose code inserts a history row of its own after the update,
    never reaches either statement: it returns the store as it was. *)
Theorem every_transition_is_logged_once :
  (forall (who : session) (t : timestamp) (NEW : ServiceRequest.t),
      log_request_status_change INSERT who t None NEW
      = [transition_row who t (ServiceRequest.status NEW) NEW]) /\
  (forall (user_id : uuid) (t : timestamp) (id category_id : uuid) (lat lng : R)
          (s : store),
      request_status_history (createRequest user_id t id category_id lat lng s)
      = (request_status_history s
         ++ [RequestStatusHistory.mk id pending (Some user_id) None t])%list) /\
  (forall (who : session) (t : timestamp)
          (set : ServiceRequest.t -> ServiceRequest.t) (OLD : ServiceRequest.t),
      snd (update_row who t set OLD)
      = if request_status_eqb (ServiceRequest.status OLD)
                              (ServiceRequest.status (set OLD))
        then []
        else [transition_row who t (ServiceRequest.status (set OLD))
                (fst (update_row who t set OLD))]) /\
  (forall (e : environment) (requestId : uuid) (s : store)
          (request : ServiceRequest.t),
      request_ids_unique s ->
      AssignProvider.fetch_request s requestId = Some request ->
      (success (snd (AssignProvider.handler e requestId s)) = Some true ->
       request_status_history (fst (AssignProvider.handler e requestId s))
       = (request_status_history s
          ++ if request_status_eqb (ServiceRequest.status request) assigned
             then []
             else [transition_row service_role (now e) assigned request])%list) /\
      (success (snd (AssignProvider.handler e requestId s)) <> Some true ->
       request_status_history (fst (AssignProvider.handler e requestId s))
       = request_status_history s)) /\
  (forall (e : environment) (userId : uuid) (providerProfile : ProviderProfile.t)
          (providerLat providerLng radius : number)
          (categoryIds : list uuid) (s : store),
      request_ids_unique s ->
      request_status_history
        (fst (AssignPendingRequests.assign_all e userId providerProfile
                providerLat providerLng radius
                (AssignPendingRequests.fetch_pendingRequests s categoryIds) s))
      = (request_status_history s
         ++ map (transition_row service_role (now e) assigned)
                (assigned_by_batch e providerLat providerLng radius
                   (AssignPendingRequests.fetch_pendingRequests s categoryIds)))%list) /\
  (forall (e : environment) (requestId : uuid) (s : store),
      fst (AssignProviderJoined.handler e requestId s) = s).
Proof.
  split; [reflexivity |].
  split.
  { intros user_id t id category_id lat lng s. unfold createRequest.
    rewrite insert_logs_once; [reflexivity |].
    cbn [can_insert new_request ServiceRequest.resident_id].
    apply String.eqb_refl. }
  split; [exact update_row_logs |].
  split; [| split].
  - intros e requestId s request Hu Hreq.
    destruct (single_handler_cases e requestId s)
      as [[E | [E | E]] | [E | (request' & p & rest & Hreq' & Hrank & Herr & E)]];
      rewrite E; cbn [fst snd].
    + split; [intros H; discriminate | reflexivity].
    + split; [intros H; discriminate | reflexivity].
    + split; [intros H; discriminate | reflexivity].
    + split; [intros H; discriminate | reflexivity].
    + rewrite Hreq in Hreq'. injection Hreq' as <-. split.
      * intros _.
        destruct (success_store_tables e requestId s request p)
          as (_ & _ & _ & _ & _ & Hhist & _).
        rewrite Hhist. apply commit_history; assumption.
      * intros H. exfalso. apply H. reflexivity.
  - intros e userId pp lat lng radius categoryIds s Hu.
    unfold AssignPendingRequests.assign_all.
    apply (loop_rows_history e userId pp lat lng radius
             (AssignPendingRequests.fetch_pendingRequests s categoryIds) s 0 Hu).
    + unfold AssignPendingRequests.fetch_pendingRequests.
      apply NoDup_map_filter. exact Hu.
    + intros r Hr. unfold AssignPendingRequests.fetch_pendingRequests in Hr.
      apply filter_In in Hr. destruct Hr as [Hin Hf]. split; [exact Hin |].
      apply andb_true_iff in Hf. destruct Hf as [Hf _].
      apply andb_true_iff in Hf. destruct Hf as [Hf _].
      apply request_status_eqb_eq. exact Hf.
  - intros e requestId s. rewrite joined_handler_fails. reflexivity.
Qed.

Lemma every_transition_is_logged_once_witness :
  request_ids_unique Scenario.created /\
  AssignProvider.fetch_request Scenario.created "req-1" = Some Scenario.pending_row /\
  request_status_history Scenario.created = [Scenario.pending_history] /\
  request_status_history
    (fst (AssignProvider.handler (Scenario.no_faults 5) "req-1" Scenario.created))
  = [Scenario.pending_history; Scenario.assigned_history].
Proof.
  assert (H1 : request_ids_unique Scenario.created).
  { unfold request_ids_unique. simpl. constructor; [intros [] | constructor]. }
  assert (H2 : AssignProvider.fetch_request Scenario.created "req-1"
               = Some Scenario.pending_row) by reflexivity.
  assert (H3 : success (snd (AssignProvider.handler (Scenario.no_faults 5) "req-1"
                               Scenario.created)) = Some true).
  { rewrite first_assignment. reflexivity. }
  split; [exact H1 |]. split; [exact H2 |]. split; [reflexivity |].
  exact (proj1 (proj1 (proj2 (proj2 (proj2 every_transition_is_logged_once)))
                  (Scenario.no_faults 5) "req-1" Scenario.created
                  Scenario.pending_row H1 H2) H3).
Defined.

(* ================================================================== *)
(** * The distance calculator on IEEE doubles *)
(* ================================================================== *)

Section Doubles.

Import Binary64.
Local Open Scope Z_scope.

(** ** Signs *)

Lemma binary_round_aux_opp s m e l :
  binary_round_aux prec emax (negb s) m e l = SFopp (binary_round_aux prec emax s m e l).
Proof.
  unfold binary_round_aux.
  destruct (shr_fexp prec emax m e l) as [mrs' e'].
  destruct (shr_fexp prec emax _ e' loc_Exact) as [mrs'' e''].
  destruct (shr_m mrs''); [reflexivity | | reflexivity].
  destruct (e'' <=? emax - prec); reflexivity.
Qed.

Lemma SFmul_opp_l x y : mul (SFopp x) y = SFopp (mul x y).
Proof.
  unfold mul.
  destruct x as [sx | sx | | sx mx ex], y as [sy | sy | | sy my ey];
    cbn [SFmul SFopp]; try reflexivity;
    try (destruct sx, sy; reflexivity).
  replace (xorb (negb sx) sy) with (negb (xorb sx sy)) by (destruct sx, sy; reflexivity).
  apply binary_round_aux_opp.
Qed.

Lemma SFmul_comm x y : mul x y = mul y x.
Proof.
  unfold mul.
  destruct x as [sx | sx | | sx mx ex], y as [sy | sy | | sy my ey];
    cbn [SFmul]; try reflexivity; try (rewrite xorb_comm; reflexivity).
  rewrite xorb_comm, Pos.mul_comm, Z.add_comm. reflexivity.
Qed.

Lemma SFmul_opp_r x y : mul x (SFopp y) = SFopp (mul x y).
Proof. rewrite SFmul_comm, SFmul_opp_l, SFmul_comm. reflexivity. Qed.

Lemma SFopp_involutive x : SFopp (SFopp x) = x.
Proof. destruct x as [s | s | | s m e]; cbn; try rewrite negb_involutive; reflexivity. Qed.

Lemma SFmul_opp_opp x y : mul (SFopp x) (SFopp y) = mul x y.
Proof. rewrite SFmul_opp_l, SFmul_opp_r, SFopp_involutive. reflexivity. Qed.

Lemma SFdiv_opp_l x y : div (SFopp x) y = SFopp (div x y).
Proof.
  unfold div.
  destruct x as [sx | sx | | sx mx ex], y as [sy | sy | | sy my ey];
    cbn [SFdiv SFopp]; try reflexivity;
    try (destruct sx, sy; reflexivity).
  destruct (SFdiv_core_binary prec emax (Z.pos mx) ex (Z.pos my) ey) as [[mz ez] lz].
  replace (xorb (negb sx) sy) with (negb (xorb sx sy)) by (destruct sx, sy; reflexivity).
  apply binary_round_aux_opp.
Qed.

Lemma binary_round_opp s m e :
  binary_round prec emax (negb s) m e = SFopp (binary_round prec emax s m e).
Proof.
  unfold binary_round.
  destruct (shl_align m e _) as [mz ez]. apply binary_round_aux_opp.
Qed.

Lemma binary_normalize_opp m e :
  binary_normalize prec emax (- m) e false
  = SFopp (binary_normalize prec emax m e false)
  \/ (binary_normalize prec emax m e false = S754_zero false /\
      binary_normalize prec emax (- m) e false = S754_zero false).
Proof.
  destruct m as [| p | p]; cbn [Z.opp binary_normalize].
  - right. split; reflexivity.
  - left. apply (binary_round_opp false).
  - left. rewrite <- (binary_round_opp true). reflexivity.
Qed.

(** [y - x] is the opposite of [x - y], except that both are [+0] when
    the two are equal. *)
Lemma SFsub_swap x y :
  sub y x = SFopp (sub x y)
  \/ (sub x y = S754_zero false /\ sub y x = S754_zero false).
Proof.
  unfold sub.
  destruct x as [sx | sx | | sx mx ex], y as [sy | sy | | sy my ey];
    cbn [SFsub SFopp].
  16: {
    replace (IntDef.Z.min ey ex) with (IntDef.Z.min ex ey) by apply Z.min_comm.
    replace (cond_Zopp sy (Z.pos (fst (shl_align my ey (IntDef.Z.min ex ey))))
             - cond_Zopp sx (Z.pos (fst (shl_align mx ex (IntDef.Z.min ex ey)))))
      with (- (cond_Zopp sx (Z.pos (fst (shl_align mx ex (IntDef.Z.min ex ey))))
               - cond_Zopp sy (Z.pos (fst (shl_align my ey (IntDef.Z.min ex ey))))))
      by lia.
    apply binary_normalize_opp. }
  all: try (destruct sx); try (destruct sy); cbn [negb];
    first [ left; reflexivity | right; split; reflexivity ].
Qed.



(** ** Products that do not overflow *)

Lemma digits2_size (p : BinNums.positive) : digits2_pos p = Pos.size p.
Proof. induction p as [p IH | p IH |]; cbn; try rewrite IH; reflexivity. Qed.

Lemma size_lt (p : BinNums.positive) : Z.pos p < 2 ^ Z.pos (Pos.size p).
Proof.
  pose proof (Pos.size_gt p) as H.
  rewrite <- (Pos2Z.inj_pow 2 (Pos.size p)). apply Pos2Z.pos_lt_pos. exact H.
Qed.

Lemma size_bound (p : BinNums.positive) (k : Z) :
  0 <= k -> Z.pos p < 2 ^ k -> Z.pos (Pos.size p) <= k.
Proof.
  intros Hk H. pose proof (Pos.size_le p) as Hle.
  apply Pos2Z.pos_le_pos in Hle. rewrite Pos2Z.inj_pow in Hle.
  rewrite (Pos2Z.inj_xO p) in Hle.
  destruct (Z_le_gt_dec (Z.pos (Pos.size p)) k) as [L | G]; [exact L | exfalso].
  assert (Hp : 2 ^ (k + 1) <= 2 ^ Z.pos (Pos.size p)).
  { apply Z.pow_le_mono_r; lia. }
  rewrite Z.pow_add_r in Hp by lia. change (2 ^ 1) with 2 in Hp. lia.
Qed.

Lemma Zdigits2_bound (z k : Z) : 0 <= k -> 0 <= z -> z < 2 ^ k -> Zdigits2 z <= k.
Proof.
  intros Hk Hz H. destruct z as [| p | p]; cbn [Zdigits2]; [exact Hk | | lia].
  rewrite digits2_size. apply size_bound; assumption.
Qed.

Lemma Zdigits2_lt (z : Z) : 0 <= z -> z < 2 ^ Zdigits2 z.
Proof.
  intros Hz. destruct z as [| p | p]; cbn [Zdigits2]; [reflexivity | | lia].
  rewrite digits2_size. apply size_lt.
Qed.

Lemma shr_1_digits (mrs : shr_record) :
  0 <= shr_m mrs ->
  0 <= shr_m (shr_1 mrs) /\
  Zdigits2 (shr_m (shr_1 mrs)) <= Z.max 0 (Zdigits2 (shr_m mrs) - 1).
Proof.
  destruct mrs as [m r s]. cbn [shr_m]. intros Hm.
  destruct m as [| [p | p |] | p]; cbn [shr_1 shr_m Zdigits2 digits2_pos];
    rewrite ?Pos2Z.inj_succ; lia.
Qed.

Lemma iter_shr_1_digits (p : BinNums.positive) (mrs : shr_record) :
  0 <= shr_m mrs ->
  0 <= shr_m (iter_pos shr_1 p mrs) /\
  Zdigits2 (shr_m (iter_pos shr_1 p mrs))
  <= Z.max 0 (Zdigits2 (shr_m mrs) - Z.pos p).
Proof.
  revert mrs. induction p as [p IH | p IH |]; intros mrs Hm; cbn [iter_pos].
  - destruct (shr_1_digits mrs Hm) as [H0 H1].
    destruct (IH (shr_1 mrs) H0) as [H2 H3].
    destruct (IH _ H2) as [H4 H5]. split; [exact H4 |].
    rewrite Pos2Z.inj_xI. lia.
  - destruct (IH mrs Hm) as [H2 H3].
    destruct (IH _ H2) as [H4 H5]. split; [exact H4 |].
    rewrite Pos2Z.inj_xO. lia.
  - apply shr_1_digits. exact Hm.
Qed.

(** One step of rounding: the exponent after it, and the size of the
    mantissa. *)
Lemma shr_fexp_bounds (m e : Z) (l : location) :
  0 <= m ->
  let '(mrs, e') := shr_fexp prec emax m e l in
  0 <= shr_m mrs /\
  Zdigits2 (shr_m mrs) <= 53 /\
  e' <= Z.max (Z.max e (Zdigits2 m + e - 53)) (-1074).
Proof.
  intros Hm. unfold shr_fexp, shr.
  assert (Hrec : shr_m (shr_record_of_loc m l) = m).
  { destruct l as [| []]; reflexivity. }
  assert (Hd : 0 <= Zdigits2 m).
  { destruct m; cbn; lia. }
  destruct (fexp prec emax (Zdigits2 m + e) - e) as [| p | p] eqn:En;
    unfold fexp, emin, prec, emax in En;
    change IntDef.Z.max with Z.max in En.
  - rewrite Hrec. repeat split; lia.
  - destruct (iter_shr_1_digits p (shr_record_of_loc m l)) as [H0 H1];
      [rewrite Hrec; exact Hm |].
    rewrite Hrec in H1. repeat split; lia.
  - rewrite Hrec. repeat split; lia.
Qed.

Lemma round_nearest_even_bounds (m : Z) (l : location) :
  0 <= m -> Zdigits2 m <= 53 ->
  0 <= round_nearest_even m l /\ Zdigits2 (round_nearest_even m l) <= 54.
Proof.
  intros Hm Hd.
  assert (Hlt : m < 2 ^ 53).
  { pose proof (Zdigits2_lt m Hm) as H.
    assert (2 ^ Zdigits2 m <= 2 ^ 53) by (apply Z.pow_le_mono_r; lia). lia. }
  assert (H1 : 0 <= m + 1 /\ Zdigits2 (m + 1) <= 54).
  { split; [lia |]. apply Zdigits2_bound; [lia | lia |].
    change (2 ^ 54) with (2 * 2 ^ 53). lia. }
  assert (H0 : 0 <= m /\ Zdigits2 m <= 54) by lia.
  unfold round_nearest_even.
  destruct l as [| []]; try assumption.
  destruct (Z.even m); assumption.
Qed.

(** Rounding a mantissa of at most [d] bits at exponent [e]: no overflow
    while [e] and [d + e - 53] stay below 966. *)
Lemma binary_round_aux_finite (s : bool) (m : BinNums.positive) (e : Z) :
  e <= 966 -> Z.pos (digits2_pos m) + e <= 1019 ->
  finite_or_zero (binary_round_aux prec emax s (Z.pos m) e loc_Exact).
Proof.
  intros He Hd. unfold binary_round_aux.
  pose proof (shr_fexp_bounds (Z.pos m) e loc_Exact) as H1.
  destruct (shr_fexp prec emax (Z.pos m) e loc_Exact) as [mrs' e'].
  destruct H1 as (H0 & H53 & He'); [lia |]. cbn [Zdigits2] in He'.
  destruct (round_nearest_even_bounds (shr_m mrs') (loc_of_shr_record mrs') H0 H53)
    as [Hr0 Hr54].
  pose proof (shr_fexp_bounds
                (round_nearest_even (shr_m mrs') (loc_of_shr_record mrs'))
                e' loc_Exact Hr0) as H2.
  destruct (shr_fexp prec emax _ e' loc_Exact) as [mrs'' e''].
  destruct H2 as (H0' & _ & He'').
  destruct (shr_m mrs'') as [| p | p]; [exact I | | lia].
  assert (E : (e'' <=? emax - prec) = true).
  { apply Z.leb_le. unfold emax, prec. lia. }
  rewrite E. exact I.
Qed.

Lemma valid_finite (s : bool) (m : BinNums.positive) (e : Z) :
  is_double (S754_finite s m e) ->
  Z.pos (digits2_pos m) <= 53 /\ e <= 971.
Proof.
  unfold is_double, valid_binary, bounded, canonical_mantissa.
  intros H. apply andb_true_iff in H. destruct H as [H1 H2].
  apply Z.eqb_eq in H1. apply Z.leb_le in H2.
  unfold fexp, emin, prec, emax in *.
  change IntDef.Z.max with Z.max in H1. lia.
Qed.

Lemma SFmul_digits (a b : BinNums.positive) :
  Z.pos (digits2_pos (a * b)) <= Z.pos (digits2_pos a) + Z.pos (digits2_pos b).
Proof.
  rewrite (digits2_size (a * b)), (digits2_size a), (digits2_size b).
  apply size_bound; [lia |].
  pose proof (size_lt a). pose proof (size_lt b).
  rewrite Z.pow_add_r by lia. rewrite Pos2Z.inj_mul.
  apply Z.mul_lt_mono_nonneg; lia.
Qed.

(** The product of two doubles whose exponents add up to at most 913 is
    finite. *)
Lemma SFmul_finite (x y : double) :
  is_double x -> is_double y ->
  match x, y with
  | S754_finite _ _ ex, S754_finite _ _ ey => ex + ey <= 913
  | S754_zero _, (S754_zero _ | S754_finite _ _ _) => True
  | S754_finite _ _ _, S754_zero _ => True
  | _, _ => False
  end ->
  finite_or_zero (mul x y).
Proof.
  intros Hx Hy. unfold mul.
  destruct x as [sx | sx | | sx mx ex], y as [sy | sy | | sy my ey];
    cbn [SFmul finite_or_zero]; try tauto.
  intros He.
  destruct (valid_finite sx mx ex Hx) as [Dx _].
  destruct (valid_finite sy my ey Hy) as [Dy _].
  pose proof (SFmul_digits mx my).
  apply binary_round_aux_finite; lia.
Qed.


Lemma SFsub_diag (x : double) : finite_or_zero x -> sub x x = S754_zero false.
Proof.
  destruct x as [[|] | | | s m e]; cbn [finite_or_zero]; try tauto;
    intros _; try reflexivity.
  unfold sub. cbn [SFsub]. rewrite Z.sub_diag. reflexivity.
Qed.

Lemma degree_value :
  div Math_PI (of_Z 180) = S754_finite false 5030569068109113 (-58).
Proof. vm_compute. reflexivity. Qed.

Lemma one_value : of_Z 1 = S754_finite false 4503599627370496 (-52).
Proof. vm_compute. reflexivity. Qed.

Lemma sqrt_one :
  Math_sqrt (sub (of_Z 1) (S754_zero false)) = of_Z 1.
Proof. vm_compute. reflexivity. Qed.

Lemma zero_lt_one : SFltb (S754_zero false) (of_Z 1) = true.
Proof. vm_compute. reflexivity. Qed.

Lemma half_of_zero :
  div (mul (S754_zero false) (S754_finite false 5030569068109113 (-58))) (of_Z 2)
  = S754_zero false.
Proof. vm_compute. reflexivity. Qed.

Lemma degree_is_double : is_double (S754_finite false 5030569068109113 (-58)).
Proof. vm_compute. reflexivity. Qed.

Lemma to_radians_finite (x : double) :
  is_double x -> finite_or_zero x ->
  finite_or_zero (mul x (div Math_PI (of_Z 180))).
Proof.
  intros Hx Hf. rewrite degree_value. apply SFmul_finite.
  - exact Hx.
  - exact degree_is_double.
  - destruct x as [s | s | | s m e]; cbn [finite_or_zero] in Hf; try tauto.
    destruct (valid_finite s m e Hx) as [_ He]. lia.
Qed.

Lemma at_most_one (c : double) :
  SFleb (SFabs c) (of_Z 1) = true ->
  match c with
  | S754_zero _ => True
  | S754_finite _ _ e => e <= -52
  | _ => False
  end.
Proof.
  rewrite one_value.
  destruct c as [s | s | | s m e]; unfold SFleb; cbn [SFabs SFcompare].
  - tauto.
  - discriminate.
  - discriminate.
  - destruct (Z.compare_spec e (-52)) as [E | L | G]; intros H;
      first [lia | discriminate].
Qed.

Lemma SFmul_zero_r (x : double) :
  finite_or_zero x -> exists s, mul x (S754_zero false) = S754_zero s.
Proof.
  destruct x as [s | s | | s m e]; cbn [finite_or_zero]; try tauto; intros _;
    eexists; reflexivity.
Qed.

(** ** The distance of a point to itself *)

Lemma cos_cos_finite (h : host) (x : double) :
  cos_in_range h ->
  finite_or_zero x -> finite_or_zero (mul (Math_cos h x) (Math_cos h x)).
Proof.
  intros cos_range Hx. destruct (cos_range x Hx) as [Hv Hle].
  pose proof (at_most_one _ Hle) as H1.
  apply SFmul_finite; try exact Hv.
  destruct (Math_cos h x) as [s | s | | s m e]; try tauto. lia.
Qed.

Lemma add_zero_zero (s : bool) :
  add (S754_zero false) (mul (S754_zero s) (S754_zero false)) = S754_zero false.
Proof. destruct s; reflexivity. Qed.

Lemma sqrt_zero : Math_sqrt (S754_zero false) = S754_zero false.
Proof. reflexivity. Qed.

Lemma scale_zero :
  mul (of_Z 6371) (mul (of_Z 2) (S754_zero false)) = S754_zero false.
Proof. vm_compute. reflexivity. Qed.

(** X25.  On IEEE doubles, for a host whose [Math.sin] maps [+0] to [+0],
    whose [Math.cos] stays within [[-1, 1]] on finite numbers and whose
    [Math.atan2] maps [(+0, x)] to [+0] for positive [x]: the distance of a
    point with finite coordinates to itself is [+0], whatever the rounding
    of the intermediate products. *)
Theorem double_distance_to_itself_is_zero :
  forall (h : host) (lat lon : double),
    sin_of_zero h -> cos_in_range h -> atan2_of_zero h ->
    is_double lat -> finite_or_zero lat -> finite_or_zero lon ->
    Binary64.calculateDistance h lat lon lat lon = S754_zero false.
Proof.
  intros h lat lon sin_zero cos_range atan2_zero Hv Hlat Hlon.
  unfold Binary64.calculateDistance. cbv zeta.
  rewrite (SFsub_diag lat Hlat), (SFsub_diag lon Hlon).
  destruct (SFmul_zero_r _ (cos_cos_finite h _ cos_range
                              (to_radians_finite lat Hv Hlat)))
    as [s Hs].
  rewrite degree_value in *.
  rewrite half_of_zero, sin_zero.
  rewrite Hs.
  replace (mul (S754_zero false) (S754_zero false)) with (S754_zero false)
    by reflexivity.
  rewrite add_zero_zero, sqrt_zero, sqrt_one.
  rewrite (atan2_zero _ zero_lt_one).
  apply scale_zero.
Qed.

Lemma small_angles_sin_of_zero : sin_of_zero small_angles.
Proof. reflexivity. Qed.

Lemma small_angles_sin_is_odd : sin_is_odd small_angles.
Proof. intros x. reflexivity. Qed.

Lemma small_angles_cos_in_range : cos_in_range small_angles.
Proof. intros x _. cbn [small_angles Math_cos]. rewrite one_value. split; vm_compute; reflexivity. Qed.

Lemma small_angles_atan2_of_zero : atan2_of_zero small_angles.
Proof.
  intros x Hx. cbn [small_angles Math_atan2]. unfold div.
  destruct x as [s | s | | s m e]; cbn in Hx; try discriminate.
  - destruct s; [discriminate | reflexivity].
  - destruct s; [discriminate | reflexivity].
Qed.

Lemma double_distance_to_itself_is_zero_witness :
  Binary64.calculateDistance small_angles (of_Z 13) (of_Z 77) (of_Z 13) (of_Z 77)
  = S754_zero false.
Proof.
  apply (double_distance_to_itself_is_zero small_angles (of_Z 13) (of_Z 77)
           small_angles_sin_of_zero small_angles_cos_in_range
           small_angles_atan2_of_zero).
  - vm_compute. reflexivity.
  - vm_compute. exact I.
  - vm_compute. exact I.
Defined.

(** ** Symmetry *)

Lemma half_sin_opp (h : host) (d : double) :
  sin_is_odd h -> half_sin h (SFopp d) = SFopp (half_sin h d).
Proof. intros sin_odd. unfold half_sin. rewrite SFmul_opp_l, SFdiv_opp_l. apply sin_odd. Qed.

Lemma half_sin_swap (h : host) (x y : double) (c : double) :
  sin_is_odd h ->
  mul (half_sin h (sub y x)) (half_sin h (sub y x))
  = mul (half_sin h (sub x y)) (half_sin h (sub x y)) /\
  mul (mul c (half_sin h (sub y x))) (half_sin h (sub y x))
  = mul (mul c (half_sin h (sub x y))) (half_sin h (sub x y)).
Proof.
  intros sin_odd. destruct (SFsub_swap x y) as [E | [E1 E2]].
  - rewrite E, (half_sin_opp h _ sin_odd). split.
    + apply SFmul_opp_opp.
    + rewrite (SFmul_opp_r c), SFmul_opp_opp. reflexivity.
  - rewrite E1, E2. split; reflexivity.
Qed.

(** X26.  On IEEE doubles, for a host whose [Math.sin] is odd: the distance
    from one point to another is the distance back, bit for bit, for all
    doubles, [NaN] and the infinities included. *)
Theorem double_distance_is_symmetric :
  forall (h : host) (lat1 lon1 lat2 lon2 : double),
    sin_is_odd h ->
    Binary64.calculateDistance h lat1 lon1 lat2 lon2
    = Binary64.calculateDistance h lat2 lon2 lat1 lon1.
Proof.
  intros h lat1 lon1 lat2 lon2 sin_odd.
  unfold Binary64.calculateDistance. cbv zeta.
  fold (half_sin h (sub lat2 lat1)). fold (half_sin h (sub lon2 lon1)).
  fold (half_sin h (sub lat1 lat2)). fold (half_sin h (sub lon1 lon2)).
  rewrite (proj1 (half_sin_swap h lat1 lat2 (of_Z 0) sin_odd)).
  rewrite (proj2 (half_sin_swap h lon1 lon2 _ sin_odd)).
  rewrite (SFmul_comm (Math_cos h (mul lat1 _)) (Math_cos h (mul lat2 _))).
  reflexivity.
Qed.

Lemma double_distance_is_symmetric_witness :
  Binary64.calculateDistance small_angles (of_Z 13) (of_Z 77) (of_Z 12) (of_Z 78)
  = Binary64.calculateDistance small_angles (of_Z 12) (of_Z 78) (of_Z 13) (of_Z 77).
Proof.
  exact (double_distance_is_symmetric small_angles (of_Z 13) (of_Z 77)
           (of_Z 12) (of_Z 78) small_angles_sin_is_odd).
Defined.

End Doubles.
